(** * simple-dynamo-ts: decorator metadata and the generic DynamoDB repository

    A shallow embedding of [src/decorators.ts], [src/exceptions.ts],
    [src/types.ts], [src/simple-dynamodb-repository.ts] and the example
    [src/entity-example.ts] with [src/repository-example.ts], and the
    properties of the specification checked against it.

    Conventions of the embedding.
    - A JavaScript string is a [string]: a sequence of 8-bit code units.
    - A JavaScript [number] is carried as an integer of [Z]; the code never
      computes with key values, it only stores and forwards them.
    - A record used as a map ([Record<string, string>], a key map, an item)
      is a finite map over its own properties.  Reading a property of a
      record under a computed name also finds what every object inherits
      from [Object.prototype] ([constructor], [toString], ...): such a value
      is a [Member], not a string, and a name read from a record is a
      [Name].  Writing under the computed name [__proto__] goes to the
      inherited setter.
    - An optional parameter or an absent property is an [option]; [None] is
      [undefined].
    - Code that throws returns a [Result]; code that also changes state runs
      in the state-and-exception monad [M].
    - Classes are taken without decorated superclasses: a metadata lookup on
      a constructor or a prototype finds what was defined on that object. *)

From Stdlib Require Import ZArith String Ascii List Lia.
From stdpp Require Import base decidable countable strings gmap option list.
Import ListNotations.
Open Scope string_scope.

(** ** JavaScript strings *)

(** The double-quote character, used inside error messages. *)
Definition dq : string := String (ascii_of_nat 34) EmptyString.

(** [WhiteSpace] and [LineTerminator] code units below 256: TAB, LF, VT, FF,
    CR, SP and NBSP.  These are the characters [String.prototype.trim]
    removes. *)
Definition isWhiteSpace (a : ascii) : bool :=
  let n := nat_of_ascii a in
  (Nat.eqb n 9 || Nat.eqb n 10 || Nat.eqb n 11 || Nat.eqb n 12
   || Nat.eqb n 13 || Nat.eqb n 32 || Nat.eqb n 160)%bool.

Fixpoint trimStart (s : string) : string :=
  match s with
  | EmptyString => EmptyString
  | String a s' => if isWhiteSpace a then trimStart s' else s
  end.

Fixpoint trimEnd (s : string) : string :=
  match s with
  | EmptyString => EmptyString
  | String a s' =>
      match trimEnd s' with
      | EmptyString => if isWhiteSpace a then EmptyString else String a EmptyString
      | t => String a t
      end
  end.

(** [s.trim()] *)
Definition trim (s : string) : string := trimEnd (trimStart s).

(** Every code unit of [s] is white space (true of the empty string). *)
Fixpoint allWhiteSpace (s : string) : bool :=
  match s with
  | EmptyString => true
  | String a s' => isWhiteSpace a && allWhiteSpace s'
  end.

(** ** Names at run time

    The properties every object inherits from [Object.prototype]. *)
Definition objectPrototypeMember (name : string) : bool :=
  existsb (String.eqb name)
    [ "constructor"; "hasOwnProperty"; "isPrototypeOf"; "propertyIsEnumerable";
      "toLocaleString"; "toString"; "valueOf"; "__proto__";
      "__defineGetter__"; "__defineSetter__"; "__lookupGetter__";
      "__lookupSetter__" ].

(** What the code holds where its types say [string]: a string, or, after
    a record was read under the name of an inherited property, that member
    of [Object.prototype] (a function; the prototype object itself for
    [__proto__]). *)
Inductive Name : Type :=
| Field (s : string)
| Member (name : string).

Coercion Field : string >-> Name.

(** Where a name is expected, a string stands for its [Field], also under
    [Some] and [Return]. *)
Arguments Some {A} & a.

(** [String(x)] and the text of [x] in a template literal.  The text of a
    built-in function is the one the engine prints. *)
Definition nameText (x : Name) : string :=
  match x with
  | Field s => s
  | Member name =>
      if name =? "__proto__" then "[object Object]"
      else "function "
           +:+ (if name =? "constructor" then "Object" else name)
           +:+ "() { [native code] }"
  end.

(** [ToBoolean]: the empty string is falsy, a function or an object is
    truthy. *)
Class Truthy (N : Type) : Type := toBoolean : N -> bool.

#[global] Instance string_Truthy : Truthy string := fun v => negb (v =? "").

#[global] Instance Name_Truthy : Truthy Name :=
  fun x => match x with
           | Field v => negb (v =? "")
           | Member _ => true
           end.

(** Truthiness of an optional value: [undefined] is falsy. *)
Definition truthy {N} `{Truthy N} (s : option N) : bool :=
  match s with
  | Some v => toBoolean v
  | None => false
  end.

(** [obj[name]] on a record whose own properties hold strings. *)
Definition readProperty (obj : gmap string string) (name : string)
  : option Name :=
  match obj !! name with
  | Some v => Some (Field v)
  | None => if objectPrototypeMember name then Some (Member name) else None
  end.

(** [obj[name] = value] on a record, for a value that is a string or a
    number: the inherited setter [__proto__] ignores such a value, unless
    the record has an own property of that name. *)
Definition assignProperty {V} (name : string) (value : V) (obj : gmap string V)
  : gmap string V :=
  match obj !! name with
  | None => if name =? "__proto__" then obj else <[name := value]> obj
  | Some _ => <[name := value]> obj
  end.

(** ** Exceptions ([src/exceptions.ts]) *)

Inductive error : Type :=
| Error (message : string)
| ItemNotFoundError (message : string)
| InvalidParametersError (message : string)
| DecoratorMissingError (message : string)
| DuplicateDecoratorError (message : string)
| ServiceError (name message : string).

Definition isDuplicateDecoratorError (e : error) : bool :=
  match e with DuplicateDecoratorError _ => true | _ => false end.

Definition isDecoratorMissingError (e : error) : bool :=
  match e with DecoratorMissingError _ => true | _ => false end.

Definition isInvalidParametersError (e : error) : bool :=
  match e with InvalidParametersError _ => true | _ => false end.

Definition isItemNotFoundError (e : error) : bool :=
  match e with ItemNotFoundError _ => true | _ => false end.

(** ** Results and the state-and-exception monad *)

Inductive Result (A : Type) : Type :=
| Return (a : A)
| Throw (e : error).
Arguments Return {A} & a.
Arguments Throw {A} e.

Definition bindR {A B} (r : Result A) (k : A -> Result B) : Result B :=
  match r with
  | Return a => k a
  | Throw e => Throw e
  end.

Definition M (S A : Type) : Type := S -> Result A * S.

Definition ret {S A} (a : A) : M S A := fun s => (Return a, s).

Definition throw {S A} (e : error) : M S A := fun s => (Throw e, s).

Definition bind {S A B} (m : M S A) (k : A -> M S B) : M S B :=
  fun s =>
    match m s with
    | (Return a, s') => k a s'
    | (Throw e, s') => (Throw e, s')
    end.

Definition lift {S A} (r : Result A) : M S A := fun s => (r, s).

(** [try { m } catch (error) { h error }] *)
Definition tryCatch {S A} (m : M S A) (h : error -> M S A) : M S A :=
  fun s =>
    match m s with
    | (Return a, s') => (Return a, s')
    | (Throw e, s') => h e s'
    end.

Definition gets {S A} (f : S -> A) : M S A := fun s => (Return (f s), s).

Definition modify {S} (f : S -> S) : M S unit := fun s => (Return tt, f s).

Declare Scope js_scope.
Delimit Scope js_scope with js.
Notation "x <- m ;; k" := (bind m (fun x => k))
  (at level 100, m at next level, right associativity) : js_scope.
Notation "m ;;; k" := (bind m (fun _ => k))
  (at level 100, right associativity) : js_scope.
Notation "x <-! r ;; k" := (bindR r (fun x => k))
  (at level 100, r at next level, right associativity) : js_scope.
Open Scope js_scope.

(** ** Types ([src/types.ts]) *)

(** [DynamoKey = string | number] *)
Inductive DynamoKey : Type :=
| KString (s : string)
| KNumber (n : Z).

(** [DynamoKeyMap = Record<string, DynamoKey>] *)
Abbreviation DynamoKeyMap := (gmap string DynamoKey).

(** The comparators of [QueryOptions.skComparator]. *)
Inductive SkComparator : Type :=
| CmpEq | CmpGt | CmpLt | CmpGe | CmpLe | CmpBetween | CmpBeginsWith.

Definition comparatorText (c : SkComparator) : string :=
  match c with
  | CmpEq => "="
  | CmpGt => ">"
  | CmpLt => "<"
  | CmpGe => ">="
  | CmpLe => "<="
  | CmpBetween => "BETWEEN"
  | CmpBeginsWith => "begins_with"
  end.

Record QueryOptions : Type := {
  pk : DynamoKey;
  sk : option DynamoKey;
  skComparator : option SkComparator;
  indexName : option string;
  scanIndexForward : option bool;
  limit : option Z
}.

(** A class: its [name] and its identity.  Two classes of the same name are
    different classes. *)
Record NewableFunction : Type := {
  fn_name : string;
  fn_id : positive
}.

(** [DynamoEntityTarget = NewableFunction | { constructor: NewableFunction }] *)
Inductive DynamoEntityTarget : Type :=
| Class (c : NewableFunction)
| Instance (c : NewableFunction).

(** The objects metadata is attached to: a class (its constructor function)
    and its prototype. *)
Inductive object : Type :=
| Constructor (c : NewableFunction)
| Prototype (c : NewableFunction).

#[global] Instance NewableFunction_eq_dec : EqDecision NewableFunction.
Proof. solve_decision. Defined.

#[global] Instance NewableFunction_countable : Countable NewableFunction.
Proof.
  apply (inj_countable' (fun c => (fn_name c, fn_id c))
                        (fun p => {| fn_name := p.1; fn_id := p.2 |})).
  intros []; reflexivity.
Defined.

#[global] Instance object_eq_dec : EqDecision object.
Proof. solve_decision. Defined.

#[global] Instance object_countable : Countable object.
Proof.
  apply (inj_countable'
           (fun o => match o with Constructor c => inl c | Prototype c => inr c end)
           (fun s => match s with inl c => Constructor c | inr c => Prototype c end)).
  intros []; reflexivity.
Defined.

(** A property key: a string or a symbol with its description. *)
Inductive PropertyKey : Type :=
| PString (s : string)
| PSymbol (description : string).

(** [String(propertyKey)] *)
Definition String_ (p : PropertyKey) : string :=
  match p with
  | PString s => s
  | PSymbol d => "Symbol(" +:+ d +:+ ")"
  end.

(** ** The metadata store ([reflect-metadata])

    [Reflect.defineMetadata(key, value, target)] and
    [Reflect.getMetadata(key, target)], split by the type the code reads
    each key at: a string for the table name and the two primary keys, a
    record from index name to field name for the two index keys. *)

Record Metadata : Type := {
  stringMeta : gmap (object * string) string;
  recordMeta : gmap (object * string) (gmap string string)
}.

Definition noMetadata : Metadata :=
  {| stringMeta := ∅; recordMeta := ∅ |}.

Definition DYNAMO_TABLE_NAME_KEY : string := "dynamo:table:name".
Definition DYNAMO_PARTITION_KEY_KEY : string := "dynamo:partition:key".
Definition DYNAMO_SORT_KEY_KEY : string := "dynamo:sort:key".
Definition DYNAMO_INDEX_PARTITION_KEYS_KEY : string := "dynamo:index:partition:keys".
Definition DYNAMO_INDEX_SORT_KEYS_KEY : string := "dynamo:index:sort:keys".

Definition getMetadataString (key : string) (target : object) (R : Metadata)
  : option string :=
  stringMeta R !! (target, key).

Definition getMetadataRecord (key : string) (target : object) (R : Metadata)
  : option (gmap string string) :=
  recordMeta R !! (target, key).

Definition defineMetadataString (key value : string) (target : object)
  : M Metadata unit :=
  modify (fun R => {| stringMeta := <[(target, key) := value]> (stringMeta R);
                      recordMeta := recordMeta R |}).

Definition defineMetadataRecord (key : string) (value : gmap string string)
    (target : object) : M Metadata unit :=
  modify (fun R => {| stringMeta := stringMeta R;
                      recordMeta := <[(target, key) := value]> (recordMeta R) |}).

(** ** Decorators ([src/decorators.ts]) *)

Definition getConstructor (target : DynamoEntityTarget) : NewableFunction :=
  match target with
  | Class c => c
  | Instance c => c
  end.

Definition getPrototype (target : DynamoEntityTarget) : object :=
  Prototype (getConstructor target).

(** [target.constructor?.name || "Unknown"]: the constructor of a prototype
    is its class, the constructor of a class is [Function]. *)
Definition constructorName (target : object) : string :=
  let name := match target with
              | Prototype c => fn_name c
              | Constructor _ => "Function"
              end in
  if name =? "" then "Unknown" else name.

Definition validateDuplicateDecorator (target : object) (key decoratorName : string)
    (conflict : string) : M Metadata unit :=
  existingKey <- gets (getMetadataString key target) ;;
  match existingKey with
  | Some existing =>
      throw (DuplicateDecoratorError
               ("Multiple " +:+ decoratorName +:+ " decorators found in class "
                +:+ dq +:+ constructorName target +:+ dq +:+ ". "
                +:+ "Existing decorator: " +:+ dq +:+ existing +:+ dq
                +:+ ", conflicting property: " +:+ dq +:+ conflict +:+ dq))
  | None => ret tt
  end.

Definition validateNonEmptyString (value paramName : string) : Result unit :=
  if trim value =? "" then
    Throw (Error ("Invalid " +:+ paramName +:+ ": cannot be an empty string."))
  else Return tt.

(** [if (name) { validateNonEmptyString(name, paramName); }] *)
Definition validateIfTruthy (name : option string) (paramName : string)
  : Result unit :=
  match name with
  | Some v => if truthy (Some v) then validateNonEmptyString v paramName
              else Return tt
  | None => Return tt
  end.

(** [name ?? fallback] *)
Definition orElse (name : option string) (fallback : string) : string :=
  match name with
  | Some v => v
  | None => fallback
  end.

Definition DynamoTable (tableName : option string) (target : NewableFunction)
  : M Metadata unit :=
  lift (validateIfTruthy tableName "tableName") ;;;
  let dynamoTableName := orElse tableName (fn_name target) in
  validateDuplicateDecorator (Constructor target) DYNAMO_TABLE_NAME_KEY
    "@DynamoTable" dynamoTableName ;;;
  defineMetadataString DYNAMO_TABLE_NAME_KEY dynamoTableName (Constructor target).

Definition PartitionKey (fieldName : option string) (target : object)
    (propertyKey : PropertyKey) : M Metadata unit :=
  lift (validateIfTruthy fieldName "fieldName") ;;;
  let dynamoFieldName := orElse fieldName (String_ propertyKey) in
  validateDuplicateDecorator target DYNAMO_PARTITION_KEY_KEY "@PartitionKey"
    dynamoFieldName ;;;
  defineMetadataString DYNAMO_PARTITION_KEY_KEY dynamoFieldName target.

Definition SortKey (fieldName : option string) (target : object)
    (propertyKey : PropertyKey) : M Metadata unit :=
  lift (validateIfTruthy fieldName "fieldName") ;;;
  let dynamoFieldName := orElse fieldName (String_ propertyKey) in
  validateDuplicateDecorator target DYNAMO_SORT_KEY_KEY "@SortKey"
    (String_ propertyKey) ;;;
  defineMetadataString DYNAMO_SORT_KEY_KEY dynamoFieldName target.

(** The body shared by [IndexPartitionKey] and [IndexSortKey]: they differ in
    the metadata key and in two words of the message. *)
Definition indexKeyDecorator (key decoratorName kind : string)
    (indexName : string) (fieldName : option string) (target : object)
    (propertyKey : PropertyKey) : M Metadata unit :=
  lift (validateNonEmptyString indexName "indexName") ;;;
  lift (validateIfTruthy fieldName "fieldName") ;;;
  let dynamoFieldName := orElse fieldName (String_ propertyKey) in
  stored <- gets (getMetadataRecord key target) ;;
  let existingKeys := default ∅ stored in
  match readProperty existingKeys indexName with
  | Some existing =>
      throw (DuplicateDecoratorError
               ("Multiple " +:+ decoratorName +:+ " decorators found for index "
                +:+ dq +:+ indexName +:+ dq +:+ " in class "
                +:+ dq +:+ constructorName target +:+ dq +:+ ". "
                +:+ "Existing " +:+ kind +:+ " key: "
                +:+ dq +:+ nameText existing +:+ dq
                +:+ ", conflicting property: " +:+ dq +:+ String_ propertyKey +:+ dq))
  | None =>
      defineMetadataRecord key
        (assignProperty indexName dynamoFieldName existingKeys) target
  end.

Definition IndexPartitionKey (indexName : string) (fieldName : option string)
    (target : object) (propertyKey : PropertyKey) : M Metadata unit :=
  indexKeyDecorator DYNAMO_INDEX_PARTITION_KEYS_KEY "@IndexPartitionKey" "partition"
    indexName fieldName target propertyKey.

Definition IndexSortKey (indexName : string) (fieldName : option string)
    (target : object) (propertyKey : PropertyKey) : M Metadata unit :=
  indexKeyDecorator DYNAMO_INDEX_SORT_KEYS_KEY "@IndexSortKey" "sort"
    indexName fieldName target propertyKey.

(** *** Resolvers *)

Definition getDynamoTableName (target : DynamoEntityTarget) (R : Metadata)
  : option string :=
  getMetadataString DYNAMO_TABLE_NAME_KEY (Constructor (getConstructor target)) R.

Definition getPartitionKeyName (target : DynamoEntityTarget) (R : Metadata)
  : option string :=
  getMetadataString DYNAMO_PARTITION_KEY_KEY (getPrototype target) R.

Definition getSortKeyName (target : DynamoEntityTarget) (R : Metadata)
  : option string :=
  getMetadataString DYNAMO_SORT_KEY_KEY (getPrototype target) R.

(** [indexKeys?.[indexName]] after the check of the index name.  The
    declared result is [string | undefined]; what the lookup returns is a
    [Name]. *)
Definition getIndexKeyName (key : string) (target : DynamoEntityTarget)
    (indexName : string) (R : Metadata) : Result (option Name) :=
  if (negb (truthy (Some indexName)) || (trim indexName =? ""))%bool then
    Throw (Error "indexName cannot be empty")
  else
    match getMetadataRecord key (getPrototype target) R with
    | Some indexKeys => Return (readProperty indexKeys indexName)
    | None => Return None
    end.

Definition getIndexPartitionKeyName (target : DynamoEntityTarget)
    (indexName : string) (R : Metadata) : Result (option Name) :=
  getIndexKeyName DYNAMO_INDEX_PARTITION_KEYS_KEY target indexName R.

Definition getIndexSortKeyName (target : DynamoEntityTarget)
    (indexName : string) (R : Metadata) : Result (option Name) :=
  getIndexKeyName DYNAMO_INDEX_SORT_KEYS_KEY target indexName R.

(** ** The store client ([@aws-sdk/lib-dynamodb])

    The client is external: the repository only builds commands, hands them
    to [client.send] and reads fields of the response. *)

Inductive Value : Type :=
| VString (s : string)
| VNumber (n : Z)
| VBoolean (b : bool)
| VNull.

(** An item: [Record<string, unknown>], a flat record of named fields. *)
Abbreviation Item := (gmap string Value).

Record QueryCommandInput : Type := {
  qTableName : string;
  qIndexName : option string;
  qKeyConditionExpression : string;
  qExpressionAttributeNames : gmap string Name;
  qExpressionAttributeValues : gmap string DynamoKey;
  qLimit : option Z;
  qScanIndexForward : bool
}.

Inductive Command : Type :=
| GetCommand (TableName : string) (Key : DynamoKeyMap)
| PutCommand (TableName : string) (Item_ : Item)
    (ConditionExpression : option string)
    (ExpressionAttributeNames : option (gmap string Name))
| DeleteCommand (TableName : string) (Key : DynamoKeyMap)
| QueryCommand (input : QueryCommandInput).

Definition isRead (c : Command) : bool :=
  match c with GetCommand _ _ => true | _ => false end.

Definition isWrite (c : Command) : bool :=
  match c with PutCommand _ _ _ _ => true | _ => false end.

(** The fields the repository reads of a response; each may be absent. *)
Record Response : Type := {
  rItem : option Item;
  rItems : option (list Item);
  rLastEvaluatedKey : option Item;
  rCount : option Z
}.

Definition emptyResponse : Response :=
  {| rItem := None; rItems := None; rLastEvaluatedKey := None; rCount := None |}.

(** What an operation of the repository can observe and change: the state
    behind the client, the commands sent so far (oldest first), the lines
    written with [console.error], and the clock (milliseconds since the
    epoch). *)
Record World (C : Type) : Type := {
  client : C;
  sent : list Command;
  console : list (string * error);
  clock : Z
}.
Arguments client {C} w.
Arguments sent {C} w.
Arguments console {C} w.
Arguments clock {C} w.

(** ** [Date.prototype.toISOString] *)

Definition digit (d : Z) : string :=
  String (ascii_of_nat (48 + Z.to_nat d)) EmptyString.

(** The last [width] decimal digits of [n], most significant first. *)
Fixpoint padDigits (width : nat) (n : Z) : string :=
  match width with
  | O => EmptyString
  | S w => padDigits w (n / 10) +:+ digit (n mod 10)
  end.

(** Year, month and day of the day number [z] (days since 1970-01-01) in the
    proleptic Gregorian calendar. *)
Definition civilFromDays (z : Z) : Z * Z * Z :=
  let z := (z + 719468)%Z in
  let era := (z / 146097)%Z in
  let doe := (z - era * 146097)%Z in
  let yoe := ((doe - doe / 1460 + doe / 36524 - doe / 146096) / 365)%Z in
  let doy := (doe - (365 * yoe + yoe / 4 - yoe / 100))%Z in
  let mp := ((5 * doy + 2) / 153)%Z in
  let d := (doy - (153 * mp + 2) / 5 + 1)%Z in
  let m := (if (mp <? 10)%Z then mp + 3 else mp - 9)%Z in
  let y := (yoe + era * 400 + (if (m <=? 2)%Z then 1 else 0))%Z in
  (y, m, d).

Definition yearText (y : Z) : string :=
  if ((0 <=? y) && (y <=? 9999))%Z%bool then padDigits 4 y
  else (if (y <? 0)%Z then "-" else "+") +:+ padDigits 6 (Z.abs y).

(** [new Date(t).toISOString()] for a time value [t]. *)
Definition toISOString (t : Z) : string :=
  let '(y, m, d) := civilFromDays (t / 86400000) in
  let ms := (t mod 86400000)%Z in
  yearText y +:+ "-" +:+ padDigits 2 m +:+ "-" +:+ padDigits 2 d
  +:+ "T" +:+ padDigits 2 (ms / 3600000)
  +:+ ":" +:+ padDigits 2 (ms / 60000 mod 60)
  +:+ ":" +:+ padDigits 2 (ms / 1000 mod 60)
  +:+ "." +:+ padDigits 3 (ms mod 1000) +:+ "Z".

(** ** The repository ([src/simple-dynamodb-repository.ts]) *)

(** The value of [x] when it is truthy. *)
Definition asTruthy {N} `{Truthy N} (x : option N) : option N :=
  if truthy x then x else None.

(** An argument of type [T] at run time: an object, or one of the two
    absent values. *)
Inductive Arg : Type :=
| Undefined
| Null
| Object_ (item : Item).

(** The three builders below store and test the names they are given and
    never look inside them: they are written once, for strings as their
    signatures say and for what [getPKName] and [getSKName] hand them. *)
Record QueryExpressions (N : Type) : Type := {
  keyConditionExpression : string;
  expressionAttributeNames : gmap string N;
  expressionAttributeValues : gmap string DynamoKey
}.
Arguments keyConditionExpression {N} _.
Arguments expressionAttributeNames {N} _.
Arguments expressionAttributeValues {N} _.

Record QueryResult : Type := {
  items : option (list Item);
  lastEvaluatedKey : option Item;
  count : Z
}.

(** The text a template literal gives an optional string. *)
Definition templateText (x : option string) : string :=
  match x with
  | Some v => v
  | None => "undefined"
  end.

Definition buildQueryExpressions {N} `{Truthy N} (pk : DynamoKey) (pkName : N)
    (sk : option DynamoKey) (skName : option N)
    (skComparator : option string) : QueryExpressions N :=
  let expressionAttributeNames : gmap string N := {[ "#pk" := pkName ]} in
  let expressionAttributeValues : gmap string DynamoKey := {[ ":pkValue" := pk ]} in
  let keyConditionExpression := "#pk = :pkValue" in
  match sk, asTruthy skName with
  | Some skValue, Some skName =>
      let skComparisonString :=
        match skComparator with
        | Some c => if c =? "begins_with" then "begins_with(#sk, :skValue)"
                    else "#sk " +:+ c +:+ " :skValue"
        | None => "#sk " +:+ templateText None +:+ " :skValue"
        end in
      {| keyConditionExpression :=
           keyConditionExpression +:+ " AND " +:+ skComparisonString;
         expressionAttributeNames := <[ "#sk" := skName ]> expressionAttributeNames;
         expressionAttributeValues := <[ ":skValue" := skValue ]> expressionAttributeValues |}
  | _, _ =>
      {| keyConditionExpression := keyConditionExpression;
         expressionAttributeNames := expressionAttributeNames;
         expressionAttributeValues := expressionAttributeValues |}
  end.

Definition buildCreateConditionExpression {N} `{Truthy N} (skName : option N)
  : string :=
  if truthy skName then "attribute_not_exists(#pk) AND attribute_not_exists(#sk)"
  else "attribute_not_exists(#pk)".

Definition buildExpressionAttributeNames {N} `{Truthy N} (pkName : N)
    (skName : option N) : gmap string N :=
  let expressionAttributeNames : gmap string N := {[ "#pk" := pkName ]} in
  match asTruthy skName with
  | Some skName => <[ "#sk" := skName ]> expressionAttributeNames
  | None => expressionAttributeNames
  end.

Section Repository.

(** The state behind the client and [client.send]: a response or a
    rejection, and the state afterwards. *)
Context {C : Type}.
Variable send : Command -> C -> Result Response * C.

(** The metadata as it stands when the operation runs, and the class the
    repository is bound to. *)
Variable R : Metadata.
Variable entityClass : NewableFunction.

Definition clientSend (command : Command) : M (World C) Response :=
  fun w =>
    let (response, c) := send command (client w) in
    (response, {| client := c; sent := sent w ++ [command];
                  console := console w; clock := clock w |}).

Definition consoleError (message : string) (e : error) : M (World C) unit :=
  modify (fun w => {| client := client w; sent := sent w;
                      console := console w ++ [(message, e)];
                      clock := clock w |}).

(** [catch (error) { console.error(message, error); throw error; }] *)
Definition logAndRethrow {A} (message : string) (e : error) : M (World C) A :=
  consoleError message e ;;; throw e.

Definition getTableName : Result string :=
  match asTruthy (getDynamoTableName (Class entityClass) R) with
  | Some tableName => Return tableName
  | None =>
      Throw (DecoratorMissingError
               ("Table name not found for entity class " +:+ dq
                +:+ fn_name entityClass +:+ dq
                +:+ ". Make sure the class is decorated with @DynamoTable."))
  end.

Definition getPKName (indexName : option string) : Result Name :=
  pkName <-! match asTruthy indexName with
             | Some indexName => getIndexPartitionKeyName (Class entityClass) indexName R
             | None => Return None
             end ;;
  let pkName := if truthy pkName then pkName
                else Field <$> getPartitionKeyName (Class entityClass) R in
  match asTruthy pkName with
  | Some pkName => Return pkName
  | None =>
      Throw (DecoratorMissingError
               ("Partition key not found for entity class " +:+ dq
                +:+ fn_name entityClass +:+ dq
                +:+ ". Make sure a property is decorated with @PartitionKey."))
  end.

Definition getSKName (indexName : option string) : Result (option Name) :=
  skName <-! match asTruthy indexName with
             | Some indexName => getIndexSortKeyName (Class entityClass) indexName R
             | None => Return None
             end ;;
  Return (if truthy skName then skName
          else Field <$> getSortKeyName (Class entityClass) R).

Definition buildKeyMap (pk : DynamoKey) (sk : option DynamoKey)
  : Result DynamoKeyMap :=
  partitionKey <-! getPKName None ;;
  let keys : DynamoKeyMap := {[ nameText partitionKey := pk ]} in
  match sk with
  | Some sk =>
      sortKey <-! getSKName None ;;
      match asTruthy sortKey with
      | None =>
          Throw (DecoratorMissingError
                   ("Sort key provided but entity class " +:+ dq
                    +:+ fn_name entityClass +:+ dq
                    +:+ " does not have a sort key defined. Make sure a property is decorated with @SortKey."))
      | Some sortKey => Return (assignProperty (nameText sortKey) sk keys)
      end
  | None => Return keys
  end.

Definition create (item : Arg) : M (World C) Item :=
  match item with
  | Undefined | Null => throw (Error "Item cannot be null or undefined")
  | Object_ item =>
      tableName <- lift getTableName ;;
      partitionKey <- lift (getPKName None) ;;
      sortKey <- lift (getSKName None) ;;
      let conditionExpression := buildCreateConditionExpression sortKey in
      let expressionAttributeNames :=
        buildExpressionAttributeNames partitionKey sortKey in
      let command := PutCommand tableName item (Some conditionExpression)
                       (Some expressionAttributeNames) in
      tryCatch (clientSend command ;;; ret item)
               (logAndRethrow "Error creating item in DynamoDB:")
  end.

Definition getItem (pk : DynamoKey) (sk : option DynamoKey) : M (World C) Item :=
  tableName <- lift getTableName ;;
  key <- lift (buildKeyMap pk sk) ;;
  let command := GetCommand tableName key in
  tryCatch (response <- clientSend command ;;
            match rItem response with
            | Some item => ret item
            | None => throw (ItemNotFoundError "Item not found in your DynamoDB Table!")
            end)
           (logAndRethrow "Error getting item from DynamoDB:").

Definition put (item : Arg) : M (World C) Item :=
  match item with
  | Undefined | Null =>
      throw (InvalidParametersError "Item cannot be null or undefined!")
  | Object_ item =>
      tableName <- lift getTableName ;;
      let command := PutCommand tableName item None None in
      tryCatch (clientSend command ;;; ret item)
               (logAndRethrow "Error putting item to DynamoDB:")
  end.

Definition softDelete (pk : DynamoKey) (sk : option DynamoKey) : M (World C) unit :=
  item <- getItem pk sk ;;
  now <- gets clock ;;
  let item := <[ "deletedAt" := VString (toISOString now) ]> item in
  put (Object_ item) ;;;
  ret tt.

Definition remove (pk : DynamoKey) (sk : option DynamoKey) : M (World C) unit :=
  tableName <- lift getTableName ;;
  key <- lift (buildKeyMap pk sk) ;;
  let command := DeleteCommand tableName key in
  tryCatch (clientSend command ;;; ret tt)
           (logAndRethrow "Error deleting item from DynamoDB:").

Definition query (options : QueryOptions) : M (World C) QueryResult :=
  let skComparator := default CmpEq (skComparator options) in
  let scanIndexForward := default true (scanIndexForward options) in
  tableName <- lift getTableName ;;
  pkName <- lift (getPKName (indexName options)) ;;
  skName <- lift (match sk options with
                  | Some _ => getSKName (indexName options)
                  | None => Return None
                  end) ;;
  if match sk options with
     | Some _ => negb (truthy skName)
     | None => false
     end then
    throw (DecoratorMissingError
             ("Sort key provided but no sort key found in entity class " +:+ dq
              +:+ fn_name entityClass +:+ dq
              +:+ ". Make sure a property is decorated with @SortKey or @IndexSortKey."))
  else
    let e := buildQueryExpressions (pk options) pkName (sk options) skName
               (Some (comparatorText skComparator)) in
    let commandInput :=
      {| qTableName := tableName;
         qIndexName := indexName options;
         qKeyConditionExpression := keyConditionExpression e;
         qExpressionAttributeNames := expressionAttributeNames e;
         qExpressionAttributeValues := expressionAttributeValues e;
         qLimit := limit options;
         qScanIndexForward := scanIndexForward |} in
    tryCatch (response <- clientSend (QueryCommand commandInput) ;;
              ret {| items := rItems response;
                     lastEvaluatedKey := rLastEvaluatedKey response;
                     count := match rCount response with
                              | Some n => if (n =? 0)%Z then 0%Z else n
                              | None => 0%Z
                              end |})
             (logAndRethrow "Error querying items from DynamoDB:").

End Repository.

(** ** A scripted client

    The client of the test suite: [send] answers with the next queued
    result, whatever the command ([mockResolvedValueOnce] and
    [mockRejectedValueOnce]), and with an empty response once the queue is
    exhausted. *)

Definition scripted (command : Command) (queue : list (Result Response))
  : Result Response * list (Result Response) :=
  match queue with
  | r :: queue' => (r, queue')
  | [] => (Return emptyResponse, [])
  end.

Definition newWorld {C} (c : C) (t : Z) : World C :=
  {| client := c; sent := []; console := []; clock := t |}.

(** ** Declarations as data

    One applied decorator, so that the history of a registry can be
    quantified over. *)

Inductive Declaration : Type :=
| DeclDynamoTable (tableName : option string) (target : NewableFunction)
| DeclPartitionKey (fieldName : option string) (target : object)
    (propertyKey : PropertyKey)
| DeclSortKey (fieldName : option string) (target : object)
    (propertyKey : PropertyKey)
| DeclIndexPartitionKey (indexName : string) (fieldName : option string)
    (target : object) (propertyKey : PropertyKey)
| DeclIndexSortKey (indexName : string) (fieldName : option string)
    (target : object) (propertyKey : PropertyKey).

Definition applyDeclaration (d : Declaration) : M Metadata unit :=
  match d with
  | DeclDynamoTable tableName target => DynamoTable tableName target
  | DeclPartitionKey fieldName target propertyKey =>
      PartitionKey fieldName target propertyKey
  | DeclSortKey fieldName target propertyKey =>
      SortKey fieldName target propertyKey
  | DeclIndexPartitionKey indexName fieldName target propertyKey =>
      IndexPartitionKey indexName fieldName target propertyKey
  | DeclIndexSortKey indexName fieldName target propertyKey =>
      IndexSortKey indexName fieldName target propertyKey
  end.

(** The registry after the declarations [ds] were applied in order to [R];
    a declaration that throws leaves the registry as it found it and the
    later ones still run (each class is declared on its own). *)
Definition declare (ds : list Declaration) (R : Metadata) : Metadata :=
  fold_left (fun R d => snd (applyDeclaration d R)) ds R.

(** * Vocabulary of the properties *)

(** A name passes the check the decorators make of an optional name: it is
    absent, empty (the check is skipped for a falsy name), or has a code
    unit that is not white space. *)
Definition passesNameCheck (name : option string) : Prop :=
  forall v, name = Some v -> v = "" \/ allWhiteSpace v = false.

(** The optional name of a declaration fails the decorators' check: it is
    not empty and all white space. *)
Definition blankName (name : option string) : Prop :=
  exists v, name = Some v /\ v <> "" /\ allWhiteSpace v = true.

(** The expressions of a query on the partition key alone. *)
Definition partitionOnly (pk : DynamoKey) (pkName : string)
  : QueryExpressions string :=
  {| keyConditionExpression := "#pk = :pkValue";
     expressionAttributeNames := {[ "#pk" := pkName ]};
     expressionAttributeValues := {[ ":pkValue" := pk ]} |}.






(** The string entry a declaration may define. *)
Definition definesString (d : Declaration) : option (object * string) :=
  match d with
  | DeclDynamoTable _ target => Some (Constructor target, DYNAMO_TABLE_NAME_KEY)
  | DeclPartitionKey _ target _ => Some (target, DYNAMO_PARTITION_KEY_KEY)
  | DeclSortKey _ target _ => Some (target, DYNAMO_SORT_KEY_KEY)
  | _ => None
  end.

(** The record entry, and the index name in it, a declaration may define. *)
Definition definesIndex (d : Declaration) : option (object * string * string) :=
  match d with
  | DeclIndexPartitionKey indexName _ target _ =>
      Some (target, DYNAMO_INDEX_PARTITION_KEYS_KEY, indexName)
  | DeclIndexSortKey indexName _ target _ =>
      Some (target, DYNAMO_INDEX_SORT_KEYS_KEY, indexName)
  | _ => None
  end.

(** The field name registered for an index name under a record key. *)
Definition indexEntry (key : string) (target : object) (indexName : string)
    (R : Metadata) : option string :=
  getMetadataRecord key target R ≫= (fun keys => keys !! indexName).

(** What reading the record under an index name gives: the registered field
    name, or an inherited member when the record exists and has no such
    entry. *)
Definition indexLookup (key : string) (target : object) (indexName : string)
    (R : Metadata) : option Name :=
  getMetadataRecord key target R ≫= (fun keys => readProperty keys indexName).

(** The world after [command] was sent and the client moved to [c]. *)
Definition afterSend {C} (w : World C) (command : Command) (c : C) : World C :=
  {| client := c; sent := (sent w ++ [command])%list;
     console := console w; clock := clock w |}.

(** The same, after the rejection [e] was logged under [message]. *)
Definition afterRejection {C} (w : World C) (command : Command) (c : C)
    (message : string) (e : error) : World C :=
  {| client := c; sent := (sent w ++ [command])%list;
     console := (console w ++ [(message, e)])%list; clock := clock w |}.

(** The command [create] sends for an item of a class whose sort key
    resolves to [skName]. *)
Definition createCommand (tableName pkName : string) (skName : option string)
    (item : Item) : Command :=
  PutCommand tableName item
    (Some (buildCreateConditionExpression (Field <$> skName)))
    (Some (buildExpressionAttributeNames (Field pkName) (Field <$> skName))).

(** The input of a query on the partition key alone. *)
Definition partitionQueryInput (tableName pkName : string)
    (options : QueryOptions) : QueryCommandInput :=
  {| qTableName := tableName;
     qIndexName := indexName options;
     qKeyConditionExpression := "#pk = :pkValue";
     qExpressionAttributeNames := {[ "#pk" := Field pkName ]};
     qExpressionAttributeValues := {[ ":pkValue" := pk options ]};
     qLimit := limit options;
     qScanIndexForward := default true (scanIndexForward options) |}.

(** The input of a query with a sort value, once the two field names are
    resolved. *)
Definition sortQueryInput (tableName pkName skName : string)
    (skValue : DynamoKey) (options : QueryOptions) : QueryCommandInput :=
  let comparator := comparatorText (default CmpEq (skComparator options)) in
  {| qTableName := tableName;
     qIndexName := indexName options;
     qKeyConditionExpression :=
       if comparator =? "begins_with"
       then "#pk = :pkValue AND begins_with(#sk, :skValue)"
       else "#pk = :pkValue AND #sk " +:+ comparator +:+ " :skValue";
     qExpressionAttributeNames :=
       <[ "#sk" := Field skName ]> {[ "#pk" := Field pkName ]};
     qExpressionAttributeValues :=
       <[ ":skValue" := skValue ]> {[ ":pkValue" := pk options ]};
     qLimit := limit options;
     qScanIndexForward := default true (scanIndexForward options) |}.

(** * The classes of the test suite and of the examples

    Each registry is built by the decorators themselves, applied in the
    order the language applies them: the property decorators as the class
    body is evaluated, the class decorator last. *)

Definition TestEntity : NewableFunction :=
  {| fn_name := "TestEntity"; fn_id := 1 |}.

(** [@DynamoTable("TestTable") class TestEntity { @PartitionKey("pk") id;
    @SortKey("sk") timestamp; name }] *)
Definition testEntityMetadata : Metadata :=
  declare [ DeclPartitionKey (Some "pk") (Prototype TestEntity) (PString "id");
            DeclSortKey (Some "sk") (Prototype TestEntity) (PString "timestamp");
            DeclDynamoTable (Some "TestTable") TestEntity ] noMetadata.

Definition EntityPKOnly : NewableFunction :=
  {| fn_name := "EntityPKOnly"; fn_id := 2 |}.

(** [@DynamoTable("TestTable") class EntityPKOnly { @PartitionKey("pk") id;
    name }] *)
Definition pkOnlyMetadata : Metadata :=
  declare [ DeclPartitionKey (Some "pk") (Prototype EntityPKOnly) (PString "id");
            DeclDynamoTable (Some "TestTable") EntityPKOnly ] noMetadata.

Definition testItem : Item :=
  {[ "id" := VString "test-id"; "timestamp" := VString "2024-01-01";
     "name" := VString "Test Item" ]}.

Definition itemResponse (item : Item) : Response :=
  {| rItem := Some item; rItems := None; rLastEvaluatedKey := None; rCount := None |}.

Definition EntityEmptySortKey : NewableFunction :=
  {| fn_name := "EntityEmptySortKey"; fn_id := 3 |}.

(** [@DynamoTable("TestTable") class EntityEmptySortKey {
    @PartitionKey("pk") id; @SortKey("") timestamp }]: the empty field name
    is falsy, so [SortKey] skips its check and registers it. *)
Definition emptySortKeyMetadata : Metadata :=
  declare [ DeclPartitionKey (Some "pk") (Prototype EntityEmptySortKey) (PString "id");
            DeclSortKey (Some "") (Prototype EntityEmptySortKey) (PString "timestamp");
            DeclDynamoTable (Some "TestTable") EntityEmptySortKey ] noMetadata.



Definition EntityEmptyPartitionKey : NewableFunction :=
  {| fn_name := "EntityEmptyPartitionKey"; fn_id := 5 |}.

(** [@DynamoTable("TestTable") class EntityEmptyPartitionKey {
    @PartitionKey("") id }] *)
Definition emptyPartitionKeyMetadata : Metadata :=
  declare [ DeclPartitionKey (Some "") (Prototype EntityEmptyPartitionKey) (PString "id");
            DeclDynamoTable (Some "TestTable") EntityEmptyPartitionKey ] noMetadata.

Definition UserEntity : NewableFunction :=
  {| fn_name := "UserEntity"; fn_id := 6 |}.

(** [@DynamoTable("User") class UserEntity { @PartitionKey() orgId;
    @SortKey() id; @IndexSortKey("EmailIndex") email; ... }]
    ([src/entity-example.ts]) *)
Definition userEntityMetadata : Metadata :=
  declare [ DeclPartitionKey None (Prototype UserEntity) (PString "orgId");
            DeclSortKey None (Prototype UserEntity) (PString "id");
            DeclIndexSortKey "EmailIndex" None (Prototype UserEntity) (PString "email");
            DeclDynamoTable (Some "User") UserEntity ] noMetadata.

(** The options of [UsersRepository.findByEmail]
    ([src/repository-example.ts]). *)
Definition findByEmailOptions (email : string) : QueryOptions :=
  {| pk := KString "USER"; sk := Some (KString email); skComparator := None;
     indexName := Some "EmailIndex"; scanIndexForward := None; limit := None |}.

Definition EntityWithIndex : NewableFunction :=
  {| fn_name := "EntityWithIndex"; fn_id := 7 |}.

(** [@DynamoTable("TestTable") class EntityWithIndex { @PartitionKey("pk")
    id; @SortKey("sk") timestamp; @IndexPartitionKey("EmailIndex", "type")
    type; @IndexSortKey("EmailIndex", "email") email }] *)
Definition entityWithIndexMetadata : Metadata :=
  declare [ DeclPartitionKey (Some "pk") (Prototype EntityWithIndex) (PString "id");
            DeclSortKey (Some "sk") (Prototype EntityWithIndex) (PString "timestamp");
            DeclIndexPartitionKey "EmailIndex" (Some "type")
              (Prototype EntityWithIndex) (PString "type");
            DeclIndexSortKey "EmailIndex" (Some "email")
              (Prototype EntityWithIndex) (PString "email");
            DeclDynamoTable (Some "TestTable") EntityWithIndex ] noMetadata.

(** * The example repository ([src/repository-example.ts])

    [UsersRepository] is bound to [UserEntity] by its constructor; its
    methods call the generic operations with the partition value [USER]. *)

Module UsersRepository.

Section Methods.

Context {C : Type}.
Variable send : Command -> C -> Result Response * C.
Variable R : Metadata.

(** The options of [findAll]: [{ pk: "USER" }]. *)
Definition findAllOptions : QueryOptions :=
  {| pk := KString "USER"; sk := None; skComparator := None;
     indexName := None; scanIndexForward := None; limit := None |}.

Definition findAll : M (World C) (option (list Item)) :=
  response <- query send R UserEntity findAllOptions ;;
  ret (items response).

Definition getById (id : string) : M (World C) Item :=
  getItem send R UserEntity (KString "USER") (Some (KString id)).

Definition delete (id : string) : M (World C) unit :=
  softDelete send R UserEntity (KString "USER") (Some (KString id)).

(** [if (response.count) return response.items[0]; throw new Error(...)].
    The first element of an empty array is [undefined]; reading an element
    of [undefined] is a [TypeError] of the runtime, carried here as an error
    of that name. *)
Definition findByEmail (email : string) : M (World C) (option Item) :=
  response <- query send R UserEntity (findByEmailOptions email) ;;
  if (count response =? 0)%Z then
    throw (Error "User with this email not found!")
  else
    match items response with
    | Some found => ret (head found)
    | None =>
        throw (ServiceError "TypeError"
                 "Cannot read properties of undefined (reading '0')")
    end.

End Methods.

End UsersRepository.

(** * More vocabulary *)

(** The object a declaration is applied to. *)
Definition targetOf (d : Declaration) : object :=
  match d with
  | DeclDynamoTable _ target => Constructor target
  | DeclPartitionKey _ target _ => target
  | DeclSortKey _ target _ => target
  | DeclIndexPartitionKey _ _ target _ => target
  | DeclIndexSortKey _ _ target _ => target
  end.

(** A declaration is applied to neither the class [c] nor its prototype. *)
Definition elsewhere (c : NewableFunction) (d : Declaration) : Prop :=
  targetOf d <> Constructor c /\ targetOf d <> Prototype c.

(** The declarations of a class with a partition key, a sort key and a table
    name, in the order the decorators run. *)
Definition classDeclarations (c : NewableFunction)
    (pkField : option string) (pkProperty : PropertyKey)
    (skField : option string) (skProperty : PropertyKey)
    (tableName : option string) : list Declaration :=
  [ DeclPartitionKey pkField (Prototype c) pkProperty;
    DeclSortKey skField (Prototype c) skProperty;
    DeclDynamoTable tableName c ].

(** The key map of [UsersRepository] for a user id. *)
Definition userKey (id : string) : DynamoKeyMap :=
  <[ "id" := KString id ]> {[ "orgId" := KString "USER" ]}.

(** The query [UsersRepository.findByEmail] sends. *)
Definition findByEmailInput (email : string) : QueryCommandInput :=
  sortQueryInput "User" "orgId" "email" (KString email) (findByEmailOptions email).

(** * Properties *)

(** ** Strings and truthiness *)

Lemma truthy_Some (v : string) : truthy (Some v) = true <-> v <> "".
Proof.
  cbv [truthy toBoolean string_Truthy]. destruct (String.eqb_spec v ""); simpl; split; intros; congruence.
Qed.

Lemma asTruthy_Some (x : option string) (v : string) :
  asTruthy x = Some v <-> x = Some v /\ v <> "".
Proof.
  destruct x as [w|]; cbv [asTruthy truthy toBoolean string_Truthy].
  - destruct (String.eqb_spec w ""); simpl; split.
    + discriminate.
    + intros [[= ->] ?]. contradiction.
    + intros [= ->]. auto.
    + intros [H _]. exact H.
  - split; [discriminate | intros [? _]; discriminate].
Qed.

Lemma asTruthy_None (x : option string) :
  asTruthy x = None <-> x = None \/ x = Some "".
Proof.
  destruct x as [w|]; cbv [asTruthy truthy toBoolean string_Truthy].
  - destruct (String.eqb_spec w ""); simpl; split; intros H.
    + right. congruence.
    + reflexivity.
    + discriminate.
    + destruct H as [H|H]; congruence.
  - split; auto.
Qed.

Lemma asTruthy_nonempty (v : string) : v <> "" -> asTruthy (Some v) = Some v.
Proof. intros H. apply asTruthy_Some. auto. Qed.

Lemma truthy_asTruthy {N} `{Truthy N} (x : option N) :
  truthy x = match asTruthy x with Some _ => true | None => false end.
Proof.
  unfold asTruthy. destruct (truthy x) eqn:E; [|reflexivity].
  destruct x; [reflexivity|discriminate E].
Qed.

(** A name read from a record: a member is truthy, a field is truthy when it
    is not empty. *)
Lemma truthy_Field (x : option string) : truthy (Field <$> x) = truthy x.
Proof. destruct x; reflexivity. Qed.

Lemma asTruthy_Field (x : option string) :
  asTruthy (Field <$> x) = Field <$> asTruthy x.
Proof.
  unfold asTruthy. rewrite truthy_Field. destruct (truthy x); reflexivity.
Qed.

Lemma asTruthy_Field_nonempty (v : string) :
  v <> "" -> asTruthy (Some (Field v)) = Some (Field v).
Proof.
  intros H. change (Some (Field v)) with (Field <$> Some v).
  rewrite asTruthy_Field, (asTruthy_nonempty _ H). reflexivity.
Qed.

Lemma readProperty_own (obj : gmap string string) (name v : string) :
  obj !! name = Some v -> readProperty obj name = Some (Field v).
Proof. intros H. unfold readProperty. rewrite H. reflexivity. Qed.

Lemma readProperty_absent (obj : gmap string string) (name : string) :
  obj !! name = None -> objectPrototypeMember name = false ->
  readProperty obj name = None.
Proof. intros H Hm. unfold readProperty. rewrite H, Hm. reflexivity. Qed.

Lemma readProperty_member (obj : gmap string string) (name : string) :
  obj !! name = None -> objectPrototypeMember name = true ->
  readProperty obj name = Some (Member name).
Proof. intros H Hm. unfold readProperty. rewrite H, Hm. reflexivity. Qed.

Lemma readProperty_None (obj : gmap string string) (name : string) :
  readProperty obj name = None
  <-> obj !! name = None /\ objectPrototypeMember name = false.
Proof.
  unfold readProperty. destruct (obj !! name); [split; [discriminate|intros [? _]; discriminate]|].
  destruct (objectPrototypeMember name); split; try discriminate; auto.
  intros [_ ?]. discriminate.
Qed.

Lemma assignProperty_insert {V} (name : string) (value : V)
    (obj : gmap string V) :
  name <> "__proto__" -> assignProperty name value obj = <[name := value]> obj.
Proof.
  intros H. unfold assignProperty. destruct (obj !! name); [reflexivity|].
  destruct (String.eqb_spec name "__proto__"); [contradiction|reflexivity].
Qed.

Lemma objectPrototypeMember_proto (name : string) :
  objectPrototypeMember name = false -> name <> "__proto__".
Proof. intros H ->. discriminate H. Qed.

Lemma trimStart_empty (s : string) : trimStart s = "" <-> allWhiteSpace s = true.
Proof.
  induction s as [|a s IH]; simpl; [tauto|].
  destruct (isWhiteSpace a); simpl; [exact IH|].
  split; discriminate.
Qed.

Lemma trimEnd_empty (s : string) : trimEnd s = "" <-> allWhiteSpace s = true.
Proof.
  induction s as [|a s IH]; simpl; [tauto|].
  destruct (trimEnd s) eqn:E.
  - destruct (isWhiteSpace a); simpl.
    + split; [intros _; apply IH; reflexivity | reflexivity].
    + split; discriminate.
  - split; [discriminate|].
    intros H. apply andb_prop in H as [_ H]. apply IH in H. discriminate.
Qed.

Lemma allWhiteSpace_trimStart (s : string) :
  allWhiteSpace (trimStart s) = allWhiteSpace s.
Proof.
  induction s as [|a s IH]; simpl; [reflexivity|].
  destruct (isWhiteSpace a) eqn:E; simpl; [exact IH | rewrite E; reflexivity].
Qed.

(** [s.trim() === ""] exactly when [s] is empty or white space only. *)
Lemma trim_empty (s : string) : trim s = "" <-> allWhiteSpace s = true.
Proof.
  unfold trim. rewrite trimEnd_empty, allWhiteSpace_trimStart. reflexivity.
Qed.

Lemma validateNonEmptyString_blank (value paramName : string) :
  allWhiteSpace value = true ->
  validateNonEmptyString value paramName =
    Throw (Error ("Invalid " +:+ paramName +:+ ": cannot be an empty string.")).
Proof.
  intros H. unfold validateNonEmptyString.
  apply trim_empty in H. rewrite H. reflexivity.
Qed.

Lemma validateNonEmptyString_ok (value paramName : string) :
  allWhiteSpace value = false ->
  validateNonEmptyString value paramName = Return tt.
Proof.
  intros H. unfold validateNonEmptyString.
  destruct (String.eqb_spec (trim value) "") as [E|E]; [|reflexivity].
  apply trim_empty in E. congruence.
Qed.

Lemma validateIfTruthy_ok (name : option string) (paramName : string) :
  passesNameCheck name -> validateIfTruthy name paramName = Return tt.
Proof.
  intros H. destruct name as [v|]; [|reflexivity].
  unfold validateIfTruthy. destruct (truthy (Some v)) eqn:E; [|reflexivity].
  apply truthy_Some in E. destruct (H v eq_refl) as [?|Hw]; [contradiction|].
  apply validateNonEmptyString_ok, Hw.
Qed.

Lemma validateIfTruthy_blank (v paramName : string) :
  v <> "" -> allWhiteSpace v = true ->
  validateIfTruthy (Some v) paramName =
    Throw (Error ("Invalid " +:+ paramName +:+ ": cannot be an empty string.")).
Proof.
  intros Hne Hw. unfold validateIfTruthy.
  apply truthy_Some in Hne. rewrite Hne.
  apply validateNonEmptyString_blank, Hw.
Qed.

(** ** C1: the key-condition expression *)

(** C1, counterexample.  The claim gives the [begins_with] form whenever a
    sort value is supplied.  [buildQueryExpressions] adds the sort condition
    only when the sort field name is truthy as well: with a sort value and no
    sort field name, or an empty one, it returns the partition-only
    condition and binds neither [#sk] nor [:skValue]. *)
Lemma buildQueryExpressions_sort_value_without_field_name :
  let e := buildQueryExpressions (KString "test-id") "pk"
             (Some (KString "2024-")) None (Some "begins_with") in
  let e' := buildQueryExpressions (KString "test-id") "pk"
              (Some (KString "2024-")) (Some "") (Some "begins_with") in
  keyConditionExpression e = "#pk = :pkValue"
  /\ keyConditionExpression e <> "#pk = :pkValue AND begins_with(#sk, :skValue)"
  /\ expressionAttributeValues e !! ":skValue" = None
  /\ keyConditionExpression e' <> "#pk = :pkValue AND begins_with(#sk, :skValue)"
  /\ expressionAttributeNames e' !! "#sk" = None.
Proof. vm_compute. repeat split; discriminate. Qed.

(** C1, as amended.  For every partition value and partition field name:
    the [#pk] and [:pkValue] bindings are always present; without a sort
    value the result is the partition-only one; with a sort value and a
    non-empty sort field name the condition is the [begins_with] form for
    the comparator [begins_with] and [#sk <comparator> :skValue], the
    comparator verbatim, for every other comparator, and [#sk] and
    [:skValue] are bound to the sort field name and the sort value; with a
    sort value and an absent or empty sort field name the result is the
    partition-only one. *)
Theorem buildQueryExpressions_spec (pk : DynamoKey) (pkName : string)
    (sk : option DynamoKey) (skName : option string) (comparator : string) :
  let e := buildQueryExpressions pk pkName sk skName (Some comparator) in
  expressionAttributeNames e !! "#pk" = Some pkName
  /\ expressionAttributeValues e !! ":pkValue" = Some pk
  /\ (sk = None -> e = partitionOnly pk pkName)
  /\ (forall skValue name, sk = Some skValue -> skName = Some name -> name <> "" ->
        (comparator = "begins_with" ->
           keyConditionExpression e = "#pk = :pkValue AND begins_with(#sk, :skValue)")
        /\ (comparator <> "begins_with" ->
           keyConditionExpression e
           = "#pk = :pkValue AND #sk " +:+ comparator +:+ " :skValue")
        /\ expressionAttributeNames e = <[ "#sk" := name ]> {[ "#pk" := pkName ]}
        /\ expressionAttributeValues e = <[ ":skValue" := skValue ]> {[ ":pkValue" := pk ]})
  /\ (skName = None \/ skName = Some "" -> e = partitionOnly pk pkName).
Proof.
  cbv zeta. unfold buildQueryExpressions.
  split; [|split; [|split; [|split]]].
  - destruct sk, (asTruthy skName); simpl;
      rewrite ?lookup_insert_ne by discriminate; apply lookup_singleton_eq.
  - destruct sk, (asTruthy skName); simpl;
      rewrite ?lookup_insert_ne by discriminate; apply lookup_singleton_eq.
  - intros ->. reflexivity.
  - intros skValue name -> -> Hname.
    rewrite (asTruthy_nonempty name Hname). simpl.
    split; [|split; [|split]]; try reflexivity.
    + intros ->. reflexivity.
    + intros Hc.
      destruct (String.eqb_spec comparator "begins_with"); [contradiction|reflexivity].
  - intros H. apply asTruthy_None in H. rewrite H. destruct sk; reflexivity.
Qed.

(** The amended C1 at the call of the test suite: partition value
    [test-id], sort value [2024-], field names [pk] and [sk]. *)
Lemma buildQueryExpressions_spec_witness :
  (Some (KString "2024-") = Some (KString "2024-") /\ Some "sk" = Some "sk" /\ "sk" <> "")
  /\ keyConditionExpression
       (buildQueryExpressions (KString "test-id") "pk" (Some (KString "2024-"))
          (Some "sk") (Some "begins_with"))
     = "#pk = :pkValue AND begins_with(#sk, :skValue)"
  /\ keyConditionExpression
       (buildQueryExpressions (KString "test-id") "pk" (Some (KString "2024-"))
          (Some "sk") (Some "BETWEEN"))
     = "#pk = :pkValue AND #sk BETWEEN :skValue".
Proof.
  split; [repeat split; discriminate|].
  split.
  - pose proof (buildQueryExpressions_spec (KString "test-id") "pk"
                  (Some (KString "2024-")) (Some "sk") "begins_with") as H.
    cbv zeta in H. destruct H as (_ & _ & _ & H & _).
    destruct (H (KString "2024-") "sk" eq_refl eq_refl) as (Hb & _).
    + discriminate.
    + apply Hb. reflexivity.
  - pose proof (buildQueryExpressions_spec (KString "test-id") "pk"
                  (Some (KString "2024-")) (Some "sk") "BETWEEN") as H.
    cbv zeta in H. destruct H as (_ & _ & _ & H & _).
    destruct (H (KString "2024-") "sk" eq_refl eq_refl) as (_ & Hc & _).
    + discriminate.
    + apply Hc. discriminate.
Defined.

(** ** The repository's resolvers *)

Section ResolverFacts.

Variable R : Metadata.
Variable entityClass : NewableFunction.

Lemma getTableName_Return (tableName : string) :
  getTableName R entityClass = Return tableName
  <-> getDynamoTableName (Class entityClass) R = Some tableName /\ tableName <> "".
Proof.
  unfold getTableName. rewrite <- asTruthy_Some.
  destruct (asTruthy _); split; intros H; congruence.
Qed.

(** Without an index name, [getPKName] returns the partition key of the
    base table, a string, when it is not empty. *)
Lemma getPKName_base_run :
  getPKName R entityClass None
  = match asTruthy (getPartitionKeyName (Class entityClass) R) with
    | Some pkName => Return (Field pkName)
    | None =>
        Throw (DecoratorMissingError
                 ("Partition key not found for entity class " +:+ dq
                  +:+ fn_name entityClass +:+ dq
                  +:+ ". Make sure a property is decorated with @PartitionKey."))
    end.
Proof.
  unfold getPKName. change (asTruthy (@None string)) with (@None string).
  cbn [bindR]. change (truthy (@None Name)) with false.
  cbv iota. rewrite asTruthy_Field.
  destruct (asTruthy _); reflexivity.
Qed.

Lemma getPKName_base (pkName : string) :
  getPKName R entityClass None = Return pkName
  <-> getPartitionKeyName (Class entityClass) R = Some pkName /\ pkName <> "".
Proof.
  rewrite getPKName_base_run, <- asTruthy_Some.
  destruct (asTruthy _); split; intros H; congruence.
Qed.

Lemma getPKName_base_missing :
  asTruthy (getPartitionKeyName (Class entityClass) R) = None ->
  exists message, getPKName R entityClass None = Throw (DecoratorMissingError message).
Proof.
  intros H. rewrite getPKName_base_run, H. eauto.
Qed.

Lemma getSKName_base :
  getSKName R entityClass None
  = Return (Field <$> getSortKeyName (Class entityClass) R).
Proof. reflexivity. Qed.

End ResolverFacts.

(** ** What an operation sends *)

Section SendFacts.

Context {C : Type}.
Variable send : Command -> C -> Result Response * C.

Lemma clientSend_run (command : Command) (w : World C) :
  clientSend send command w
  = ((send command (client w)).1,
     {| client := (send command (client w)).2; sent := (sent w ++ [command])%list;
        console := console w; clock := clock w |}).
Proof. unfold clientSend. destruct (send command (client w)). reflexivity. Qed.

(** A command sent inside [try]/[catch] is on the log whether the client
    answers or rejects; the handler only writes to the console. *)
Lemma sent_send_in_try {A} (command : Command) (a : A) (message : string)
    (w : World C) :
  sent (tryCatch (clientSend send command ;;; ret a) (logAndRethrow message) w).2
  = (sent w ++ [command])%list.
Proof.
  unfold tryCatch, bind. rewrite clientSend_run.
  destruct (send command (client w)) as [[response|e] c]; reflexivity.
Qed.

(** The same for any continuation that sends nothing itself. *)
Lemma sent_send_then {A} (command : Command) (k : Response -> M (World C) A)
    (message : string) (w : World C) :
  (forall response w0, sent (k response w0).2 = sent w0) ->
  sent (tryCatch (bind (clientSend send command) k) (logAndRethrow message) w).2
  = (sent w ++ [command])%list.
Proof.
  intros Hk. unfold tryCatch, bind. rewrite clientSend_run.
  destruct (send command (client w)) as [[response|e] c]; simpl; [|reflexivity].
  specialize (Hk response
                {| client := c; sent := (sent w ++ [command])%list;
                   console := console w; clock := clock w |}).
  destruct (k response _) as [[a|e] w1]; simpl in *; exact Hk.
Qed.

End SendFacts.

(** ** The condition of [create] *)

Section CreateCondition.

Context {C : Type}.
Variable send : Command -> C -> Result Response * C.
Variable R : Metadata.
Variable entityClass : NewableFunction.

(** [create] once the table name and the partition key resolve: the one
    conditional put, built from the sort key as [getSortKeyName] gives it. *)
Lemma create_sent (tableName pkName : string) (item : Item) (w : World C) :
  getTableName R entityClass = Return tableName ->
  getPKName R entityClass None = Return pkName ->
  sent (create send R entityClass (Object_ item) w).2
  = (sent w ++ [createCommand tableName pkName
                  (getSortKeyName (Class entityClass) R) item])%list.
Proof.
  intros Ht Hp. unfold create, bind at 1 2 3, lift.
  rewrite Ht, Hp, getSKName_base. apply sent_send_in_try.
Qed.

(** For a class with a table name and a partition key: when the sort key is
    declared with a non-empty field name, [create] sends the item under the
    condition that both [#pk] and [#sk] are absent, the two names mapped to
    the resolved field names; when no sort key is declared, the condition
    is that [#pk] is absent and the names have no [#sk] entry. *)
Lemma create_condition (tableName pkName : string) (item : Item) (w : World C) :
  getTableName R entityClass = Return tableName ->
  getPKName R entityClass None = Return pkName ->
  (forall skName,
      getSortKeyName (Class entityClass) R = Some skName -> skName <> "" ->
      sent (create send R entityClass (Object_ item) w).2
      = (sent w ++ [PutCommand tableName item
                      (Some "attribute_not_exists(#pk) AND attribute_not_exists(#sk)")
                      (Some (<[ "#sk" := Field skName ]>
                               {[ "#pk" := Field pkName ]}))])%list)
  /\ (getSortKeyName (Class entityClass) R = None ->
      sent (create send R entityClass (Object_ item) w).2
      = (sent w ++ [PutCommand tableName item (Some "attribute_not_exists(#pk)")
                      (Some {[ "#pk" := Field pkName ]})])%list).
Proof.
  intros Ht Hp. split.
  - intros skName Hs Hsne. rewrite (create_sent _ _ _ _ Ht Hp), Hs.
    unfold createCommand, buildCreateConditionExpression,
      buildExpressionAttributeNames.
    rewrite truthy_Field, asTruthy_Field, (asTruthy_nonempty skName Hsne).
    apply truthy_Some in Hsne. rewrite Hsne. reflexivity.
  - intros Hs. rewrite (create_sent _ _ _ _ Ht Hp), Hs. reflexivity.
Qed.

End CreateCondition.

(** ** C3: a second declaration *)

Lemma validateDuplicateDecorator_existing (target : object)
    (key decoratorName conflict existing : string) (R : Metadata) :
  getMetadataString key target R = Some existing ->
  exists message,
    validateDuplicateDecorator target key decoratorName conflict R
    = (Throw (DuplicateDecoratorError message), R).
Proof.
  intros H. unfold validateDuplicateDecorator, bind, gets. rewrite H.
  unfold throw. eauto.
Qed.

Lemma validateDuplicateDecorator_fresh (target : object)
    (key decoratorName conflict : string) (R : Metadata) :
  getMetadataString key target R = None ->
  validateDuplicateDecorator target key decoratorName conflict R = (Return tt, R).
Proof.
  intros H. unfold validateDuplicateDecorator, bind, gets. rewrite H. reflexivity.
Qed.

Lemma passesNameCheck_or_blank (name : option string) :
  passesNameCheck name \/ blankName name.
Proof.
  destruct name as [v|].
  - destruct (String.eqb_spec v "") as [->|Hne].
    + left. intros ? [= <-]. auto.
    + destruct (allWhiteSpace v) eqn:E.
      * right. exists v. auto.
      * left. intros ? [= <-]. auto.
  - left. intros ? [=].
Qed.

Lemma validateIfTruthy_blankName (name : option string) (paramName : string) :
  blankName name ->
  validateIfTruthy name paramName =
    Throw (Error ("Invalid " +:+ paramName +:+ ": cannot be an empty string.")).
Proof.
  intros (v & -> & Hne & Hw). apply validateIfTruthy_blank; assumption.
Qed.

(** [DynamoTable], [PartitionKey] and [SortKey] on a target that already
    has the entry. *)
Lemma stringDecorator_second_declaration (R : Metadata) (target : object)
    (name : option string)
    (paramName key decoratorName conflict existing : string)
    (define : M Metadata unit) :
  getMetadataString key target R = Some existing ->
  exists e,
    (lift (validateIfTruthy name paramName) ;;;
     validateDuplicateDecorator target key decoratorName conflict ;;;
     define) R = (Throw e, R)
    /\ (passesNameCheck name -> isDuplicateDecoratorError e = true)
    /\ (blankName name ->
        e = Error ("Invalid " +:+ paramName +:+ ": cannot be an empty string.")).
Proof.
  intros H.
  destruct (passesNameCheck_or_blank name) as [Hok|Hblank].
  - destruct (validateDuplicateDecorator_existing target key decoratorName
                conflict existing R H) as [message Hdup].
    exists (DuplicateDecoratorError message).
    unfold bind at 1, lift. rewrite (validateIfTruthy_ok _ _ Hok).
    unfold bind. rewrite Hdup. repeat split.
    intros (v & -> & Hne & Hw).
    destruct (Hok v eq_refl); congruence.
  - exists (Error ("Invalid " +:+ paramName +:+ ": cannot be an empty string.")).
    unfold bind at 1, lift. rewrite (validateIfTruthy_blankName _ _ Hblank).
    repeat split.
    intros Hok. destruct Hblank as (v & -> & Hne & Hw).
    destruct (Hok v eq_refl); congruence.
Qed.





(** ** C4: resolving what was never declared *)

(** The two decorators of a primary key and [DynamoTable] end in the
    registry they found or in that registry with one string defined. *)
Lemma stringDecorator_state (r : Result unit) (target : object)
    (key decoratorName conflict value : string) (R : Metadata) :
  let R' := ((lift r ;;;
              validateDuplicateDecorator target key decoratorName conflict ;;;
              defineMetadataString key value target) R).2 in
  R' = R
  \/ (getMetadataString key target R = None
      /\ R' = {| stringMeta := <[(target, key) := value]> (stringMeta R);
                 recordMeta := recordMeta R |}).
Proof.
  cbv zeta. unfold bind at 1, lift. destruct r as [[]|e]; [|left; reflexivity].
  unfold bind. destruct (getMetadataString key target R) as [existing|] eqn:E.
  - destruct (validateDuplicateDecorator_existing target key decoratorName
                conflict existing R E) as [message ->]. left. reflexivity.
  - rewrite (validateDuplicateDecorator_fresh _ _ _ _ _ E). right.
    split; reflexivity.
Qed.

Lemma indexKeyDecorator_state (key decoratorName kind indexName : string)
    (fieldName : option string) (target : object) (propertyKey : PropertyKey)
    (R : Metadata) :
  let R' := (indexKeyDecorator key decoratorName kind indexName fieldName target
               propertyKey R).2 in
  R' = R
  \/ (indexEntry key target indexName R = None
      /\ objectPrototypeMember indexName = false
      /\ R' = {| stringMeta := stringMeta R;
                 recordMeta :=
                   <[(target, key) :=
                       <[indexName := orElse fieldName (String_ propertyKey)]>
                         (default ∅ (getMetadataRecord key target R))]>
                     (recordMeta R) |}).
Proof.
  cbv zeta. unfold indexKeyDecorator, indexEntry.
  unfold bind at 1, lift.
  destruct (validateNonEmptyString indexName "indexName") as [[]|e];
    [|left; reflexivity].
  unfold bind at 1, lift.
  destruct (validateIfTruthy fieldName "fieldName") as [[]|e];
    [|left; reflexivity].
  unfold bind, gets. cbv zeta.
  destruct (readProperty (default ∅ (getMetadataRecord key target R)) indexName)
    as [existing|] eqn:Er; [left; reflexivity|].
  apply readProperty_None in Er as [Hnone Hm]. right.
  split; [|split; [exact Hm|]].
  - destruct (getMetadataRecord key target R); [exact Hnone|reflexivity].
  - rewrite assignProperty_insert by (apply objectPrototypeMember_proto, Hm).
    reflexivity.
Qed.

(** The registry with one string entry defined, and with one index entry
    defined. *)
Lemma applyDeclaration_state (d : Declaration) (R : Metadata) :
  (applyDeclaration d R).2 = R
  \/ (exists target key value,
        definesString d = Some (target, key)
        /\ getMetadataString key target R = None
        /\ (applyDeclaration d R).2
           = {| stringMeta := <[(target, key) := value]> (stringMeta R);
                recordMeta := recordMeta R |})
  \/ (exists target key index value,
        definesIndex d = Some (target, key, index)
        /\ indexEntry key target index R = None
        /\ objectPrototypeMember index = false
        /\ (applyDeclaration d R).2
           = {| stringMeta := stringMeta R;
                recordMeta :=
                  <[(target, key) :=
                      <[index := value]>
                        (default ∅ (getMetadataRecord key target R))]>
                    (recordMeta R) |}).
Proof.
  destruct d as [n t|f t p|f t p|i f t p|i f t p]; simpl.
  - destruct (stringDecorator_state (validateIfTruthy n "tableName")
                (Constructor t) DYNAMO_TABLE_NAME_KEY "@DynamoTable"
                (orElse n (fn_name t)) (orElse n (fn_name t)) R)
      as [H|[Hnone H]]; [left; exact H|].
    right. left. eexists _, _, _. split; [reflexivity|]. split; [exact Hnone|exact H].
  - destruct (stringDecorator_state (validateIfTruthy f "fieldName")
                t DYNAMO_PARTITION_KEY_KEY "@PartitionKey"
                (orElse f (String_ p)) (orElse f (String_ p)) R)
      as [H|[Hnone H]]; [left; exact H|].
    right. left. eexists _, _, _. split; [reflexivity|]. split; [exact Hnone|exact H].
  - destruct (stringDecorator_state (validateIfTruthy f "fieldName")
                t DYNAMO_SORT_KEY_KEY "@SortKey"
                (String_ p) (orElse f (String_ p)) R)
      as [H|[Hnone H]]; [left; exact H|].
    right. left. eexists _, _, _. split; [reflexivity|]. split; [exact Hnone|exact H].
  - destruct (indexKeyDecorator_state DYNAMO_INDEX_PARTITION_KEYS_KEY
                "@IndexPartitionKey" "partition" i f t p R)
      as [H|(Hnone & Hm & H)]; [left; exact H|].
    right. right. eexists _, _, _, _.
    split; [reflexivity|]. split; [exact Hnone|]. split; [exact Hm|exact H].
  - destruct (indexKeyDecorator_state DYNAMO_INDEX_SORT_KEYS_KEY
                "@IndexSortKey" "sort" i f t p R)
      as [H|(Hnone & Hm & H)]; [left; exact H|].
    right. right. eexists _, _, _, _.
    split; [reflexivity|]. split; [exact Hnone|]. split; [exact Hm|exact H].
Qed.

Lemma indexEntry_insert_other (key key' : string) (target target' : object)
    (indexName indexName' value : string) (R : Metadata) :
  (target', key', indexName') <> (target, key, indexName) ->
  indexEntry key target indexName
    {| stringMeta := stringMeta R;
       recordMeta :=
         <[(target', key') :=
             <[indexName' := value]>
               (default ∅ (getMetadataRecord key' target' R))]>
           (recordMeta R) |}
  = indexEntry key target indexName R.
Proof.
  intros Hne. unfold indexEntry, getMetadataRecord. simpl.
  destruct (decide ((target', key') = (target, key))) as [[= -> ->]|Hk].
  - rewrite lookup_insert_eq. simpl.
    rewrite lookup_insert_ne by congruence.
    destruct (recordMeta R !! (target, key)); simpl; [reflexivity|].
    apply lookup_empty.
  - rewrite lookup_insert_ne by exact Hk. reflexivity.
Qed.

(** A declaration changes no string entry but its own. *)
Lemma applyDeclaration_string_frame (d : Declaration) (R : Metadata)
    (target : object) (key : string) :
  definesString d <> Some (target, key) ->
  getMetadataString key target (applyDeclaration d R).2
  = getMetadataString key target R.
Proof.
  intros Hd.
  destruct (applyDeclaration_state d R)
    as [->|[(t & k & v & Hdef & _ & ->)|(t & k & i & v & _ & _ & _ & ->)]];
    try reflexivity.
  unfold getMetadataString. simpl. apply lookup_insert_ne. congruence.
Qed.

(** A declaration changes no index entry but its own. *)
Lemma applyDeclaration_index_frame (d : Declaration) (R : Metadata)
    (target : object) (key indexName : string) :
  definesIndex d <> Some (target, key, indexName) ->
  indexEntry key target indexName (applyDeclaration d R).2
  = indexEntry key target indexName R.
Proof.
  intros Hd.
  destruct (applyDeclaration_state d R)
    as [->|[(t & k & v & _ & _ & ->)|(t & k & i & v & Hdef & _ & _ & ->)]];
    try reflexivity.
  apply indexEntry_insert_other. congruence.
Qed.

(** A declaration keeps every entry that is there: it defines an entry only
    where there was none. *)
Lemma applyDeclaration_string_kept (d : Declaration) (R : Metadata)
    (target : object) (key existing : string) :
  getMetadataString key target R = Some existing ->
  getMetadataString key target (applyDeclaration d R).2 = Some existing.
Proof.
  intros Hex.
  destruct (decide (definesString d = Some (target, key))) as [Hd|Hd];
    [|rewrite applyDeclaration_string_frame; assumption].
  destruct (applyDeclaration_state d R)
    as [->|[(t & k & v & Hdef & Hnone & _)|(t & k & i & v & _ & _ & _ & ->)]];
    try exact Hex.
  congruence.
Qed.

Lemma applyDeclaration_index_kept (d : Declaration) (R : Metadata)
    (target : object) (key index existing : string) :
  indexEntry key target index R = Some existing ->
  indexEntry key target index (applyDeclaration d R).2 = Some existing.
Proof.
  intros Hex.
  destruct (decide (definesIndex d = Some (target, key, index))) as [Hd|Hd];
    [|rewrite applyDeclaration_index_frame; assumption].
  destruct (applyDeclaration_state d R)
    as [->|[(t & k & v & _ & _ & ->)|(t & k & i & v & Hdef & Hnone & _ & _)]];
    try exact Hex.
  congruence.
Qed.

(** What a lookup under an index name finds stays as it is: a registered
    field name because it is never overwritten, an inherited member because
    no declaration for that name gets through. *)
Lemma applyDeclaration_lookup_kept (d : Declaration) (R : Metadata)
    (target : object) (key index : string) (found : Name) :
  indexLookup key target index R = Some found ->
  indexLookup key target index (applyDeclaration d R).2 = Some found.
Proof.
  intros Hex.
  destruct (applyDeclaration_state d R)
    as [->|[(t & k & v & _ & _ & ->)|(t & k & i & v & _ & Hnone & Hm & ->)]];
    try exact Hex.
  unfold indexLookup, indexEntry, getMetadataRecord in *. simpl.
  destruct (decide ((t, k) = (target, key))) as [[= -> ->]|Hk].
  - rewrite lookup_insert_eq. simpl.
    destruct (recordMeta R !! (target, key)) as [keys|]; simpl in *;
      [|discriminate Hex].
    destruct (decide (i = index)) as [->|Hi].
    + rewrite (readProperty_absent _ _ Hnone Hm) in Hex. discriminate Hex.
    + unfold readProperty in *. rewrite lookup_insert_ne by exact Hi. exact Hex.
  - rewrite lookup_insert_ne by exact Hk. exact Hex.
Qed.

(** A property of the registry that every allowed declaration preserves
    holds after any list of allowed declarations. *)
Lemma declare_preserves (P : Metadata -> Prop) (Q : Declaration -> Prop)
    (ds : list Declaration) :
  (forall d R, Q d -> P R -> P (applyDeclaration d R).2) ->
  Forall Q ds -> forall R, P R -> P (declare ds R).
Proof.
  intros Hstep HQ. induction HQ as [|d ds Hd _ IH]; intros R HP.
  - exact HP.
  - simpl. apply IH. apply Hstep; assumption.
Qed.



Lemma indexLookup_own (key : string) (target : object) (indexName v : string)
    (R : Metadata) :
  indexEntry key target indexName R = Some v ->
  indexLookup key target indexName R = Some (Field v).
Proof.
  unfold indexEntry, indexLookup.
  destruct (getMetadataRecord key target R) as [keys|]; simpl; [|discriminate].
  apply readProperty_own.
Qed.


Lemma indexLookup_Field (key : string) (target : object) (indexName v : string)
    (R : Metadata) :
  indexLookup key target indexName R = Some (Field v) ->
  indexEntry key target indexName R = Some v.
Proof.
  unfold indexEntry, indexLookup.
  destruct (getMetadataRecord key target R) as [keys|]; simpl; [|discriminate].
  unfold readProperty. destruct (keys !! indexName); [congruence|].
  destruct (objectPrototypeMember indexName); discriminate.
Qed.

Lemma getIndexKeyName_entry (key : string) (target : DynamoEntityTarget)
    (indexName : string) (R : Metadata) :
  allWhiteSpace indexName = false ->
  getIndexKeyName key target indexName R
  = Return (indexLookup key (getPrototype target) indexName R).
Proof.
  intros Hw. unfold getIndexKeyName, indexLookup.
  assert (Hne : indexName <> "") by (intros ->; discriminate).
  apply truthy_Some in Hne. rewrite Hne. simpl.
  destruct (String.eqb_spec (trim indexName) "") as [E|E].
  - apply trim_empty in E. congruence.
  - destruct (getMetadataRecord key (getPrototype target) R); reflexivity.
Qed.

Lemma getIndexKeyName_blank (key : string) (target : DynamoEntityTarget)
    (indexName : string) (R : Metadata) :
  allWhiteSpace indexName = true ->
  getIndexKeyName key target indexName R = Throw (Error "indexName cannot be empty").
Proof.
  intros Hw. unfold getIndexKeyName.
  apply trim_empty in Hw. rewrite Hw, orb_true_r. reflexivity.
Qed.




(** ** Key maps and point operations *)

Section KeyMap.

Variable R : Metadata.
Variable entityClass : NewableFunction.

Lemma getTableName_cases :
  (exists tableName, getTableName R entityClass = Return tableName)
  \/ (exists message,
        getTableName R entityClass = Throw (DecoratorMissingError message)).
Proof. unfold getTableName. destruct (asTruthy _); eauto. Qed.

Lemma getPKName_base_cases :
  (exists pkName : string, getPKName R entityClass None = Return pkName)
  \/ (exists message,
        getPKName R entityClass None = Throw (DecoratorMissingError message)).
Proof. rewrite getPKName_base_run. destruct (asTruthy _); eauto. Qed.

(** [buildKeyMap] on the names of the base table. *)
Lemma buildKeyMap_run (pk : DynamoKey) (sk : option DynamoKey) (pkName : string) :
  getPKName R entityClass None = Return pkName ->
  buildKeyMap R entityClass pk sk
  = match sk with
    | None => Return {[ pkName := pk ]}
    | Some skValue =>
        match asTruthy (getSortKeyName (Class entityClass) R) with
        | Some skName => Return (assignProperty skName skValue {[ pkName := pk ]})
        | None =>
            Throw (DecoratorMissingError
                     ("Sort key provided but entity class " +:+ dq
                      +:+ fn_name entityClass +:+ dq
                      +:+ " does not have a sort key defined. Make sure a property is decorated with @SortKey."))
        end
    end.
Proof.
  intros Hp. unfold buildKeyMap. rewrite Hp. cbn [bindR nameText].
  destruct sk as [skValue|]; [|reflexivity].
  rewrite getSKName_base. cbn [bindR]. rewrite asTruthy_Field.
  destruct (asTruthy _); reflexivity.
Qed.

(** With a sort value and no usable sort key, [buildKeyMap] throws a
    [DecoratorMissingError], whatever the partition key. *)
Lemma buildKeyMap_sort_value_without_sort_key (pk skValue : DynamoKey) :
  asTruthy (getSortKeyName (Class entityClass) R) = None ->
  exists message,
    buildKeyMap R entityClass pk (Some skValue)
    = Throw (DecoratorMissingError message).
Proof.
  intros Hs.
  destruct getPKName_base_cases as [[pkName Hp]|[message Hp]].
  - rewrite (buildKeyMap_run _ _ _ Hp), Hs. eauto.
  - unfold buildKeyMap. rewrite Hp. simpl. eauto.
Qed.

Lemma buildKeyMap_partition_only (pk : DynamoKey) (pkName : string) :
  getPartitionKeyName (Class entityClass) R = Some pkName -> pkName <> "" ->
  buildKeyMap R entityClass pk None = Return {[ pkName := pk ]}.
Proof.
  intros Hp Hne.
  apply (buildKeyMap_run pk None pkName).
  apply getPKName_base. auto.
Qed.

End KeyMap.

Section PointOperations.

Context {C : Type}.
Variable send : Command -> C -> Result Response * C.
Variable R : Metadata.
Variable entityClass : NewableFunction.

(** For a class with no declared sort key: [getItem] and [remove] called
    with a sort value throw a [DecoratorMissingError] and leave the world as
    it was (no command is sent, nothing is logged); and when the partition
    key is declared with a non-empty field name, [buildKeyMap] with no sort
    value returns the key map with the single entry of that field. *)
Lemma point_operations_without_sort_key :
  getSortKeyName (Class entityClass) R = None ->
  (forall pk skValue (w : World C),
      exists e, getItem send R entityClass pk (Some skValue) w = (Throw e, w)
                /\ isDecoratorMissingError e = true)
  /\ (forall pk skValue (w : World C),
      exists e, remove send R entityClass pk (Some skValue) w = (Throw e, w)
                /\ isDecoratorMissingError e = true)
  /\ (forall pk pkName,
      getPartitionKeyName (Class entityClass) R = Some pkName -> pkName <> "" ->
      buildKeyMap R entityClass pk None = Return {[ pkName := pk ]}
      /\ size ({[ pkName := pk ]} : DynamoKeyMap) = 1
      /\ dom ({[ pkName := pk ]} : DynamoKeyMap) = {[ pkName ]}).
Proof.
  intros Hs.
  assert (Hs' : asTruthy (getSortKeyName (Class entityClass) R) = None)
    by (rewrite Hs; reflexivity).
  split; [|split].
  - intros pk skValue w. unfold getItem, bind at 1, lift.
    destruct (getTableName_cases R entityClass) as [[tableName ->]|[message ->]];
      [|eauto].
    unfold bind at 1.
    destruct (buildKeyMap_sort_value_without_sort_key R entityClass pk skValue Hs')
      as [message ->].
    eauto.
  - intros pk skValue w. unfold remove, bind at 1, lift.
    destruct (getTableName_cases R entityClass) as [[tableName ->]|[message ->]];
      [|eauto].
    unfold bind at 1.
    destruct (buildKeyMap_sort_value_without_sort_key R entityClass pk skValue Hs')
      as [message ->].
    eauto.
  - intros pk pkName Hp Hne. split; [|split].
    + apply buildKeyMap_partition_only; assumption.
    + apply map_size_singleton.
    + apply dom_singleton_L.
Qed.

End PointOperations.

(** ** C6: [getItem] *)

Section GetItemRun.

Context {C : Type}.
Variable send : Command -> C -> Result Response * C.
Variable R : Metadata.
Variable entityClass : NewableFunction.

(** [getItem] once the names resolve and the client answers the read. *)
Lemma getItem_answered (pk : DynamoKey) (sk : option DynamoKey)
    (w : World C) (tableName : string) (key : DynamoKeyMap)
    (response : Response) (c : C) :
  getTableName R entityClass = Return tableName ->
  buildKeyMap R entityClass pk sk = Return key ->
  send (GetCommand tableName key) (client w) = (Return response, c) ->
  getItem send R entityClass pk sk w
  = match rItem response with
    | Some item =>
        (Return item,
         {| client := c; sent := (sent w ++ [GetCommand tableName key])%list;
            console := console w; clock := clock w |})
    | None =>
        (Throw (ItemNotFoundError "Item not found in your DynamoDB Table!"),
         {| client := c; sent := (sent w ++ [GetCommand tableName key])%list;
            console :=
              (console w
               ++ [("Error getting item from DynamoDB:",
                    ItemNotFoundError "Item not found in your DynamoDB Table!")])%list;
            clock := clock w |})
    end.
Proof.
  intros Ht Hk Hsend.
  unfold getItem, bind at 1 2, lift. rewrite Ht, Hk.
  unfold tryCatch, bind. rewrite clientSend_run, Hsend. simpl.
  destruct (rItem response); reflexivity.
Qed.

End GetItemRun.

Section GetItem.

Context {C : Type}.
Variable send : Command -> C -> Result Response * C.
Variable R : Metadata.
Variable entityClass : NewableFunction.

(** C6.  When the table name and the key map resolve and the client answers
    the point read: a response without an item makes [getItem] throw an
    [ItemNotFoundError] (logged, then thrown again), a response with an item
    makes it return that item; [getItem] returns an item only then, and its
    result type has no absent value.  The read is on the log either way. *)
Theorem getItem_item_or_not_found (pk : DynamoKey) (sk : option DynamoKey)
    (w : World C) (tableName : string) (key : DynamoKeyMap)
    (response : Response) (c : C) :
  getTableName R entityClass = Return tableName ->
  buildKeyMap R entityClass pk sk = Return key ->
  send (GetCommand tableName key) (client w) = (Return response, c) ->
  let notFound := ItemNotFoundError "Item not found in your DynamoDB Table!" in
  (rItem response = None ->
   getItem send R entityClass pk sk w
   = (Throw notFound,
      {| client := c; sent := (sent w ++ [GetCommand tableName key])%list;
         console := (console w ++ [("Error getting item from DynamoDB:", notFound)])%list;
         clock := clock w |}))
  /\ (forall item, rItem response = Some item ->
      getItem send R entityClass pk sk w
      = (Return item,
         {| client := c; sent := (sent w ++ [GetCommand tableName key])%list;
            console := console w; clock := clock w |}))
  /\ (forall item w', getItem send R entityClass pk sk w = (Return item, w') ->
      rItem response = Some item).
Proof.
  intros Ht Hk Hsend. cbv zeta.
  pose proof (getItem_answered send R entityClass pk sk w tableName key
                response c Ht Hk Hsend) as Hrun.
  rewrite Hrun. split; [|split].
  - intros ->. reflexivity.
  - intros item ->. reflexivity.
  - intros item w'. destruct (rItem response); intros [= <- _]; reflexivity.
Qed.

End GetItem.

(** C6 on the two calls of the test suite: the client answers
    [{ Item: undefined }], then [{ Item: item }]. *)
Lemma getItem_item_or_not_found_witness :
  (getItem scripted testEntityMetadata TestEntity (KString "test-id")
     (Some (KString "2024-01-01")) (newWorld [Return emptyResponse] 0)).1
  = Throw (ItemNotFoundError "Item not found in your DynamoDB Table!")
  /\ (getItem scripted testEntityMetadata TestEntity (KString "test-id")
        (Some (KString "2024-01-01"))
        (newWorld [Return (itemResponse testItem)] 0)).1
     = Return testItem.
Proof.
  split.
  - pose proof (getItem_item_or_not_found scripted testEntityMetadata TestEntity
                  (KString "test-id") (Some (KString "2024-01-01"))
                  (newWorld [Return emptyResponse] 0) "TestTable"
                  (<[ "sk" := KString "2024-01-01" ]> {[ "pk" := KString "test-id" ]})
                  emptyResponse []) as H.
    cbv zeta in H. destruct H as (Hnone & _).
    + vm_compute. reflexivity.
    + vm_compute. reflexivity.
    + reflexivity.
    + rewrite Hnone; reflexivity.
  - pose proof (getItem_item_or_not_found scripted testEntityMetadata TestEntity
                  (KString "test-id") (Some (KString "2024-01-01"))
                  (newWorld [Return (itemResponse testItem)] 0) "TestTable"
                  (<[ "sk" := KString "2024-01-01" ]> {[ "pk" := KString "test-id" ]})
                  (itemResponse testItem) []) as H.
    cbv zeta in H. destruct H as (_ & Hsome & _).
    + vm_compute. reflexivity.
    + vm_compute. reflexivity.
    + reflexivity.
    + rewrite (Hsome testItem); reflexivity.
Defined.

(** ** C7: an absent item *)

Section AbsentItem.

Context {C : Type}.
Variable send : Command -> C -> Result Response * C.
Variable R : Metadata.
Variable entityClass : NewableFunction.

(** C7, the code at the failing input.  Given [null] or [undefined], both
    [create] and [put] throw before anything else happens: the world is
    unchanged, so no command was sent.  [put] throws an
    [InvalidParametersError]; [create] throws a plain [Error], which is not
    of that class. *)
Theorem create_and_put_absent_item (w : World C) :
  create send R entityClass Null w
  = (Throw (Error "Item cannot be null or undefined"), w)
  /\ create send R entityClass Undefined w
     = (Throw (Error "Item cannot be null or undefined"), w)
  /\ isInvalidParametersError (Error "Item cannot be null or undefined") = false
  /\ put send R entityClass Null w
     = (Throw (InvalidParametersError "Item cannot be null or undefined!"), w)
  /\ put send R entityClass Undefined w
     = (Throw (InvalidParametersError "Item cannot be null or undefined!"), w)
  /\ isInvalidParametersError
       (InvalidParametersError "Item cannot be null or undefined!") = true.
Proof. repeat split. Qed.

End AbsentItem.

(** ** C8: the table name *)

(** A table name that is white space only (and not empty) is rejected, and
    nothing is registered. *)
Lemma DynamoTable_blank_name (tableName : string) (target : NewableFunction)
    (R : Metadata) :
  tableName <> "" -> allWhiteSpace tableName = true ->
  DynamoTable (Some tableName) target R
  = (Throw (Error "Invalid tableName: cannot be an empty string."), R).
Proof.
  intros Hne Hw. unfold DynamoTable, bind at 1, lift.
  rewrite (validateIfTruthy_blank _ _ Hne Hw). reflexivity.
Qed.

(** Without a table name, the name of the class is registered. *)
Lemma DynamoTable_default_name (target : NewableFunction) (R : Metadata) :
  getDynamoTableName (Class target) R = None ->
  (DynamoTable None target R).1 = Return tt
  /\ getDynamoTableName (Class target) (DynamoTable None target R).2
     = Some (fn_name target).
Proof.
  intros H. unfold DynamoTable, bind at 1, lift. simpl.
  unfold bind. rewrite (validateDuplicateDecorator_fresh _ _ _ _ _ H). simpl.
  split; [reflexivity|].
  unfold getDynamoTableName, getMetadataString. simpl. apply lookup_insert_eq.
Qed.

(** C8, the code at the failing input.  The empty table name is falsy, so
    [DynamoTable] skips the check of the name; [??] keeps the empty string
    (it replaces [undefined] only), and on a class with no table name yet
    the empty string is registered and nothing is thrown. *)
Theorem DynamoTable_empty_name (target : NewableFunction) (R : Metadata) :
  getDynamoTableName (Class target) R = None ->
  (DynamoTable (Some "") target R).1 = Return tt
  /\ getDynamoTableName (Class target) (DynamoTable (Some "") target R).2 = Some "".
Proof.
  intros H. unfold DynamoTable, bind at 1, lift. simpl.
  unfold bind. rewrite (validateDuplicateDecorator_fresh _ _ _ _ _ H). simpl.
  split; [reflexivity|].
  unfold getDynamoTableName, getMetadataString. simpl. apply lookup_insert_eq.
Qed.

(** C8 at the call of the skipped test: [DynamoTable("")] on a fresh class
    [TestEntity]. *)
Lemma DynamoTable_empty_name_witness :
  (DynamoTable (Some "") TestEntity noMetadata).1 = Return tt
  /\ getDynamoTableName (Class TestEntity)
       (DynamoTable (Some "") TestEntity noMetadata).2 = Some "".
Proof.
  apply (DynamoTable_empty_name TestEntity noMetadata). reflexivity.
Defined.

(** A class that has a table name keeps it: [DynamoTable] applied again
    throws and registers nothing.  The error is a [DuplicateDecoratorError]
    unless the new name is white space only, which the check of the name
    rejects first. *)
Theorem table_name_declared_once (R : Metadata) (target : NewableFunction)
    (tableName : option string) (existing : string) :
  getDynamoTableName (Class target) R = Some existing ->
  exists e,
    DynamoTable tableName target R = (Throw e, R)
    /\ (passesNameCheck tableName -> isDuplicateDecoratorError e = true)
    /\ (blankName tableName ->
        e = Error "Invalid tableName: cannot be an empty string.").
Proof.
  intros H. unfold DynamoTable.
  apply (stringDecorator_second_declaration R (Constructor target) tableName
           "tableName" DYNAMO_TABLE_NAME_KEY "@DynamoTable"
           (orElse tableName (fn_name target)) existing
           (defineMetadataString DYNAMO_TABLE_NAME_KEY
              (orElse tableName (fn_name target)) (Constructor target))).
  exact H.
Qed.

(** [@DynamoTable("Other")] on the declared class of the test suite. *)
Lemma table_name_declared_once_witness :
  exists e,
    DynamoTable (Some "Other") TestEntity testEntityMetadata
    = (Throw e, testEntityMetadata)
    /\ isDuplicateDecoratorError e = true.
Proof.
  destruct (table_name_declared_once testEntityMetadata TestEntity
              (Some "Other") "TestTable") as (e & He & Hdup & _).
  - vm_compute. reflexivity.
  - exists e. split; [exact He|].
    apply Hdup. intros v [= <-]. right. reflexivity.
Defined.

(** ** C9: [softDelete] *)

Lemma append_nonempty (s : string) (a : ascii) (t : string) :
  s +:+ String a t <> "".
Proof. destruct s; discriminate. Qed.

(** The text of an instant is never empty: it has the hyphen after the
    year. *)
Lemma toISOString_nonempty (t : Z) : toISOString t <> "".
Proof.
  unfold toISOString. destruct (civilFromDays (t / 86400000)) as [[y m] d].
  apply append_nonempty.
Qed.

Section SoftDelete.

Context {C : Type}.
Variable send : Command -> C -> Result Response * C.
Variable R : Metadata.
Variable entityClass : NewableFunction.

(** C9.  When the table name and the key map resolve and the point read
    answers with an item, [softDelete] sends exactly two commands: the read
    of that key, then an unconditional put.  The item put is the item read
    with [deletedAt] set to the text of the clock's instant, which is not
    empty; every other field is as it was read. *)
Theorem softDelete_one_read_one_write (pk : DynamoKey) (sk : option DynamoKey)
    (w : World C) (tableName : string) (key : DynamoKeyMap)
    (response : Response) (c : C) (item : Item) :
  getTableName R entityClass = Return tableName ->
  buildKeyMap R entityClass pk sk = Return key ->
  send (GetCommand tableName key) (client w) = (Return response, c) ->
  rItem response = Some item ->
  let timestamp := toISOString (clock w) in
  let written : Item := <[ "deletedAt" := VString timestamp ]> item in
  sent (softDelete send R entityClass pk sk w).2
  = (sent w ++ [GetCommand tableName key; PutCommand tableName written None None])%list
  /\ timestamp <> ""
  /\ written !! "deletedAt" = Some (VString timestamp)
  /\ (forall field, field <> "deletedAt" -> written !! field = item !! field).
Proof.
  intros Ht Hk Hsend Hitem. cbv zeta.
  split; [|split; [|split]].
  - unfold softDelete, bind at 1.
    rewrite (getItem_answered send R entityClass pk sk w tableName key
               response c Ht Hk Hsend), Hitem.
    unfold bind at 1, gets. unfold bind at 1. simpl.
    unfold put, bind at 1, lift. rewrite Ht.
    match goal with
    | |- context [tryCatch ?m ?h ?w0] =>
        pose proof (sent_send_in_try send
                      (PutCommand tableName
                         (<[ "deletedAt" := VString (toISOString (clock w)) ]> item)
                         None None)
                      (<[ "deletedAt" := VString (toISOString (clock w)) ]> item)
                      "Error putting item to DynamoDB:" w0) as Hput;
        destruct (tryCatch m h w0) as [[written'|e] w1]
    end; simpl in *; rewrite Hput, <- app_assoc; reflexivity.
  - apply toISOString_nonempty.
  - apply lookup_insert_eq.
  - intros field Hne. apply lookup_insert_ne. congruence.
Qed.

End SoftDelete.

(** C9 on the call of the test suite: the client answers the read with the
    item and the put with an empty response. *)
Lemma softDelete_one_read_one_write_witness :
  sent (softDelete scripted testEntityMetadata TestEntity (KString "test-id")
          (Some (KString "2024-01-01"))
          (newWorld [Return (itemResponse testItem); Return emptyResponse]
             1700000000000)).2
  = [ GetCommand "TestTable"
        (<[ "sk" := KString "2024-01-01" ]> {[ "pk" := KString "test-id" ]});
      PutCommand "TestTable"
        (<[ "deletedAt" := VString "2023-11-14T22:13:20.000Z" ]> testItem)
        None None ].
Proof.
  pose proof (softDelete_one_read_one_write scripted testEntityMetadata TestEntity
                (KString "test-id") (Some (KString "2024-01-01"))
                (newWorld [Return (itemResponse testItem); Return emptyResponse]
                   1700000000000)
                "TestTable"
                (<[ "sk" := KString "2024-01-01" ]> {[ "pk" := KString "test-id" ]})
                (itemResponse testItem) [Return emptyResponse] testItem) as H.
  cbv zeta in H. destruct H as (Hsent & _).
  - vm_compute. reflexivity.
  - vm_compute. reflexivity.
  - reflexivity.
  - reflexivity.
  - rewrite Hsent. reflexivity.
Defined.

(** ** C10: index keys and the keys of the base table *)


Section IndexFallback.

Context {C : Type}.
Variable send : Command -> C -> Result Response * C.
Variable R : Metadata.
Variable entityClass : NewableFunction.

Lemma getPKName_index (indexName : string) :
  allWhiteSpace indexName = false ->
  getPKName R entityClass (Some indexName)
  = match asTruthy (indexLookup DYNAMO_INDEX_PARTITION_KEYS_KEY
                      (Prototype entityClass) indexName R) with
    | Some pkName => Return pkName
    | None => getPKName R entityClass None
    end.
Proof.
  intros Hw.
  assert (Hne : indexName <> "") by (intros ->; discriminate).
  rewrite getPKName_base_run. unfold getPKName.
  rewrite (asTruthy_nonempty _ Hne). unfold getIndexPartitionKeyName.
  rewrite (getIndexKeyName_entry _ _ _ _ Hw). cbn [bindR getPrototype getConstructor].
  unfold asTruthy at 1 2.
  destruct (truthy (indexLookup _ _ _ _)) eqn:E.
  - rewrite E. destruct (indexLookup _ _ _ _); [reflexivity|discriminate E].
  - fold (asTruthy (Field <$> getPartitionKeyName (Class entityClass) R)).
    rewrite asTruthy_Field. destruct (asTruthy _); reflexivity.
Qed.

Lemma getSKName_index (indexName : string) :
  allWhiteSpace indexName = false ->
  getSKName R entityClass (Some indexName)
  = Return (if truthy (indexLookup DYNAMO_INDEX_SORT_KEYS_KEY
                         (Prototype entityClass) indexName R)
            then indexLookup DYNAMO_INDEX_SORT_KEYS_KEY
                   (Prototype entityClass) indexName R
            else Field <$> getSortKeyName (Class entityClass) R).
Proof.
  intros Hw. unfold getSKName.
  assert (Hne : indexName <> "") by (intros ->; discriminate).
  rewrite (asTruthy_nonempty _ Hne). unfold getIndexSortKeyName.
  rewrite (getIndexKeyName_entry _ _ _ _ Hw). reflexivity.
Qed.



(** [query] with a sort value, once the names resolve to strings: the one
    store call it makes. *)
Lemma query_sort_input (options : QueryOptions) (tableName pkName skName : string)
    (skValue : DynamoKey) (w : World C) :
  sk options = Some skValue ->
  getTableName R entityClass = Return tableName ->
  getPKName R entityClass (indexName options) = Return pkName ->
  getSKName R entityClass (indexName options) = Return (Some skName) ->
  skName <> "" ->
  query send R entityClass options w
  = tryCatch
      (response <- clientSend send
                     (QueryCommand
                        (sortQueryInput tableName pkName skName skValue options)) ;;
       ret {| items := rItems response;
              lastEvaluatedKey := rLastEvaluatedKey response;
              count := match rCount response with
                       | Some n => if (n =? 0)%Z then 0%Z else n
                       | None => 0%Z
                       end |})
      (logAndRethrow "Error querying items from DynamoDB:") w.
Proof.
  intros Hsk Ht Hp Hs Hne.
  assert (Htruthy : truthy (Some (Field skName)) = true)
    by (apply (truthy_Some skName); exact Hne).
  unfold query. cbv zeta. rewrite Hsk.
  unfold bind at 1 2 3, lift. rewrite Ht, Hp, Hs, Htruthy.
  change (negb true) with false. cbv iota.
  match goal with
  | |- tryCatch (bind (clientSend send (QueryCommand ?X)) _) _ _ = _ =>
      assert (E : X = sortQueryInput tableName pkName skName skValue options)
  end.
  { unfold sortQueryInput, buildQueryExpressions.
    rewrite (asTruthy_Field_nonempty _ Hne). simpl.
    destruct (comparatorText (default CmpEq (skComparator options)) =? "begins_with");
      reflexivity. }
  rewrite E. reflexivity.
Qed.


End IndexFallback.


(** ** Further properties of the specification *)

Section StoreCalls.

Context {C : Type}.
Variable send : Command -> C -> Result Response * C.
Variable R : Metadata.
Variable entityClass : NewableFunction.

Lemma tryCatch_send_rejected {A} (command : Command)
    (k : Response -> M (World C) A) (message : string) (w : World C)
    (e : error) (c : C) :
  send command (client w) = (Throw e, c) ->
  tryCatch (bind (clientSend send command) k) (logAndRethrow message) w
  = (Throw e, afterRejection w command c message e).
Proof.
  intros H. unfold tryCatch, bind. rewrite clientSend_run, H. reflexivity.
Qed.

Lemma tryCatch_send_answered {A} (command : Command) (f : Response -> A)
    (message : string) (w : World C) (response : Response) (c : C) :
  send command (client w) = (Return response, c) ->
  tryCatch (response <- clientSend send command ;; ret (f response))
    (logAndRethrow message) w
  = (Return (f response), afterSend w command c).
Proof.
  intros H. unfold tryCatch, bind. rewrite clientSend_run, H. reflexivity.
Qed.

(** A rejection of the store call is logged once and thrown again
    unchanged, by [create], [getItem], [put] and [remove]; the command is on
    the log and nothing else was sent. *)
Theorem store_rejection_rethrown (tableName pkName : string) (e : error)
    (w : World C) (c : C) :
  getTableName R entityClass = Return tableName ->
  getPKName R entityClass None = Return pkName ->
  (forall item,
      send (createCommand tableName pkName (getSortKeyName (Class entityClass) R) item) (client w) = (Throw e, c) ->
      create send R entityClass (Object_ item) w
      = (Throw e, afterRejection w (createCommand tableName pkName (getSortKeyName (Class entityClass) R) item) c
                    "Error creating item in DynamoDB:" e))
  /\ (forall item,
      send (PutCommand tableName item None None) (client w) = (Throw e, c) ->
      put send R entityClass (Object_ item) w
      = (Throw e, afterRejection w (PutCommand tableName item None None) c
                    "Error putting item to DynamoDB:" e))
  /\ (forall pk sk key,
      buildKeyMap R entityClass pk sk = Return key ->
      send (GetCommand tableName key) (client w) = (Throw e, c) ->
      getItem send R entityClass pk sk w
      = (Throw e, afterRejection w (GetCommand tableName key) c
                    "Error getting item from DynamoDB:" e))
  /\ (forall pk sk key,
      buildKeyMap R entityClass pk sk = Return key ->
      send (DeleteCommand tableName key) (client w) = (Throw e, c) ->
      remove send R entityClass pk sk w
      = (Throw e, afterRejection w (DeleteCommand tableName key) c
                    "Error deleting item from DynamoDB:" e)).
Proof.
  intros Ht Hp. split; [|split; [|split]].
  - intros item Hsend. unfold create, bind at 1 2 3, lift.
    rewrite Ht, Hp, getSKName_base.
    apply (tryCatch_send_rejected _ (fun _ => ret item)). exact Hsend.
  - intros item Hsend. unfold put, bind at 1, lift. rewrite Ht.
    apply (tryCatch_send_rejected _ (fun _ => ret item)). exact Hsend.
  - intros pk sk key Hk Hsend. unfold getItem, bind at 1 2, lift.
    rewrite Ht, Hk. apply tryCatch_send_rejected. exact Hsend.
  - intros pk sk key Hk Hsend. unfold remove, bind at 1 2, lift.
    rewrite Ht, Hk.
    apply (tryCatch_send_rejected _ (fun _ => ret tt)). exact Hsend.
Qed.

(** A query without a sort value sends the partition-only condition, in
    ascending order unless the options say otherwise, and returns the items
    and the continuation key of the response with its count, zero when the
    response has none. *)
Theorem query_partition_only (options : QueryOptions) (tableName pkName : string)
    (w : World C) (response : Response) (c : C) :
  sk options = None ->
  getTableName R entityClass = Return tableName ->
  getPKName R entityClass (indexName options) = Return pkName ->
  send (QueryCommand (partitionQueryInput tableName pkName options)) (client w)
  = (Return response, c) ->
  query send R entityClass options w
  = (Return {| items := rItems response;
               lastEvaluatedKey := rLastEvaluatedKey response;
               count := default 0%Z (rCount response) |},
     afterSend w (QueryCommand (partitionQueryInput tableName pkName options)) c).
Proof.
  intros Hsk Ht Hp Hsend. unfold query. cbv zeta. rewrite Hsk.
  unfold bind at 1 2 3, lift. rewrite Ht, Hp. cbv iota. simpl buildQueryExpressions.
  cbv beta iota.
  change (QueryCommand _) with
    (QueryCommand (partitionQueryInput tableName pkName options)).
  rewrite (tryCatch_send_answered _ _ _ _ _ _ Hsend).
  f_equal. f_equal.
  destruct (rCount response) as [n|]; simpl; [|reflexivity].
  destruct (Z.eqb_spec n 0); congruence.
Qed.

(** A query with a sort value sends the sort condition of its comparator,
    [=] when the options name none, under the two resolved field names. *)
Theorem query_with_sort_value (options : QueryOptions)
    (tableName pkName skName : string) (skValue : DynamoKey) (w : World C) :
  sk options = Some skValue ->
  getTableName R entityClass = Return tableName ->
  getPKName R entityClass (indexName options) = Return pkName ->
  getSKName R entityClass (indexName options) = Return (Some skName) ->
  skName <> "" ->
  sent (query send R entityClass options w).2
  = (sent w
     ++ [QueryCommand (sortQueryInput tableName pkName skName skValue options)])%list.
Proof.
  intros Hsk Ht Hp Hs Hne.
  rewrite (query_sort_input send R entityClass options tableName pkName skName
             skValue w Hsk Ht Hp Hs Hne).
  apply sent_send_then. reflexivity.
Qed.

(** A query with a sort value on a class that resolves no sort key throws a
    [DecoratorMissingError] before any store call. *)
Theorem query_sort_value_without_sort_key (options : QueryOptions)
    (tableName pkName : string) (skValue : DynamoKey) (skName : option Name)
    (w : World C) :
  sk options = Some skValue ->
  getTableName R entityClass = Return tableName ->
  getPKName R entityClass (indexName options) = Return pkName ->
  getSKName R entityClass (indexName options) = Return skName ->
  asTruthy skName = None ->
  exists message,
    query send R entityClass options w = (Throw (DecoratorMissingError message), w).
Proof.
  intros Hsk Ht Hp Hs Hnone.
  assert (Hfalsy : truthy skName = false)
    by (rewrite truthy_asTruthy, Hnone; reflexivity).
  unfold query. cbv zeta. rewrite Hsk.
  unfold bind at 1 2 3, lift. rewrite Ht, Hp, Hs, Hfalsy.
  change (negb false) with true. cbv iota. unfold throw. eauto.
Qed.

End StoreCalls.

(** [query({ pk: "USER" })] on the class of the test suite, answered with
    no count: the condition is [#pk = :pkValue], the value of [:pkValue] is
    [USER], and the count is zero. *)
Lemma query_partition_only_witness :
  query scripted testEntityMetadata TestEntity
    {| pk := KString "USER"; sk := None; skComparator := None;
       indexName := None; scanIndexForward := None; limit := None |}
    (newWorld [Return emptyResponse] 0)
  = (Return {| items := None; lastEvaluatedKey := None; count := 0 |},
     {| client := [];
        sent := [QueryCommand
                   {| qTableName := "TestTable"; qIndexName := None;
                      qKeyConditionExpression := "#pk = :pkValue";
                      qExpressionAttributeNames := {[ "#pk" := Field "pk" ]};
                      qExpressionAttributeValues := {[ ":pkValue" := KString "USER" ]};
                      qLimit := None; qScanIndexForward := true |}];
        console := []; clock := 0 |}).
Proof.
  apply (query_partition_only scripted testEntityMetadata TestEntity
           {| pk := KString "USER"; sk := None; skComparator := None;
              indexName := None; scanIndexForward := None; limit := None |}
           "TestTable" "pk" (newWorld [Return emptyResponse] 0) emptyResponse []).
  - reflexivity.
  - vm_compute. reflexivity.
  - vm_compute. reflexivity.
  - reflexivity.
Defined.

(** The query of the test suite with the comparator [begins_with]. *)
Lemma query_with_sort_value_witness :
  sent (query scripted testEntityMetadata TestEntity
          {| pk := KString "test-id"; sk := Some (KString "2024-");
             skComparator := Some CmpBeginsWith; indexName := None;
             scanIndexForward := None; limit := None |}
          (newWorld [] 0)).2
  = [QueryCommand
       {| qTableName := "TestTable"; qIndexName := None;
          qKeyConditionExpression := "#pk = :pkValue AND begins_with(#sk, :skValue)";
          qExpressionAttributeNames :=
            <[ "#sk" := Field "sk" ]> {[ "#pk" := Field "pk" ]};
          qExpressionAttributeValues :=
            <[ ":skValue" := KString "2024-" ]> {[ ":pkValue" := KString "test-id" ]};
          qLimit := None; qScanIndexForward := true |}].
Proof.
  apply (query_with_sort_value scripted testEntityMetadata TestEntity
           {| pk := KString "test-id"; sk := Some (KString "2024-");
              skComparator := Some CmpBeginsWith; indexName := None;
              scanIndexForward := None; limit := None |}
           "TestTable" "pk" "sk" (KString "2024-") (newWorld [] 0)).
  - reflexivity.
  - vm_compute. reflexivity.
  - vm_compute. reflexivity.
  - vm_compute. reflexivity.
  - discriminate.
Defined.

(** The query of the test suite with a sort value on the class that has a
    partition key only. *)
Lemma query_sort_value_without_sort_key_witness :
  exists message,
    query scripted pkOnlyMetadata EntityPKOnly
      {| pk := KString "test-id"; sk := Some (KString "sort-value");
         skComparator := None; indexName := None;
         scanIndexForward := None; limit := None |}
      (newWorld [] 0)
    = (Throw (DecoratorMissingError message), newWorld [] 0).
Proof.
  apply (query_sort_value_without_sort_key scripted pkOnlyMetadata EntityPKOnly
           {| pk := KString "test-id"; sk := Some (KString "sort-value");
              skComparator := None; indexName := None;
              scanIndexForward := None; limit := None |}
           "TestTable" "pk" (KString "sort-value") None (newWorld [] 0)).
  - reflexivity.
  - vm_compute. reflexivity.
  - vm_compute. reflexivity.
  - vm_compute. reflexivity.
  - reflexivity.
Defined.

(** [repository.put(item)] on the class of the test suite with a client
    that rejects ([mockRejectedValue]). *)
Lemma store_rejection_rethrown_witness :
  put scripted testEntityMetadata TestEntity (Object_ testItem)
    (newWorld [Throw (ServiceError "Error" "DynamoDB error")] 0)
  = (Throw (ServiceError "Error" "DynamoDB error"),
     {| client := [];
        sent := [PutCommand "TestTable" testItem None None];
        console := [("Error putting item to DynamoDB:",
                     ServiceError "Error" "DynamoDB error")];
        clock := 0 |}).
Proof.
  apply (store_rejection_rethrown scripted testEntityMetadata TestEntity
           "TestTable" "pk" (ServiceError "Error" "DynamoDB error")
           (newWorld [Throw (ServiceError "Error" "DynamoDB error")] 0) []).
  - vm_compute. reflexivity.
  - vm_compute. reflexivity.
  - reflexivity.
Defined.

(** *** The registry only grows *)

(** Once a table name, a partition key, a sort key or the key of an index is
    registered for a class, no later declaration changes it: a class has at
    most one of each, and the one it has is the first. *)
Theorem registered_names_never_change (ds : list Declaration) (R : Metadata)
    (c : NewableFunction) :
  (forall tableName,
      getDynamoTableName (Class c) R = Some tableName ->
      getDynamoTableName (Class c) (declare ds R) = Some tableName)
  /\ (forall pkName,
      getPartitionKeyName (Class c) R = Some pkName ->
      getPartitionKeyName (Class c) (declare ds R) = Some pkName)
  /\ (forall skName,
      getSortKeyName (Class c) R = Some skName ->
      getSortKeyName (Class c) (declare ds R) = Some skName)
  /\ (forall index name,
      allWhiteSpace index = false ->
      getIndexPartitionKeyName (Class c) index R = Return (Some name) ->
      getIndexPartitionKeyName (Class c) index (declare ds R) = Return (Some name))
  /\ (forall index name,
      allWhiteSpace index = false ->
      getIndexSortKeyName (Class c) index R = Return (Some name) ->
      getIndexSortKeyName (Class c) index (declare ds R) = Return (Some name)).
Proof.
  assert (Hstring : forall target key existing,
             getMetadataString key target R = Some existing ->
             getMetadataString key target (declare ds R) = Some existing).
  { intros target key existing.
    apply (declare_preserves
             (fun R => getMetadataString key target R = Some existing)
             (fun _ => True)).
    - intros d R' _. apply applyDeclaration_string_kept.
    - apply Forall_forall. auto. }
  assert (Hindex : forall target key index found,
             indexLookup key target index R = Some found ->
             indexLookup key target index (declare ds R) = Some found).
  { intros target key index found.
    apply (declare_preserves
             (fun R => indexLookup key target index R = Some found)
             (fun _ => True)).
    - intros d R' _. apply applyDeclaration_lookup_kept.
    - apply Forall_forall. auto. }
  split; [|split; [|split; [|split]]].
  - intros tableName. apply Hstring.
  - intros pkName. apply Hstring.
  - intros skName. apply Hstring.
  - intros index name Hw. unfold getIndexPartitionKeyName.
    rewrite !(getIndexKeyName_entry _ _ _ _ Hw).
    intros [= H]. f_equal. apply Hindex. exact H.
  - intros index name Hw. unfold getIndexSortKeyName.
    rewrite !(getIndexKeyName_entry _ _ _ _ Hw).
    intros [= H]. f_equal. apply Hindex. exact H.
Qed.

(** After the class of the test suite is declared, a second round of
    declarations under other names changes nothing. *)
Lemma registered_names_never_change_witness :
  getPartitionKeyName (Class TestEntity)
    (declare [ DeclPartitionKey (Some "other") (Prototype TestEntity) (PString "name");
               DeclDynamoTable (Some "OtherTable") TestEntity ] testEntityMetadata)
  = Some "pk".
Proof.
  apply (registered_names_never_change
           [ DeclPartitionKey (Some "other") (Prototype TestEntity) (PString "name");
             DeclDynamoTable (Some "OtherTable") TestEntity ]
           testEntityMetadata TestEntity).
  vm_compute. reflexivity.
Defined.

(** *** What a first declaration registers *)

Lemma objectPrototypeMember_not_blank (name : string) :
  objectPrototypeMember name = true -> allWhiteSpace name = false.
Proof.
  unfold objectPrototypeMember. intros H.
  apply existsb_exists in H as (member & Hin & Heq).
  apply String.eqb_eq in Heq. subst member. simpl in Hin.
  repeat (destruct Hin as [<-|Hin]; [reflexivity|]). destruct Hin.
Qed.

(** [IndexPartitionKey] and [IndexSortKey] where the record has no entry
    for the index name and inherits none. *)
Lemma indexKeyDecorator_fresh (key decoratorName kind index : string)
    (fieldName : option string) (target : object) (propertyKey : PropertyKey)
    (R : Metadata) :
  passesNameCheck fieldName ->
  allWhiteSpace index = false ->
  objectPrototypeMember index = false ->
  indexEntry key target index R = None ->
  (indexKeyDecorator key decoratorName kind index fieldName target
     propertyKey R).1 = Return tt
  /\ indexEntry key target index
       (indexKeyDecorator key decoratorName kind index fieldName
          target propertyKey R).2
     = Some (orElse fieldName (String_ propertyKey)).
Proof.
  intros Hok Hw Hm Hnone.
  unfold indexKeyDecorator, bind at 1, lift.
  rewrite (validateNonEmptyString_ok _ _ Hw).
  unfold bind at 1, lift. rewrite (validateIfTruthy_ok _ _ Hok).
  unfold bind, gets. cbv zeta.
  assert (Hread : readProperty (default ∅ (getMetadataRecord key target R)) index
                  = None).
  { apply readProperty_absent; [|exact Hm]. unfold indexEntry in Hnone.
    destruct (getMetadataRecord key target R); [exact Hnone|apply lookup_empty]. }
  rewrite Hread.
  rewrite assignProperty_insert by (apply objectPrototypeMember_proto, Hm).
  split; [reflexivity|].
  unfold indexEntry, getMetadataRecord. simpl.
  rewrite lookup_insert_eq. simpl. apply lookup_insert_eq.
Qed.

(** The same under an index name that every record inherits a property
    for: the decorator takes the inherited member for an existing key. *)
Lemma indexKeyDecorator_inherited (key decoratorName kind index : string)
    (fieldName : option string) (target : object) (propertyKey : PropertyKey)
    (R : Metadata) :
  passesNameCheck fieldName ->
  objectPrototypeMember index = true ->
  exists e,
    indexKeyDecorator key decoratorName kind index fieldName target
      propertyKey R = (Throw e, R)
    /\ isDuplicateDecoratorError e = true.
Proof.
  intros Hok Hm.
  pose proof (objectPrototypeMember_not_blank _ Hm) as Hw.
  unfold indexKeyDecorator, bind at 1, lift.
  rewrite (validateNonEmptyString_ok _ _ Hw).
  unfold bind at 1, lift. rewrite (validateIfTruthy_ok _ _ Hok).
  unfold bind, gets. cbv zeta.
  destruct (readProperty (default ∅ (getMetadataRecord key target R)) index)
    as [existing|] eqn:Er.
  - eexists. split; reflexivity.
  - apply readProperty_None in Er as [_ Er]. congruence.
Qed.

(** On a target with no key of its kind yet, a declaration whose names
    pass the decorator's check registers the explicit field name when there
    is one and the name of the property otherwise; for the index
    decorators, provided the index name is not the name of a property every
    object inherits.  Under such a name they register nothing: the first
    declaration already throws a [DuplicateDecoratorError]. *)
Theorem first_declaration_registers (R : Metadata) (target : object)
    (fieldName : option string) (propertyKey : PropertyKey) :
  passesNameCheck fieldName ->
  let registered := match fieldName with
                    | Some explicit => explicit
                    | None => String_ propertyKey
                    end in
  (getMetadataString DYNAMO_PARTITION_KEY_KEY target R = None ->
   (PartitionKey fieldName target propertyKey R).1 = Return tt
   /\ getMetadataString DYNAMO_PARTITION_KEY_KEY target
        (PartitionKey fieldName target propertyKey R).2 = Some registered)
  /\ (getMetadataString DYNAMO_SORT_KEY_KEY target R = None ->
      (SortKey fieldName target propertyKey R).1 = Return tt
      /\ getMetadataString DYNAMO_SORT_KEY_KEY target
           (SortKey fieldName target propertyKey R).2 = Some registered)
  /\ (forall index,
      allWhiteSpace index = false ->
      objectPrototypeMember index = false ->
      indexEntry DYNAMO_INDEX_PARTITION_KEYS_KEY target index R = None ->
      (IndexPartitionKey index fieldName target propertyKey R).1 = Return tt
      /\ indexEntry DYNAMO_INDEX_PARTITION_KEYS_KEY target index
           (IndexPartitionKey index fieldName target propertyKey R).2
         = Some registered)
  /\ (forall index,
      allWhiteSpace index = false ->
      objectPrototypeMember index = false ->
      indexEntry DYNAMO_INDEX_SORT_KEYS_KEY target index R = None ->
      (IndexSortKey index fieldName target propertyKey R).1 = Return tt
      /\ indexEntry DYNAMO_INDEX_SORT_KEYS_KEY target index
           (IndexSortKey index fieldName target propertyKey R).2
         = Some registered)
  /\ (forall index,
      objectPrototypeMember index = true ->
      exists e e',
        IndexPartitionKey index fieldName target propertyKey R = (Throw e, R)
        /\ isDuplicateDecoratorError e = true
        /\ IndexSortKey index fieldName target propertyKey R = (Throw e', R)
        /\ isDuplicateDecoratorError e' = true).
Proof.
  intros Hok. cbv zeta.
  change (match fieldName with
          | Some explicit => explicit
          | None => String_ propertyKey
          end) with (orElse fieldName (String_ propertyKey)).
  split; [|split; [|split; [|split]]].
  - intros Hnone. unfold PartitionKey, bind at 1, lift.
    rewrite (validateIfTruthy_ok _ _ Hok). cbv zeta. unfold bind.
    rewrite (validateDuplicateDecorator_fresh _ _ _ _ _ Hnone). simpl.
    split; [reflexivity|].
    unfold getMetadataString. simpl. apply lookup_insert_eq.
  - intros Hnone. unfold SortKey, bind at 1, lift.
    rewrite (validateIfTruthy_ok _ _ Hok). cbv zeta. unfold bind.
    rewrite (validateDuplicateDecorator_fresh _ _ _ _ _ Hnone). simpl.
    split; [reflexivity|].
    unfold getMetadataString. simpl. apply lookup_insert_eq.
  - intros index. apply indexKeyDecorator_fresh. exact Hok.
  - intros index. apply indexKeyDecorator_fresh. exact Hok.
  - intros index Hm.
    destruct (indexKeyDecorator_inherited DYNAMO_INDEX_PARTITION_KEYS_KEY
                "@IndexPartitionKey" "partition" index fieldName target
                propertyKey R Hok Hm) as (e & He & Hdup).
    destruct (indexKeyDecorator_inherited DYNAMO_INDEX_SORT_KEYS_KEY
                "@IndexSortKey" "sort" index fieldName target
                propertyKey R Hok Hm) as (e' & He' & Hdup').
    exists e, e'. auto.
Qed.

(** The first property decorator of the class of the test suite, with and
    without an explicit field name, and its first key for an index. *)
Lemma first_declaration_registers_witness :
  getMetadataString DYNAMO_PARTITION_KEY_KEY (Prototype TestEntity)
    (PartitionKey (Some "pk") (Prototype TestEntity) (PString "id") noMetadata).2
  = Some "pk"
  /\ getMetadataString DYNAMO_SORT_KEY_KEY (Prototype TestEntity)
       (SortKey None (Prototype TestEntity) (PString "createdAt") noMetadata).2
     = Some "createdAt"
  /\ indexEntry DYNAMO_INDEX_SORT_KEYS_KEY (Prototype TestEntity) "EmailIndex"
       (IndexSortKey "EmailIndex" None (Prototype TestEntity) (PString "email")
          noMetadata).2
     = Some "email".
Proof.
  split; [|split].
  - apply (first_declaration_registers noMetadata (Prototype TestEntity)
             (Some "pk") (PString "id")).
    + intros v [= <-]. right. reflexivity.
    + reflexivity.
  - apply (first_declaration_registers noMetadata (Prototype TestEntity)
             None (PString "createdAt")).
    + intros v [=].
    + reflexivity.
  - apply (first_declaration_registers noMetadata (Prototype TestEntity)
             None (PString "email")).
    + intros v [=].
    + reflexivity.
    + reflexivity.
    + reflexivity.
Defined.

(** ** What the operations send, and when they stop before the store *)

Section OperationFacts.

Context {C : Type}.
Variable send : Command -> C -> Result Response * C.
Variable R : Metadata.
Variable entityClass : NewableFunction.

Lemma getSKName_cases (index : option string) :
  (exists skName, getSKName R entityClass index = Return skName)
  \/ getSKName R entityClass index = Throw (Error "indexName cannot be empty").
Proof.
  unfold getSKName. destruct (asTruthy index) as [i|]; [|left; eauto].
  unfold getIndexSortKeyName, getIndexKeyName.
  destruct (negb (truthy (Some i)) || (trim i =? ""))%bool; [right; reflexivity|].
  destruct (getMetadataRecord _ _ R); left; eauto.
Qed.

(** [create] either stops before the store, the world untouched, or sends
    its one conditional put. *)
Lemma create_sends (item : Arg) (w : World C) :
  (exists e, create send R entityClass item w = (Throw e, w))
  \/ (exists tableName (pkName : string) found,
        item = Object_ found
        /\ getTableName R entityClass = Return tableName
        /\ getPKName R entityClass None = Return pkName
        /\ sent (create send R entityClass item w).2
           = (sent w ++ [createCommand tableName pkName
                           (getSortKeyName (Class entityClass) R) found])%list).
Proof.
  destruct item as [| |found]; [left; eexists; reflexivity ..|].
  destruct (getTableName_cases R entityClass) as [[tableName Ht]|[m Ht]].
  - destruct (getPKName_base_cases R entityClass) as [[pkName Hp]|[m Hp]].
    + right. exists tableName, pkName, found. repeat split; try assumption.
      unfold create, bind at 1 2 3, lift. rewrite Ht, Hp, getSKName_base.
      apply sent_send_in_try.
    + left. eexists. unfold create, bind at 1 2, lift. rewrite Ht, Hp.
      reflexivity.
  - left. eexists. unfold create, bind at 1, lift. rewrite Ht. reflexivity.
Qed.

Lemma put_sends (item : Arg) (w : World C) :
  (exists e, put send R entityClass item w = (Throw e, w))
  \/ (exists tableName found,
        item = Object_ found
        /\ getTableName R entityClass = Return tableName
        /\ sent (put send R entityClass item w).2
           = (sent w ++ [PutCommand tableName found None None])%list).
Proof.
  destruct item as [| |found]; [left; eexists; reflexivity ..|].
  destruct (getTableName_cases R entityClass) as [[tableName Ht]|[m Ht]].
  - right. exists tableName, found. repeat split; try assumption.
    unfold put, bind at 1, lift. rewrite Ht. apply sent_send_in_try.
  - left. eexists. unfold put, bind at 1, lift. rewrite Ht. reflexivity.
Qed.

Lemma getItem_sends (pk : DynamoKey) (sk : option DynamoKey) (w : World C) :
  (exists e, getItem send R entityClass pk sk w = (Throw e, w))
  \/ (exists tableName key,
        getTableName R entityClass = Return tableName
        /\ buildKeyMap R entityClass pk sk = Return key
        /\ sent (getItem send R entityClass pk sk w).2
           = (sent w ++ [GetCommand tableName key])%list).
Proof.
  destruct (getTableName_cases R entityClass) as [[tableName Ht]|[m Ht]].
  - destruct (buildKeyMap R entityClass pk sk) as [key|e] eqn:Hk.
    + right. exists tableName, key. repeat split; try assumption.
      unfold getItem, bind at 1 2, lift. rewrite Ht, Hk.
      apply sent_send_then.
      intros response w0. destruct (rItem response); reflexivity.
    + left. eexists. unfold getItem, bind at 1 2, lift. rewrite Ht, Hk.
      reflexivity.
  - left. eexists. unfold getItem, bind at 1, lift. rewrite Ht. reflexivity.
Qed.

Lemma remove_sends (pk : DynamoKey) (sk : option DynamoKey) (w : World C) :
  (exists e, remove send R entityClass pk sk w = (Throw e, w))
  \/ (exists tableName key,
        getTableName R entityClass = Return tableName
        /\ buildKeyMap R entityClass pk sk = Return key
        /\ sent (remove send R entityClass pk sk w).2
           = (sent w ++ [DeleteCommand tableName key])%list).
Proof.
  destruct (getTableName_cases R entityClass) as [[tableName Ht]|[m Ht]].
  - destruct (buildKeyMap R entityClass pk sk) as [key|e] eqn:Hk.
    + right. exists tableName, key. repeat split; try assumption.
      unfold remove, bind at 1 2, lift. rewrite Ht, Hk.
      apply sent_send_in_try.
    + left. eexists. unfold remove, bind at 1 2, lift. rewrite Ht, Hk.
      reflexivity.
  - left. eexists. unfold remove, bind at 1, lift. rewrite Ht. reflexivity.
Qed.

Lemma query_sends (options : QueryOptions) (w : World C) :
  (exists e, query send R entityClass options w = (Throw e, w))
  \/ (exists input,
        qIndexName input = indexName options
        /\ sent (query send R entityClass options w).2
           = (sent w ++ [QueryCommand input])%list).
Proof.
  destruct (getTableName_cases R entityClass) as [[tableName Ht]|[m Ht]].
  - destruct (getPKName R entityClass (indexName options)) as [pkName|e] eqn:Hp.
    + destruct (match sk options with
                | Some _ => getSKName R entityClass (indexName options)
                | None => Return None
                end) as [skName|e] eqn:Hs.
      * destruct (match sk options with
                  | Some _ => negb (truthy skName)
                  | None => false
                  end) eqn:Hguard.
        -- left. eexists. unfold query. cbv zeta. unfold bind at 1 2 3, lift.
           rewrite Ht, Hp, Hs, Hguard. reflexivity.
        -- right. eexists. split; [|unfold query; cbv zeta;
                                     unfold bind at 1 2 3, lift;
                                     rewrite Ht, Hp, Hs, Hguard;
                                     apply sent_send_then; reflexivity].
           reflexivity.
      * left. eexists. unfold query. cbv zeta. unfold bind at 1 2 3, lift.
        rewrite Ht, Hp, Hs. reflexivity.
    + left. eexists. unfold query. cbv zeta. unfold bind at 1 2, lift.
      rewrite Ht, Hp. reflexivity.
  - left. eexists. unfold query. cbv zeta. unfold bind at 1, lift.
    rewrite Ht. reflexivity.
Qed.

(** A command sent inside [try]/[catch], with the value returned when the
    client answers. *)
Lemma tryCatch_send_run {A} (command : Command) (a : A) (message : string)
    (w : World C) :
  tryCatch (clientSend send command ;;; ret a) (logAndRethrow message) w
  = match send command (client w) with
    | (Return _, c) => (Return a, afterSend w command c)
    | (Throw e, c) => (Throw e, afterRejection w command c message e)
    end.
Proof.
  unfold tryCatch, bind. rewrite clientSend_run.
  destruct (send command (client w)) as [[response|e] c]; reflexivity.
Qed.

Lemma put_run (item : Item) (tableName : string) (w : World C) :
  getTableName R entityClass = Return tableName ->
  put send R entityClass (Object_ item) w
  = match send (PutCommand tableName item None None) (client w) with
    | (Return _, c) =>
        (Return item, afterSend w (PutCommand tableName item None None) c)
    | (Throw e, c) =>
        (Throw e, afterRejection w (PutCommand tableName item None None) c
                    "Error putting item to DynamoDB:" e)
    end.
Proof.
  intros Ht. unfold put, bind at 1, lift. rewrite Ht. apply tryCatch_send_run.
Qed.

Lemma getItem_rejected (pk : DynamoKey) (sk : option DynamoKey) (w : World C)
    (tableName : string) (key : DynamoKeyMap) (e : error) (c : C) :
  getTableName R entityClass = Return tableName ->
  buildKeyMap R entityClass pk sk = Return key ->
  send (GetCommand tableName key) (client w) = (Throw e, c) ->
  getItem send R entityClass pk sk w
  = (Throw e, afterRejection w (GetCommand tableName key) c
                "Error getting item from DynamoDB:" e).
Proof.
  intros Ht Hk Hsend. unfold getItem, bind at 1 2, lift. rewrite Ht, Hk.
  apply tryCatch_send_rejected. exact Hsend.
Qed.

Lemma getPKName_falsy_index (index : option string) :
  asTruthy index = None ->
  getPKName R entityClass index = getPKName R entityClass None.
Proof. intros H. unfold getPKName. rewrite H. reflexivity. Qed.

Lemma getSKName_falsy_index (index : option string) :
  asTruthy index = None ->
  getSKName R entityClass index = getSKName R entityClass None.
Proof. intros H. unfold getSKName. rewrite H. reflexivity. Qed.

(** Every operation either throws with the world as it was, nothing sent
    and nothing logged, or sends exactly one command, of its own kind:
    [create] a conditional put, [put] an unconditional put, [getItem] a
    read, [remove] a delete, [query] a query under the index name of its
    options. *)
Theorem one_command_per_operation (w : World C) :
  (forall item,
      (exists e, create send R entityClass item w = (Throw e, w))
      \/ (exists tableName found condition names,
             sent (create send R entityClass item w).2
             = (sent w ++ [PutCommand tableName found (Some condition)
                             (Some names)])%list))
  /\ (forall item,
      (exists e, put send R entityClass item w = (Throw e, w))
      \/ (exists tableName found,
             sent (put send R entityClass item w).2
             = (sent w ++ [PutCommand tableName found None None])%list))
  /\ (forall pk sk,
      (exists e, getItem send R entityClass pk sk w = (Throw e, w))
      \/ (exists tableName key,
             sent (getItem send R entityClass pk sk w).2
             = (sent w ++ [GetCommand tableName key])%list))
  /\ (forall pk sk,
      (exists e, remove send R entityClass pk sk w = (Throw e, w))
      \/ (exists tableName key,
             sent (remove send R entityClass pk sk w).2
             = (sent w ++ [DeleteCommand tableName key])%list))
  /\ (forall options,
      (exists e, query send R entityClass options w = (Throw e, w))
      \/ (exists input,
             qIndexName input = indexName options
             /\ sent (query send R entityClass options w).2
                = (sent w ++ [QueryCommand input])%list)).
Proof.
  split; [|split; [|split; [|split]]].
  - intros item.
    destruct (create_sends item w) as [H|(tn & pkName & found & _ & _ & _ & H)];
      [left; exact H|right].
    eexists _, _, _, _. exact H.
  - intros item.
    destruct (put_sends item w) as [H|(tn & found & _ & _ & H)];
      [left; exact H|right; eauto].
  - intros pk sk.
    destruct (getItem_sends pk sk w) as [H|(tn & key & _ & _ & H)];
      [left; exact H|right; eauto].
  - intros pk sk.
    destruct (remove_sends pk sk w) as [H|(tn & key & _ & _ & H)];
      [left; exact H|right; eauto].
  - intros options. apply query_sends.
Qed.

(** On a class without a usable table name (none declared, or the empty
    one), every operation given an item or a key throws the
    [DecoratorMissingError] of [getTableName] before anything else happens:
    no command is sent and nothing is logged. *)
Theorem operations_without_table_name (w : World C) :
  asTruthy (getDynamoTableName (Class entityClass) R) = None ->
  exists message,
    getTableName R entityClass = Throw (DecoratorMissingError message)
    /\ (forall item,
        create send R entityClass (Object_ item) w
        = (Throw (DecoratorMissingError message), w))
    /\ (forall item,
        put send R entityClass (Object_ item) w
        = (Throw (DecoratorMissingError message), w))
    /\ (forall pk sk,
        getItem send R entityClass pk sk w
        = (Throw (DecoratorMissingError message), w))
    /\ (forall pk sk,
        softDelete send R entityClass pk sk w
        = (Throw (DecoratorMissingError message), w))
    /\ (forall pk sk,
        remove send R entityClass pk sk w
        = (Throw (DecoratorMissingError message), w))
    /\ (forall options,
        query send R entityClass options w
        = (Throw (DecoratorMissingError message), w)).
Proof.
  intros Hnone.
  assert (Ht : exists message,
             getTableName R entityClass = Throw (DecoratorMissingError message)).
  { unfold getTableName. rewrite Hnone. eauto. }
  destruct Ht as [message Ht]. exists message.
  assert (Hget : forall pk sk,
             getItem send R entityClass pk sk w
             = (Throw (DecoratorMissingError message), w)).
  { intros pk sk. unfold getItem, bind at 1, lift. rewrite Ht. reflexivity. }
  split; [exact Ht|]. split; [|split; [|split; [|split; [|split]]]].
  - intros item. unfold create, bind at 1, lift. rewrite Ht. reflexivity.
  - intros item. unfold put, bind at 1, lift. rewrite Ht. reflexivity.
  - exact Hget.
  - intros pk sk. unfold softDelete, bind at 1. rewrite Hget. reflexivity.
  - intros pk sk. unfold remove, bind at 1, lift. rewrite Ht. reflexivity.
  - intros options. unfold query. cbv zeta. unfold bind at 1, lift.
    rewrite Ht. reflexivity.
Qed.

(** On a class with a table name and no usable partition key, [create],
    [getItem], [softDelete], [remove] and a [query] outside an index throw
    the [DecoratorMissingError] of [getPKName] with nothing sent and nothing
    logged.  [put] never asks for the partition key: it sends its item. *)
Theorem operations_without_partition_key (tableName : string) (w : World C) :
  getTableName R entityClass = Return tableName ->
  asTruthy (getPartitionKeyName (Class entityClass) R) = None ->
  exists message,
    getPKName R entityClass None = Throw (DecoratorMissingError message)
    /\ (forall item,
        create send R entityClass (Object_ item) w
        = (Throw (DecoratorMissingError message), w))
    /\ (forall pk sk,
        getItem send R entityClass pk sk w
        = (Throw (DecoratorMissingError message), w))
    /\ (forall pk sk,
        softDelete send R entityClass pk sk w
        = (Throw (DecoratorMissingError message), w))
    /\ (forall pk sk,
        remove send R entityClass pk sk w
        = (Throw (DecoratorMissingError message), w))
    /\ (forall options,
        asTruthy (indexName options) = None ->
        query send R entityClass options w
        = (Throw (DecoratorMissingError message), w))
    /\ (forall item,
        sent (put send R entityClass (Object_ item) w).2
        = (sent w ++ [PutCommand tableName item None None])%list).
Proof.
  intros Ht Hnone.
  destruct (getPKName_base_missing R entityClass Hnone) as [message Hp].
  exists message.
  assert (Hk : forall pk sk,
             buildKeyMap R entityClass pk sk
             = Throw (DecoratorMissingError message)).
  { intros pk sk. unfold buildKeyMap. rewrite Hp. reflexivity. }
  assert (Hget : forall pk sk,
             getItem send R entityClass pk sk w
             = (Throw (DecoratorMissingError message), w)).
  { intros pk sk. unfold getItem, bind at 1 2, lift. rewrite Ht, Hk.
    reflexivity. }
  split; [exact Hp|]. split; [|split; [|split; [|split; [|split]]]].
  - intros item. unfold create, bind at 1 2, lift. rewrite Ht, Hp. reflexivity.
  - exact Hget.
  - intros pk sk. unfold softDelete, bind at 1. rewrite Hget. reflexivity.
  - intros pk sk. unfold remove, bind at 1 2, lift. rewrite Ht, Hk. reflexivity.
  - intros options Hidx. unfold query. cbv zeta. unfold bind at 1 2, lift.
    rewrite Ht, (getPKName_falsy_index _ Hidx), Hp. reflexivity.
  - intros item. rewrite (put_run item tableName w Ht).
    destruct (send _ (client w)) as [[response|e] c]; reflexivity.
Qed.

(** When the client answers, [create] and [put] return the item they were
    given, whatever the response holds, and [remove] returns; the one
    command is on the log and nothing is written to the console. *)
Theorem writes_return_their_argument (tableName pkName : string)
    (response : Response) (w : World C) (c : C) :
  getTableName R entityClass = Return tableName ->
  getPKName R entityClass None = Return pkName ->
  (forall item,
      send (createCommand tableName pkName (getSortKeyName (Class entityClass) R)
              item) (client w) = (Return response, c) ->
      create send R entityClass (Object_ item) w
      = (Return item,
         afterSend w (createCommand tableName pkName
                        (getSortKeyName (Class entityClass) R) item) c))
  /\ (forall item,
      send (PutCommand tableName item None None) (client w) = (Return response, c) ->
      put send R entityClass (Object_ item) w
      = (Return item, afterSend w (PutCommand tableName item None None) c))
  /\ (forall pk sk key,
      buildKeyMap R entityClass pk sk = Return key ->
      send (DeleteCommand tableName key) (client w) = (Return response, c) ->
      remove send R entityClass pk sk w
      = (Return tt, afterSend w (DeleteCommand tableName key) c)).
Proof.
  intros Ht Hp. split; [|split].
  - intros item Hsend. unfold create, bind at 1 2 3, lift.
    rewrite Ht, Hp, getSKName_base. cbv zeta.
    change (PutCommand tableName item _ _)
      with (createCommand tableName pkName
              (getSortKeyName (Class entityClass) R) item).
    rewrite tryCatch_send_run, Hsend. reflexivity.
  - intros item Hsend. rewrite (put_run item tableName w Ht), Hsend.
    reflexivity.
  - intros pk sk key Hk Hsend. unfold remove, bind at 1 2, lift.
    rewrite Ht, Hk. cbv zeta. rewrite tryCatch_send_run, Hsend. reflexivity.
Qed.

(** [softDelete] never deletes.  Whatever the registry, the client and the
    key, it sends nothing, or its read alone, or its read and then one
    unconditional put of an item whose [deletedAt] is the instant of the
    clock; the put goes to the table that was read. *)
Theorem softDelete_never_deletes (pk : DynamoKey) (sk : option DynamoKey)
    (w : World C) :
  sent (softDelete send R entityClass pk sk w).2 = sent w
  \/ (exists tableName key,
        sent (softDelete send R entityClass pk sk w).2
        = (sent w ++ [GetCommand tableName key])%list)
  \/ (exists tableName key written,
        written !! "deletedAt" = Some (VString (toISOString (clock w)))
        /\ sent (softDelete send R entityClass pk sk w).2
           = (sent w ++ [GetCommand tableName key;
                         PutCommand tableName written None None])%list).
Proof.
  destruct (getTableName_cases R entityClass) as [[tableName Ht]|[m Ht]].
  - destruct (buildKeyMap R entityClass pk sk) as [key|e] eqn:Hk.
    + destruct (send (GetCommand tableName key) (client w)) as [[response|e] c]
        eqn:Hsend.
      * pose proof (getItem_answered send R entityClass pk sk w tableName key
                      response c Ht Hk Hsend) as Hget.
        destruct (rItem response) as [item|].
        -- right. right.
           exists tableName, key,
             (<[ "deletedAt" := VString (toISOString (clock w)) ]> item).
           split; [apply lookup_insert_eq|].
           unfold softDelete, bind at 1. rewrite Hget.
           unfold bind at 1, gets. unfold bind at 1. cbn [clock].
           rewrite (put_run _ tableName _ Ht).
           destruct (send (PutCommand _ _ _ _) _) as [[r|e] c']; cbn;
             rewrite <- app_assoc; reflexivity.
        -- right. left. exists tableName, key.
           unfold softDelete, bind at 1. rewrite Hget. reflexivity.
      * right. left. exists tableName, key. unfold softDelete, bind at 1.
        rewrite (getItem_rejected pk sk w tableName key e c Ht Hk Hsend).
        reflexivity.
    + left. unfold softDelete, bind at 1, getItem, bind at 1 2, lift.
      rewrite Ht, Hk. reflexivity.
  - left. unfold softDelete, bind at 1, getItem, bind at 1, lift.
    rewrite Ht. reflexivity.
Qed.

(** [softDelete] after its read returned an item: the put of that item
    with [deletedAt] set, on the client as the read left it. *)
Lemma softDelete_item_read (pk : DynamoKey) (sk : option DynamoKey)
    (w : World C) (tableName : string) (key : DynamoKeyMap)
    (response : Response) (c : C) (item : Item) :
  getTableName R entityClass = Return tableName ->
  buildKeyMap R entityClass pk sk = Return key ->
  send (GetCommand tableName key) (client w) = (Return response, c) ->
  rItem response = Some item ->
  softDelete send R entityClass pk sk w
  = match send (PutCommand tableName
                  (<[ "deletedAt" := VString (toISOString (clock w)) ]> item)
                  None None) c with
    | (Return _, c') =>
        (Return tt,
         afterSend (afterSend w (GetCommand tableName key) c)
           (PutCommand tableName
              (<[ "deletedAt" := VString (toISOString (clock w)) ]> item)
              None None) c')
    | (Throw e, c') =>
        (Throw e,
         afterRejection (afterSend w (GetCommand tableName key) c)
           (PutCommand tableName
              (<[ "deletedAt" := VString (toISOString (clock w)) ]> item)
              None None) c'
           "Error putting item to DynamoDB:" e)
    end.
Proof.
  intros Ht Hk Hsend Hitem. unfold softDelete, bind at 1.
  rewrite (getItem_answered send R entityClass pk sk w tableName key
             response c Ht Hk Hsend), Hitem.
  unfold bind at 1, gets. unfold bind at 1. cbn [clock].
  rewrite (put_run _ tableName _ Ht). cbn [client].
  destruct (send (PutCommand _ _ _ _) c) as [[r|e] c']; reflexivity.
Qed.

(** The four ways [softDelete] ends once the names resolve: the read is
    rejected, or answers without an item, and nothing is written; the put is
    rejected, and the rejection is logged under the message of [put] and
    thrown again; the put is answered, and [softDelete] returns. *)
Theorem softDelete_outcomes (pk : DynamoKey) (sk : option DynamoKey)
    (w : World C) (tableName : string) (key : DynamoKeyMap) :
  getTableName R entityClass = Return tableName ->
  buildKeyMap R entityClass pk sk = Return key ->
  let read := GetCommand tableName key in
  let notFound := ItemNotFoundError "Item not found in your DynamoDB Table!" in
  (forall e c,
      send read (client w) = (Throw e, c) ->
      softDelete send R entityClass pk sk w
      = (Throw e, afterRejection w read c "Error getting item from DynamoDB:" e))
  /\ (forall response c,
      send read (client w) = (Return response, c) ->
      rItem response = None ->
      softDelete send R entityClass pk sk w
      = (Throw notFound,
         afterRejection w read c "Error getting item from DynamoDB:" notFound))
  /\ (forall response c item,
      send read (client w) = (Return response, c) ->
      rItem response = Some item ->
      let write :=
        PutCommand tableName
          (<[ "deletedAt" := VString (toISOString (clock w)) ]> item)
          None None in
      (forall e c',
          send write c = (Throw e, c') ->
          softDelete send R entityClass pk sk w
          = (Throw e, afterRejection (afterSend w read c) write c'
                        "Error putting item to DynamoDB:" e))
      /\ (forall response' c',
          send write c = (Return response', c') ->
          softDelete send R entityClass pk sk w
          = (Return tt, afterSend (afterSend w read c) write c'))).
Proof.
  intros Ht Hk. cbv zeta. split; [|split].
  - intros e c Hsend. unfold softDelete, bind at 1.
    rewrite (getItem_rejected pk sk w tableName key e c Ht Hk Hsend).
    reflexivity.
  - intros response c Hsend Hitem. unfold softDelete, bind at 1.
    rewrite (getItem_answered send R entityClass pk sk w tableName key
               response c Ht Hk Hsend), Hitem.
    reflexivity.
  - intros response c item Hsend Hitem.
    pose proof (softDelete_item_read pk sk w tableName key response c item
                  Ht Hk Hsend Hitem) as Hrun.
    split.
    + intros e c' Hwrite. rewrite Hrun, Hwrite. reflexivity.
    + intros response' c' Hwrite. rewrite Hrun, Hwrite. reflexivity.
Qed.

End OperationFacts.

(** ** Key maps and index names *)

Section KeyFacts.

Context {C : Type}.
Variable send : Command -> C -> Result Response * C.
Variable R : Metadata.
Variable entityClass : NewableFunction.

(** With a sort value, on a class whose two key fields are declared and not
    empty.  When the sort field is not named [__proto__], the key map holds
    exactly the two field names: the sort value is under the sort field, and
    the partition value under the partition field unless both decorators
    name the same field, where the sort value, set last, replaces it.  A
    sort field named [__proto__] is assigned through the setter every object
    inherits, which drops the value: the key map has the partition field
    alone. *)
Theorem buildKeyMap_with_sort_value (pk skValue : DynamoKey)
    (pkName skName : string) :
  getPartitionKeyName (Class entityClass) R = Some pkName -> pkName <> "" ->
  getSortKeyName (Class entityClass) R = Some skName -> skName <> "" ->
  exists key,
    buildKeyMap R entityClass pk (Some skValue) = Return key
    /\ (skName <> "__proto__" ->
        dom key = ({[ pkName; skName ]} : gset string)
        /\ key !! skName = Some skValue
        /\ (pkName <> skName -> key !! pkName = Some pk))
    /\ (pkName = skName -> key = {[ pkName := skValue ]})
    /\ (skName = "__proto__" -> pkName <> skName -> key = {[ pkName := pk ]}).
Proof.
  intros Hp Hpne Hs Hsne.
  exists (assignProperty skName skValue {[ pkName := pk ]}).
  split; [|split; [|split]].
  - rewrite (buildKeyMap_run R entityClass pk (Some skValue) pkName)
      by (apply getPKName_base; auto).
    rewrite Hs, (asTruthy_nonempty _ Hsne). reflexivity.
  - intros Hproto. rewrite (assignProperty_insert _ _ _ Hproto).
    split; [|split].
    + rewrite dom_insert_L, dom_singleton_L. apply (comm_L (∪)).
    + apply lookup_insert_eq.
    + intros Hne. rewrite lookup_insert_ne by congruence.
      apply lookup_singleton_eq.
  - intros ->. unfold assignProperty. rewrite lookup_singleton_eq.
    apply insert_singleton_eq.
  - intros -> Hne. unfold assignProperty.
    rewrite lookup_singleton_ne by exact Hne. reflexivity.
Qed.

(** A key declared for an index with a field name that is not empty is the
    one [getPKName] and [getSKName] return for that index, whatever the
    base table declares, even nothing.  A key declared for the index with
    the empty field name counts as none: the key of the base table is
    used. *)
Theorem index_key_preferred (index : string) :
  allWhiteSpace index = false ->
  (forall name,
      indexEntry DYNAMO_INDEX_PARTITION_KEYS_KEY (Prototype entityClass) index R
      = Some name ->
      name <> "" ->
      getPKName R entityClass (Some index) = Return name)
  /\ (forall name,
      indexEntry DYNAMO_INDEX_SORT_KEYS_KEY (Prototype entityClass) index R
      = Some name ->
      name <> "" ->
      getSKName R entityClass (Some index) = Return (Some name))
  /\ (indexEntry DYNAMO_INDEX_PARTITION_KEYS_KEY (Prototype entityClass) index R
      = Some "" ->
      getPKName R entityClass (Some index) = getPKName R entityClass None)
  /\ (indexEntry DYNAMO_INDEX_SORT_KEYS_KEY (Prototype entityClass) index R
      = Some "" ->
      getSKName R entityClass (Some index) = getSKName R entityClass None).
Proof.
  intros Hw. split; [|split; [|split]].
  - intros name He Hne. rewrite (getPKName_index R entityClass _ Hw).
    rewrite (indexLookup_own _ _ _ _ _ He), (asTruthy_Field_nonempty _ Hne).
    reflexivity.
  - intros name He Hne. rewrite (getSKName_index R entityClass _ Hw).
    rewrite (indexLookup_own _ _ _ _ _ He).
    change (truthy (Some (Field name))) with (truthy (Some name)).
    rewrite (proj2 (truthy_Some name) Hne). reflexivity.
  - intros He. rewrite (getPKName_index R entityClass _ Hw).
    rewrite (indexLookup_own _ _ _ _ _ He). reflexivity.
  - intros He. rewrite (getSKName_index R entityClass _ Hw).
    rewrite (indexLookup_own _ _ _ _ _ He). reflexivity.
Qed.

(** Index names made of white space.  The exported resolvers reject every
    such name, the empty one included.  The repository tests the name for
    truthiness first: the empty name means no index, and the keys of the
    base table are used; a name that is not empty is handed to the
    resolvers, and [query] throws their plain [Error] before any command. *)
Theorem white_space_index_name (options : QueryOptions) (index tableName : string)
    (w : World C) :
  getTableName R entityClass = Return tableName ->
  indexName options = Some index ->
  allWhiteSpace index = true ->
  getIndexPartitionKeyName (Class entityClass) index R
  = Throw (Error "indexName cannot be empty")
  /\ getIndexSortKeyName (Class entityClass) index R
     = Throw (Error "indexName cannot be empty")
  /\ (index = "" ->
      getPKName R entityClass (Some index) = getPKName R entityClass None
      /\ getSKName R entityClass (Some index) = getSKName R entityClass None)
  /\ (index <> "" ->
      getPKName R entityClass (Some index)
      = Throw (Error "indexName cannot be empty")
      /\ getSKName R entityClass (Some index)
         = Throw (Error "indexName cannot be empty")
      /\ query send R entityClass options w
         = (Throw (Error "indexName cannot be empty"), w)).
Proof.
  intros Ht Hidx Hw.
  assert (Hpk : index <> "" ->
                getPKName R entityClass (Some index)
                = Throw (Error "indexName cannot be empty")).
  { intros Hne. unfold getPKName. rewrite (asTruthy_nonempty _ Hne).
    unfold getIndexPartitionKeyName.
    rewrite (getIndexKeyName_blank _ _ _ _ Hw). reflexivity. }
  split; [apply getIndexKeyName_blank; exact Hw|].
  split; [apply getIndexKeyName_blank; exact Hw|].
  split.
  - intros ->. split; reflexivity.
  - intros Hne. split; [exact (Hpk Hne)|]. split.
    + unfold getSKName. rewrite (asTruthy_nonempty _ Hne).
      unfold getIndexSortKeyName.
      rewrite (getIndexKeyName_blank _ _ _ _ Hw). reflexivity.
    + unfold query. cbv zeta. unfold bind at 1 2, lift.
      rewrite Ht, Hidx, (Hpk Hne). reflexivity.
Qed.

(** [query] without a sort value, once the names resolve: the one store
    call it makes. *)
Lemma query_partition_input (options : QueryOptions) (tableName pkName : string)
    (w : World C) :
  sk options = None ->
  getTableName R entityClass = Return tableName ->
  getPKName R entityClass (indexName options) = Return pkName ->
  query send R entityClass options w
  = tryCatch
      (response <- clientSend send
                     (QueryCommand (partitionQueryInput tableName pkName options)) ;;
       ret {| items := rItems response;
              lastEvaluatedKey := rLastEvaluatedKey response;
              count := match rCount response with
                       | Some n => if (n =? 0)%Z then 0%Z else n
                       | None => 0%Z
                       end |})
      (logAndRethrow "Error querying items from DynamoDB:") w.
Proof.
  intros Hsk Ht Hp. unfold query. cbv zeta. rewrite Hsk.
  unfold bind at 1 2 3, lift. rewrite Ht, Hp. reflexivity.
Qed.

(** The count of a query: that of the response, zero when it has none. *)
Lemma query_count (n : option Z) :
  match n with
  | Some n => if (n =? 0)%Z then 0%Z else n
  | None => 0%Z
  end = default 0%Z n.
Proof.
  destruct n as [n|]; simpl; [|reflexivity].
  destruct (Z.eqb_spec n 0); congruence.
Qed.

(** A rejected query is logged once under the message of [query] and thrown
    again unchanged, with and without a sort value; the query is on the log
    and nothing else was sent. *)
Theorem query_rejection_rethrown (options : QueryOptions)
    (tableName pkName : string) (e : error) (w : World C) (c : C) :
  getTableName R entityClass = Return tableName ->
  getPKName R entityClass (indexName options) = Return pkName ->
  (sk options = None ->
   send (QueryCommand (partitionQueryInput tableName pkName options)) (client w)
   = (Throw e, c) ->
   query send R entityClass options w
   = (Throw e,
      afterRejection w (QueryCommand (partitionQueryInput tableName pkName options))
        c "Error querying items from DynamoDB:" e))
  /\ (forall skValue (skName : string),
      sk options = Some skValue ->
      getSKName R entityClass (indexName options) = Return (Some skName) ->
      skName <> "" ->
      send (QueryCommand (sortQueryInput tableName pkName skName skValue options))
        (client w) = (Throw e, c) ->
      query send R entityClass options w
      = (Throw e,
         afterRejection w
           (QueryCommand (sortQueryInput tableName pkName skName skValue options))
           c "Error querying items from DynamoDB:" e)).
Proof.
  intros Ht Hp. split.
  - intros Hsk Hsend.
    rewrite (query_partition_input options tableName pkName w Hsk Ht Hp).
    apply tryCatch_send_rejected. exact Hsend.
  - intros skValue skName Hsk Hs Hne Hsend.
    rewrite (query_sort_input send R entityClass options tableName pkName skName
               skValue w Hsk Ht Hp Hs Hne).
    apply tryCatch_send_rejected. exact Hsend.
Qed.

(** A query with a sort value that the client answers returns the items and
    the continuation key of the response with its count, zero when the
    response has none; nothing is logged. *)
Theorem query_with_sort_value_answered (options : QueryOptions)
    (tableName pkName skName : string) (skValue : DynamoKey)
    (response : Response) (w : World C) (c : C) :
  sk options = Some skValue ->
  getTableName R entityClass = Return tableName ->
  getPKName R entityClass (indexName options) = Return pkName ->
  getSKName R entityClass (indexName options) = Return (Some skName) ->
  skName <> "" ->
  send (QueryCommand (sortQueryInput tableName pkName skName skValue options))
    (client w) = (Return response, c) ->
  query send R entityClass options w
  = (Return {| items := rItems response;
               lastEvaluatedKey := rLastEvaluatedKey response;
               count := default 0%Z (rCount response) |},
     afterSend w
       (QueryCommand (sortQueryInput tableName pkName skName skValue options)) c).
Proof.
  intros Hsk Ht Hp Hs Hne Hsend.
  rewrite (query_sort_input send R entityClass options tableName pkName skName
             skValue w Hsk Ht Hp Hs Hne).
  rewrite (tryCatch_send_answered send _ _ _ _ _ _ Hsend).
  rewrite query_count. reflexivity.
Qed.

End KeyFacts.

(** ** The registry, class by class *)

Lemma definesString_target (d : Declaration) (target : object) (key : string) :
  definesString d = Some (target, key) -> targetOf d = target.
Proof. destruct d; simpl; intros [=]; congruence. Qed.

Lemma definesIndex_target (d : Declaration) (target : object)
    (key index : string) :
  definesIndex d = Some (target, key, index) -> targetOf d = target.
Proof. destruct d; simpl; intros [=]; congruence. Qed.

(** Declarations on other objects leave the entries of [target] alone. *)
Lemma declare_string_frame (target : object) (key : string)
    (ds : list Declaration) (R : Metadata) :
  Forall (fun d => targetOf d <> target) ds ->
  getMetadataString key target (declare ds R) = getMetadataString key target R.
Proof.
  intros Hds.
  apply (declare_preserves
           (fun R' => getMetadataString key target R'
                      = getMetadataString key target R)
           (fun d => targetOf d <> target)); [|exact Hds|reflexivity].
  intros d R' Hd HR. rewrite applyDeclaration_string_frame; [exact HR|].
  intros Hdef. apply Hd. exact (definesString_target _ _ _ Hdef).
Qed.

Lemma applyDeclaration_record_frame (d : Declaration) (R : Metadata)
    (target : object) (key : string) :
  targetOf d <> target ->
  getMetadataRecord key target (applyDeclaration d R).2
  = getMetadataRecord key target R.
Proof.
  intros Hd.
  destruct (applyDeclaration_state d R)
    as [->|[(t & k & v & _ & _ & ->)|(t & k & i & v & Hdef & _ & _ & ->)]];
    try reflexivity.
  unfold getMetadataRecord. simpl. apply lookup_insert_ne.
  intros [= -> ->]. apply Hd. exact (definesIndex_target _ _ _ _ Hdef).
Qed.

Lemma declare_record_frame (target : object) (key : string)
    (ds : list Declaration) (R : Metadata) :
  Forall (fun d => targetOf d <> target) ds ->
  getMetadataRecord key target (declare ds R) = getMetadataRecord key target R.
Proof.
  intros Hds.
  apply (declare_preserves
           (fun R' => getMetadataRecord key target R'
                      = getMetadataRecord key target R)
           (fun d => targetOf d <> target)); [|exact Hds|reflexivity].
  intros d R' Hd HR. rewrite applyDeclaration_record_frame; assumption.
Qed.

(** An entry that is there stays, whatever is declared afterwards. *)
Lemma declare_string_kept (target : object) (key existing : string)
    (ds : list Declaration) (R : Metadata) :
  getMetadataString key target R = Some existing ->
  getMetadataString key target (declare ds R) = Some existing.
Proof.
  apply (declare_preserves
           (fun R' => getMetadataString key target R' = Some existing)
           (fun _ => True)).
  - intros d R' _. apply applyDeclaration_string_kept.
  - apply Forall_forall. auto.
Qed.

(** The index resolvers read the record of the prototype and nothing
    else. *)
Lemma getIndexKeyName_same_record (key : string) (target : DynamoEntityTarget)
    (index : string) (R R' : Metadata) :
  getMetadataRecord key (getPrototype target) R'
  = getMetadataRecord key (getPrototype target) R ->
  getIndexKeyName key target index R' = getIndexKeyName key target index R.
Proof. intros H. unfold getIndexKeyName. rewrite H. reflexivity. Qed.

(** The first declaration of a string entry. *)
Lemma stringDecorator_fresh (name : option string)
    (paramName key decoratorName conflict value : string) (target : object)
    (R : Metadata) :
  passesNameCheck name ->
  getMetadataString key target R = None ->
  (lift (validateIfTruthy name paramName) ;;;
   validateDuplicateDecorator target key decoratorName conflict ;;;
   defineMetadataString key value target) R
  = (Return tt, {| stringMeta := <[(target, key) := value]> (stringMeta R);
                   recordMeta := recordMeta R |}).
Proof.
  intros Hok Hnone. unfold bind at 1, lift.
  rewrite (validateIfTruthy_ok _ _ Hok). unfold bind.
  rewrite (validateDuplicateDecorator_fresh _ _ _ _ _ Hnone). reflexivity.
Qed.

Section Elsewhere.

Variable ds : list Declaration.
Variable R : Metadata.
Variable c : NewableFunction.
Hypothesis Hds : Forall (elsewhere c) ds.

Lemma elsewhere_constructor (key : string) :
  getMetadataString key (Constructor c) (declare ds R)
  = getMetadataString key (Constructor c) R.
Proof.
  apply declare_string_frame.
  eapply Forall_impl; [exact Hds|]. intros d [H _]. exact H.
Qed.

Lemma elsewhere_prototype (key : string) :
  getMetadataString key (Prototype c) (declare ds R)
  = getMetadataString key (Prototype c) R.
Proof.
  apply declare_string_frame.
  eapply Forall_impl; [exact Hds|]. intros d [_ H]. exact H.
Qed.

Lemma elsewhere_index (key index : string) (target : DynamoEntityTarget) :
  getConstructor target = c ->
  getIndexKeyName key target index (declare ds R)
  = getIndexKeyName key target index R.
Proof.
  intros Hc. apply getIndexKeyName_same_record.
  unfold getPrototype. rewrite Hc. apply declare_record_frame.
  eapply Forall_impl; [exact Hds|]. intros d [_ H]. exact H.
Qed.

Lemma elsewhere_getTableName :
  getTableName (declare ds R) c = getTableName R c.
Proof.
  unfold getTableName, getDynamoTableName. simpl.
  rewrite elsewhere_constructor. reflexivity.
Qed.

Lemma elsewhere_getPKName (index : option string) :
  getPKName (declare ds R) c index = getPKName R c index.
Proof.
  unfold getPKName, getIndexPartitionKeyName, getPartitionKeyName, getPrototype.
  simpl. rewrite elsewhere_prototype.
  destruct (asTruthy index) as [i|]; [|reflexivity].
  rewrite (elsewhere_index _ i (Class c) eq_refl). reflexivity.
Qed.

Lemma elsewhere_getSKName (index : option string) :
  getSKName (declare ds R) c index = getSKName R c index.
Proof.
  unfold getSKName, getIndexSortKeyName, getSortKeyName, getPrototype.
  simpl. rewrite elsewhere_prototype.
  destruct (asTruthy index) as [i|]; [|reflexivity].
  rewrite (elsewhere_index _ i (Class c) eq_refl). reflexivity.
Qed.

Lemma elsewhere_buildKeyMap (pk : DynamoKey) (sk : option DynamoKey) :
  buildKeyMap (declare ds R) c pk sk = buildKeyMap R c pk sk.
Proof.
  unfold buildKeyMap. rewrite elsewhere_getPKName, elsewhere_getSKName.
  reflexivity.
Qed.

(** Classes are declared independently.  Declarations applied to other
    classes and their prototypes change nothing of what is resolved for the
    class [c] or an instance of it: neither the five exported resolvers nor
    the names and key maps the repository of [c] works with. *)
Theorem declarations_elsewhere_change_nothing (target : DynamoEntityTarget) :
  getConstructor target = c ->
  getDynamoTableName target (declare ds R) = getDynamoTableName target R
  /\ getPartitionKeyName target (declare ds R) = getPartitionKeyName target R
  /\ getSortKeyName target (declare ds R) = getSortKeyName target R
  /\ (forall index,
      getIndexPartitionKeyName target index (declare ds R)
      = getIndexPartitionKeyName target index R)
  /\ (forall index,
      getIndexSortKeyName target index (declare ds R)
      = getIndexSortKeyName target index R)
  /\ getTableName (declare ds R) c = getTableName R c
  /\ (forall index, getPKName (declare ds R) c index = getPKName R c index)
  /\ (forall index, getSKName (declare ds R) c index = getSKName R c index)
  /\ (forall pk sk, buildKeyMap (declare ds R) c pk sk = buildKeyMap R c pk sk).
Proof.
  intros Hc.
  split; [|split; [|split; [|split; [|split; [|split; [|split; [|split]]]]]]].
  - unfold getDynamoTableName. rewrite Hc. apply elsewhere_constructor.
  - unfold getPartitionKeyName, getPrototype. rewrite Hc.
    apply elsewhere_prototype.
  - unfold getSortKeyName, getPrototype. rewrite Hc. apply elsewhere_prototype.
  - intros index. apply elsewhere_index. exact Hc.
  - intros index. apply elsewhere_index. exact Hc.
  - apply elsewhere_getTableName.
  - apply elsewhere_getPKName.
  - apply elsewhere_getSKName.
  - apply elsewhere_buildKeyMap.
Qed.

End Elsewhere.

(** The checks of the names come first.  A table or field name that is
    white space only, and not empty, is rejected by every decorator before
    the registry is read: whatever was declared before, the plain [Error] of
    the check is thrown and the registry is as it was.  The index decorators
    check the index name before the field name, and without testing it for
    truthiness: an index name that is empty or white space only is
    rejected whatever the field name. *)
Theorem blank_names_rejected (R : Metadata) (c : NewableFunction)
    (target : object) (propertyKey : PropertyKey) :
  (forall name,
      blankName name ->
      DynamoTable name c R
      = (Throw (Error "Invalid tableName: cannot be an empty string."), R)
      /\ PartitionKey name target propertyKey R
         = (Throw (Error "Invalid fieldName: cannot be an empty string."), R)
      /\ SortKey name target propertyKey R
         = (Throw (Error "Invalid fieldName: cannot be an empty string."), R)
      /\ (forall index,
          allWhiteSpace index = false ->
          IndexPartitionKey index name target propertyKey R
          = (Throw (Error "Invalid fieldName: cannot be an empty string."), R)
          /\ IndexSortKey index name target propertyKey R
             = (Throw (Error "Invalid fieldName: cannot be an empty string."), R)))
  /\ (forall index fieldName,
      allWhiteSpace index = true ->
      IndexPartitionKey index fieldName target propertyKey R
      = (Throw (Error "Invalid indexName: cannot be an empty string."), R)
      /\ IndexSortKey index fieldName target propertyKey R
         = (Throw (Error "Invalid indexName: cannot be an empty string."), R)).
Proof.
  split.
  - intros name Hblank.
    pose proof (validateIfTruthy_blankName name "tableName" Hblank) as Htable.
    pose proof (validateIfTruthy_blankName name "fieldName" Hblank) as Hfield.
    split; [|split; [|split]].
    + unfold DynamoTable, bind at 1, lift. rewrite Htable. reflexivity.
    + unfold PartitionKey, bind at 1, lift. rewrite Hfield. reflexivity.
    + unfold SortKey, bind at 1, lift. rewrite Hfield. reflexivity.
    + intros index Hw.
      split; unfold IndexPartitionKey, IndexSortKey, indexKeyDecorator;
        unfold bind at 1, lift; rewrite (validateNonEmptyString_ok _ _ Hw);
        unfold bind at 1, lift; rewrite Hfield; reflexivity.
  - intros index fieldName Hw.
    split; unfold IndexPartitionKey, IndexSortKey, indexKeyDecorator;
      unfold bind at 1, lift; rewrite (validateNonEmptyString_blank _ _ Hw);
      reflexivity.
Qed.

(** What the [DuplicateDecoratorError] of a second declaration says.  The
    class it names is read off the constructor of the target: for a property
    decorator that is the class; for [DynamoTable], whose target is the
    class itself, it is [Function], whatever the class.  As the conflicting
    property [PartitionKey] and [DynamoTable] report the name they were about
    to register, [SortKey] the name of the property. *)
Theorem duplicate_error_message (R : Metadata) (c : NewableFunction)
    (name : option string) (propertyKey : PropertyKey) (existing : string) :
  passesNameCheck name ->
  (getDynamoTableName (Class c) R = Some existing ->
   DynamoTable name c R
   = (Throw (DuplicateDecoratorError
               ("Multiple @DynamoTable decorators found in class "
                +:+ dq +:+ "Function" +:+ dq
                +:+ ". Existing decorator: " +:+ dq +:+ existing +:+ dq
                +:+ ", conflicting property: "
                +:+ dq +:+ orElse name (fn_name c) +:+ dq)), R))
  /\ (getPartitionKeyName (Class c) R = Some existing ->
      fn_name c <> "" ->
      PartitionKey name (Prototype c) propertyKey R
      = (Throw (DuplicateDecoratorError
                  ("Multiple @PartitionKey decorators found in class "
                   +:+ dq +:+ fn_name c +:+ dq
                   +:+ ". Existing decorator: " +:+ dq +:+ existing +:+ dq
                   +:+ ", conflicting property: "
                   +:+ dq +:+ orElse name (String_ propertyKey) +:+ dq)), R))
  /\ (getSortKeyName (Class c) R = Some existing ->
      fn_name c <> "" ->
      SortKey name (Prototype c) propertyKey R
      = (Throw (DuplicateDecoratorError
                  ("Multiple @SortKey decorators found in class "
                   +:+ dq +:+ fn_name c +:+ dq
                   +:+ ". Existing decorator: " +:+ dq +:+ existing +:+ dq
                   +:+ ", conflicting property: "
                   +:+ dq +:+ String_ propertyKey +:+ dq)), R)).
Proof.
  intros Hok.
  assert (Hname : forall n, n <> "" -> (if n =? "" then "Unknown" else n) = n).
  { intros n Hn. destruct (String.eqb_spec n ""); congruence. }
  split; [|split].
  - intros H. unfold DynamoTable, bind at 1, lift.
    rewrite (validateIfTruthy_ok _ _ Hok). cbv zeta.
    unfold bind at 1, validateDuplicateDecorator, bind at 1, gets.
    unfold getDynamoTableName in H. simpl in H. rewrite H. reflexivity.
  - intros H Hne. unfold PartitionKey, bind at 1, lift.
    rewrite (validateIfTruthy_ok _ _ Hok). cbv zeta.
    unfold bind at 1, validateDuplicateDecorator, bind at 1, gets.
    unfold getPartitionKeyName, getPrototype in H. simpl in H. rewrite H.
    unfold constructorName. rewrite (Hname _ Hne). reflexivity.
  - intros H Hne. unfold SortKey, bind at 1, lift.
    rewrite (validateIfTruthy_ok _ _ Hok). cbv zeta.
    unfold bind at 1, validateDuplicateDecorator, bind at 1, gets.
    unfold getSortKeyName, getPrototype in H. simpl in H. rewrite H.
    unfold constructorName. rewrite (Hname _ Hne). reflexivity.
Qed.

(** An empty name, once registered, stays.  [DynamoTable("")] and
    [PartitionKey("")] on a class that has none yet register the empty
    string; from then on, whatever is declared afterwards, the entry is the
    empty string and the repository of the class throws a
    [DecoratorMissingError] where it needs the name. *)
Theorem empty_name_is_permanent (R : Metadata) (c : NewableFunction)
    (propertyKey : PropertyKey) (ds : list Declaration) :
  (getDynamoTableName (Class c) R = None ->
   let R' := declare ds (DynamoTable (Some "") c R).2 in
   getDynamoTableName (Class c) R' = Some ""
   /\ exists message, getTableName R' c = Throw (DecoratorMissingError message))
  /\ (getPartitionKeyName (Class c) R = None ->
      let R' := declare ds (PartitionKey (Some "") (Prototype c) propertyKey R).2 in
      getPartitionKeyName (Class c) R' = Some ""
      /\ exists message,
           getPKName R' c None = Throw (DecoratorMissingError message)).
Proof.
  assert (Hok : passesNameCheck (Some "")) by (intros v [= <-]; auto).
  split.
  - intros Hnone. cbv zeta.
    assert (H : getDynamoTableName (Class c)
                  (declare ds (DynamoTable (Some "") c R).2) = Some "").
    { apply declare_string_kept. unfold DynamoTable. cbv zeta.
      rewrite (stringDecorator_fresh _ _ _ _ _ _ _ _ Hok Hnone).
      unfold getMetadataString. simpl. apply lookup_insert_eq. }
    split; [exact H|]. unfold getTableName. rewrite H. simpl. eauto.
  - intros Hnone. cbv zeta.
    assert (H : getPartitionKeyName (Class c)
                  (declare ds (PartitionKey (Some "") (Prototype c)
                                 propertyKey R).2) = Some "").
    { apply declare_string_kept. unfold PartitionKey. cbv zeta.
      rewrite (stringDecorator_fresh _ _ _ _ _ _ _ _ Hok Hnone).
      unfold getMetadataString. simpl. apply lookup_insert_eq. }
    split; [exact H|]. apply getPKName_base_missing. rewrite H. reflexivity.
Qed.

(** *** The empty field name, downstream *)

Section EmptyFieldName.

Context {C : Type}.
Variable send : Command -> C -> Result Response * C.

(** C2, the code at the failing input.  [SortKey("")] on a class with no
    sort key yet: the empty name is falsy, so the decorator skips the check
    of the name and registers it, and no later declaration replaces it.  The
    class has a declared sort key; [create] tests the resolved name for
    truthiness and sends the condition of a class without one: [#pk] absent
    only, and no [#sk] among the names. *)
Theorem create_empty_sort_key (R : Metadata) (c : NewableFunction)
    (propertyKey : PropertyKey) (ds : list Declaration)
    (tableName pkName : string) (item : Item) (w : World C) :
  getSortKeyName (Class c) R = None ->
  let R' := declare ds (SortKey (Some "") (Prototype c) propertyKey R).2 in
  getTableName R' c = Return tableName ->
  getPKName R' c None = Return pkName ->
  (SortKey (Some "") (Prototype c) propertyKey R).1 = Return tt
  /\ getSortKeyName (Class c) R' = Some ""
  /\ sent (create send R' c (Object_ item) w).2
     = (sent w ++ [PutCommand tableName item (Some "attribute_not_exists(#pk)")
                     (Some {[ "#pk" := Field pkName ]})])%list.
Proof.
  intros Hnone. cbv zeta. intros Ht Hp.
  assert (Hok : passesNameCheck (Some "")) by (intros v [= <-]; auto).
  assert (Hrun : SortKey (Some "") (Prototype c) propertyKey R
                 = (Return tt,
                    {| stringMeta :=
                         <[(Prototype c, DYNAMO_SORT_KEY_KEY) := ""]> (stringMeta R);
                       recordMeta := recordMeta R |})).
  { unfold SortKey. cbv zeta.
    apply (stringDecorator_fresh _ _ _ _ _ _ (Prototype c) _ Hok Hnone). }
  assert (Hs : getSortKeyName (Class c)
                 (declare ds (SortKey (Some "") (Prototype c) propertyKey R).2)
               = Some "").
  { apply declare_string_kept. rewrite Hrun.
    unfold getMetadataString. simpl. apply lookup_insert_eq. }
  split; [rewrite Hrun; reflexivity|]. split; [exact Hs|].
  rewrite (create_sent send _ c tableName pkName item w Ht Hp), Hs.
  reflexivity.
Qed.

(** C5, the code at the failing input.  [PartitionKey("")] on a class with
    no partition key yet registers the empty name, for good.  The class has
    a partition key and, say, no sort key; [getPKName] tests the resolved
    name for truthiness, so [buildKeyMap] produces no key map at all, with
    or without a sort value: it throws a [DecoratorMissingError]. *)
Theorem buildKeyMap_empty_partition_key (R : Metadata) (c : NewableFunction)
    (propertyKey : PropertyKey) (ds : list Declaration) :
  getPartitionKeyName (Class c) R = None ->
  let R' := declare ds (PartitionKey (Some "") (Prototype c) propertyKey R).2 in
  (PartitionKey (Some "") (Prototype c) propertyKey R).1 = Return tt
  /\ getPartitionKeyName (Class c) R' = Some ""
  /\ exists message,
       forall pk sk,
         buildKeyMap R' c pk sk = Throw (DecoratorMissingError message).
Proof.
  intros Hnone. cbv zeta.
  assert (Hok : passesNameCheck (Some "")) by (intros v [= <-]; auto).
  assert (Hrun : PartitionKey (Some "") (Prototype c) propertyKey R
                 = (Return tt,
                    {| stringMeta :=
                         <[(Prototype c, DYNAMO_PARTITION_KEY_KEY) := ""]>
                           (stringMeta R);
                       recordMeta := recordMeta R |})).
  { unfold PartitionKey. cbv zeta.
    apply (stringDecorator_fresh _ _ _ _ _ _ (Prototype c) _ Hok Hnone). }
  assert (Hp : getPartitionKeyName (Class c)
                 (declare ds (PartitionKey (Some "") (Prototype c) propertyKey R).2)
               = Some "").
  { apply declare_string_kept. rewrite Hrun.
    unfold getMetadataString. simpl. apply lookup_insert_eq. }
  split; [rewrite Hrun; reflexivity|]. split; [exact Hp|].
  eexists. intros pk sk. unfold buildKeyMap.
  rewrite getPKName_base_run, Hp. reflexivity.
Qed.

End EmptyFieldName.

(** From the decorators to the repository.  On a class with nothing declared
    yet, the three declarations of a class body with names that pass the
    check register the explicit names, or the names of the properties and of
    the class; when none of the three is empty, the repository resolves them
    and, unless the sort field is named [__proto__], builds its key map
    under the two field names. *)
Theorem declared_class_resolves (R : Metadata) (c : NewableFunction)
    (pkField skField tableName : option string)
    (pkProperty skProperty : PropertyKey) :
  getDynamoTableName (Class c) R = None ->
  getPartitionKeyName (Class c) R = None ->
  getSortKeyName (Class c) R = None ->
  passesNameCheck pkField -> passesNameCheck skField ->
  passesNameCheck tableName ->
  let R' := declare (classDeclarations c pkField pkProperty skField skProperty
                       tableName) R in
  let table := orElse tableName (fn_name c) in
  let pkName := orElse pkField (String_ pkProperty) in
  let skName := orElse skField (String_ skProperty) in
  getDynamoTableName (Class c) R' = Some table
  /\ getPartitionKeyName (Class c) R' = Some pkName
  /\ getSortKeyName (Class c) R' = Some skName
  /\ (table <> "" -> getTableName R' c = Return table)
  /\ (pkName <> "" -> getPKName R' c None = Return pkName)
  /\ (pkName <> "" -> skName <> "" -> skName <> "__proto__" ->
      forall pk sk,
        buildKeyMap R' c pk (Some sk)
        = Return (<[ skName := sk ]> {[ pkName := pk ]})).
Proof.
  intros Ht Hp Hs Hokp Hoks Hokt. cbv zeta.
  assert (HR : declare (classDeclarations c pkField pkProperty skField skProperty
                          tableName) R
               = {| stringMeta :=
                      <[(Constructor c, DYNAMO_TABLE_NAME_KEY) :=
                          orElse tableName (fn_name c)]>
                        (<[(Prototype c, DYNAMO_SORT_KEY_KEY) :=
                             orElse skField (String_ skProperty)]>
                           (<[(Prototype c, DYNAMO_PARTITION_KEY_KEY) :=
                                orElse pkField (String_ pkProperty)]>
                              (stringMeta R)));
                    recordMeta := recordMeta R |}).
  { unfold classDeclarations, declare. simpl fold_left.
    unfold PartitionKey at 1. cbv zeta.
    rewrite (stringDecorator_fresh _ _ _ _ _ _ (Prototype c) _ Hokp Hp).
    simpl snd.
    unfold SortKey at 1. cbv zeta.
    rewrite stringDecorator_fresh; [|exact Hoks|].
    2:{ unfold getMetadataString. simpl.
        rewrite lookup_insert_ne by discriminate. exact Hs. }
    simpl snd.
    unfold DynamoTable at 1. cbv zeta.
    rewrite stringDecorator_fresh; [reflexivity|exact Hokt|].
    unfold getMetadataString. simpl.
    rewrite !lookup_insert_ne by discriminate. exact Ht. }
  rewrite HR. clear HR.
  set (R3 := {| stringMeta := _; recordMeta := _ |}).
  assert (Htable : getDynamoTableName (Class c) R3
                   = Some (orElse tableName (fn_name c))).
  { unfold R3, getDynamoTableName, getMetadataString. simpl.
    apply lookup_insert_eq. }
  assert (Hpk : getPartitionKeyName (Class c) R3
                = Some (orElse pkField (String_ pkProperty))).
  { unfold R3, getPartitionKeyName, getMetadataString. simpl.
    rewrite !lookup_insert_ne by discriminate. apply lookup_insert_eq. }
  assert (Hsk : getSortKeyName (Class c) R3
                = Some (orElse skField (String_ skProperty))).
  { unfold R3, getSortKeyName, getMetadataString. simpl.
    rewrite lookup_insert_ne by discriminate. apply lookup_insert_eq. }
  split; [exact Htable|]. split; [exact Hpk|]. split; [exact Hsk|].
  split; [|split].
  - intros Hne. apply getTableName_Return. auto.
  - intros Hne. apply getPKName_base. auto.
  - intros Hpne Hsne Hproto pk sk.
    rewrite (buildKeyMap_run R3 c pk (Some sk) _
               (proj2 (getPKName_base R3 c _) (conj Hpk Hpne))).
    rewrite Hsk, (asTruthy_nonempty _ Hsne).
    rewrite (assignProperty_insert _ _ _ Hproto). reflexivity.
Qed.

(** ** The example repository *)

Section UsersRepositoryFacts.

Context {C : Type}.
Variable send : Command -> C -> Result Response * C.

(** Whatever other classes are declared after [UserEntity]. *)
Variable ds : list Declaration.
Hypothesis Hds : Forall (elsewhere UserEntity) ds.

Lemma user_table :
  getTableName (declare ds userEntityMetadata) UserEntity = Return "User".
Proof. rewrite (elsewhere_getTableName _ _ _ Hds). vm_compute. reflexivity. Qed.

Lemma user_partition_key (index : option string) :
  index = None \/ index = Some "EmailIndex" ->
  getPKName (declare ds userEntityMetadata) UserEntity index = Return "orgId".
Proof.
  rewrite (elsewhere_getPKName _ _ _ Hds).
  intros [->| ->]; vm_compute; reflexivity.
Qed.

Lemma user_index_sort_key :
  getSKName (declare ds userEntityMetadata) UserEntity (Some "EmailIndex")
  = Return (Some "email").
Proof. rewrite (elsewhere_getSKName _ _ _ Hds). vm_compute. reflexivity. Qed.

Lemma user_key (id : string) :
  buildKeyMap (declare ds userEntityMetadata) UserEntity (KString "USER")
    (Some (KString id))
  = Return (userKey id).
Proof.
  assert (Hp : getPKName userEntityMetadata UserEntity None = Return "orgId")
    by (vm_compute; reflexivity).
  assert (Hs : getSKName userEntityMetadata UserEntity None = Return (Some "id"))
    by (vm_compute; reflexivity).
  rewrite (elsewhere_buildKeyMap _ _ _ Hds). unfold buildKeyMap.
  rewrite Hp. cbn [bindR]. rewrite Hs. reflexivity.
Qed.

(** [findByEmail] asks the index [EmailIndex] for the partition [USER] and
    the given email, under the fields [orgId] and [email].  When the client
    answers: a response without a count or with the count zero throws the
    plain [Error] of the method, which is not logged; otherwise the first
    item of the response is returned, which is [undefined] when the response
    has a count and no item; a response with a count and no list of items
    makes the method fail with a [TypeError].  The continuation key of the
    response is dropped. *)
Theorem findByEmail_outcomes (email : string) (response : Response)
    (w : World C) (c : C) :
  send (QueryCommand (findByEmailInput email)) (client w) = (Return response, c) ->
  let R := declare ds userEntityMetadata in
  let w' := afterSend w (QueryCommand (findByEmailInput email)) c in
  (default 0%Z (rCount response) = 0%Z ->
   UsersRepository.findByEmail send R email w
   = (Throw (Error "User with this email not found!"), w'))
  /\ (forall first rest,
      default 0%Z (rCount response) <> 0%Z ->
      rItems response = Some (first :: rest) ->
      UsersRepository.findByEmail send R email w = (Return (Some first), w'))
  /\ (default 0%Z (rCount response) <> 0%Z ->
      rItems response = Some [] ->
      UsersRepository.findByEmail send R email w = (Return None, w'))
  /\ (default 0%Z (rCount response) <> 0%Z ->
      rItems response = None ->
      exists message,
        UsersRepository.findByEmail send R email w
        = (Throw (ServiceError "TypeError" message), w')).
Proof.
  intros Hsend. cbv zeta.
  assert (Hquery : query send (declare ds userEntityMetadata) UserEntity
                     (findByEmailOptions email) w
                   = (Return {| items := rItems response;
                                lastEvaluatedKey := rLastEvaluatedKey response;
                                count := default 0%Z (rCount response) |},
                      afterSend w (QueryCommand (findByEmailInput email)) c)).
  { rewrite (query_sort_input send _ UserEntity (findByEmailOptions email)
               "User" "orgId" "email" (KString email) w eq_refl user_table
               (user_partition_key _ (or_intror eq_refl)) user_index_sort_key);
      [|discriminate].
    rewrite (tryCatch_send_answered send _ _ _ _ _ _ Hsend), query_count.
    reflexivity. }
  split; [|split; [|split]].
  - intros Hcount. unfold UsersRepository.findByEmail, bind at 1.
    rewrite Hquery. cbn [count]. rewrite Hcount. reflexivity.
  - intros first rest Hcount Hitems.
    unfold UsersRepository.findByEmail, bind at 1.
    rewrite Hquery. cbn [count items]. rewrite Hitems.
    destruct (Z.eqb_spec (default 0%Z (rCount response)) 0); [congruence|].
    reflexivity.
  - intros Hcount Hitems. unfold UsersRepository.findByEmail, bind at 1.
    rewrite Hquery. cbn [count items]. rewrite Hitems.
    destruct (Z.eqb_spec (default 0%Z (rCount response)) 0); [congruence|].
    reflexivity.
  - intros Hcount Hitems. eexists.
    unfold UsersRepository.findByEmail, bind at 1.
    rewrite Hquery. cbn [count items]. rewrite Hitems.
    destruct (Z.eqb_spec (default 0%Z (rCount response)) 0); [congruence|].
    reflexivity.
Qed.

(** The other methods of [UsersRepository].  [findAll] queries the
    partition [USER] of the table [User] under the field [orgId] and returns
    the items of the response alone, without its continuation key.
    [getById] reads the key made of [orgId] and [id].  [delete] is a soft
    delete: after the same read it puts the item back with [deletedAt] set,
    and when the user is not there it throws the [ItemNotFoundError] of the
    read and writes nothing. *)
Theorem usersRepository_methods (id : string) (w : World C) :
  let R := declare ds userEntityMetadata in
  let all := QueryCommand (partitionQueryInput "User" "orgId"
                             UsersRepository.findAllOptions) in
  let read := GetCommand "User" (userKey id) in
  let notFound := ItemNotFoundError "Item not found in your DynamoDB Table!" in
  (forall response c,
      send all (client w) = (Return response, c) ->
      UsersRepository.findAll send R w
      = (Return (rItems response), afterSend w all c))
  /\ (forall response c item,
      send read (client w) = (Return response, c) ->
      rItem response = Some item ->
      UsersRepository.getById send R id w = (Return item, afterSend w read c)
      /\ sent (UsersRepository.delete send R id w).2
         = (sent w
            ++ [read;
                PutCommand "User"
                  (<[ "deletedAt" := VString (toISOString (clock w)) ]> item)
                  None None])%list)
  /\ (forall response c,
      send read (client w) = (Return response, c) ->
      rItem response = None ->
      UsersRepository.getById send R id w
      = (Throw notFound,
         afterRejection w read c "Error getting item from DynamoDB:" notFound)
      /\ UsersRepository.delete send R id w
         = (Throw notFound,
            afterRejection w read c "Error getting item from DynamoDB:" notFound)).
Proof.
  cbv zeta. split; [|split].
  - intros response c Hsend. unfold UsersRepository.findAll, bind at 1.
    rewrite (query_partition_input send _ UserEntity
               UsersRepository.findAllOptions "User" "orgId" w eq_refl
               user_table (user_partition_key _ (or_introl eq_refl))).
    rewrite (tryCatch_send_answered send _ _ _ _ _ _ Hsend). reflexivity.
  - intros response c item Hsend Hitem. split.
    + unfold UsersRepository.getById.
      rewrite (getItem_answered send _ UserEntity _ _ w "User" (userKey id)
                 response c user_table (user_key id) Hsend), Hitem.
      reflexivity.
    + unfold UsersRepository.delete.
      rewrite (softDelete_item_read send _ UserEntity _ _ w "User" (userKey id)
                 response c item user_table (user_key id) Hsend Hitem).
      destruct (send (PutCommand _ _ _ _) c) as [[r|e] c']; cbn;
        rewrite <- app_assoc; reflexivity.
  - intros response c Hsend Hitem.
    pose proof (getItem_answered send _ UserEntity _ _ w "User" (userKey id)
                  response c user_table (user_key id) Hsend) as Hget.
    rewrite Hitem in Hget. split.
    + exact Hget.
    + unfold UsersRepository.delete, softDelete, bind at 1.
      rewrite Hget. reflexivity.
Qed.

End UsersRepositoryFacts.

(** ** The properties above on the classes of the test suite *)

(** [remove] on the declared class of the test suite sends its one
    delete. *)
Lemma one_command_per_operation_witness :
  exists tableName key,
    sent (remove scripted testEntityMetadata TestEntity (KString "test-id")
            (Some (KString "2024-01-01")) (newWorld [] 0)).2
    = ([] ++ [DeleteCommand tableName key])%list.
Proof.
  destruct (one_command_per_operation scripted testEntityMetadata TestEntity
              (newWorld [] 0)) as (_ & _ & _ & Hremove & _).
  destruct (Hremove (KString "test-id") (Some (KString "2024-01-01")))
    as [[e He]|H].
  - vm_compute in He. discriminate He.
  - exact H.
Defined.

(** The class of the test suite before any decorator ran. *)
Lemma operations_without_table_name_witness :
  exists message,
    getItem scripted noMetadata TestEntity (KString "test-id") None
      (newWorld [] 0)
    = (Throw (DecoratorMissingError message), newWorld [] 0)
    /\ put scripted noMetadata TestEntity (Object_ testItem) (newWorld [] 0)
       = (Throw (DecoratorMissingError message), newWorld [] 0).
Proof.
  destruct (operations_without_table_name scripted noMetadata TestEntity
              (newWorld [] 0)) as (message & _ & _ & Hput & Hget & _).
  - reflexivity.
  - exists message. split; [apply Hget|apply Hput].
Defined.

(** A class with [@DynamoTable("TestTable")] and no key. *)
Lemma operations_without_partition_key_witness :
  exists message,
    remove scripted (declare [DeclDynamoTable (Some "TestTable") TestEntity] noMetadata)
      TestEntity (KString "test-id") None (newWorld [] 0)
    = (Throw (DecoratorMissingError message), newWorld [] 0)
    /\ sent (put scripted
               (declare [DeclDynamoTable (Some "TestTable") TestEntity] noMetadata)
               TestEntity (Object_ testItem) (newWorld [] 0)).2
       = ([] ++ [PutCommand "TestTable" testItem None None])%list.
Proof.
  destruct (operations_without_partition_key scripted
              (declare [DeclDynamoTable (Some "TestTable") TestEntity] noMetadata)
              TestEntity "TestTable" (newWorld [] 0))
    as (message & _ & _ & _ & _ & Hremove & _ & Hput).
  - vm_compute. reflexivity.
  - vm_compute. reflexivity.
  - exists message. split; [apply Hremove|apply Hput].
Defined.

(** [create] on the class of the test suite, answered with another item. *)
Lemma writes_return_their_argument_witness :
  create scripted testEntityMetadata TestEntity (Object_ testItem)
    (newWorld [Return (itemResponse {[ "id" := VString "other" ]})] 0)
  = (Return testItem,
     afterSend (newWorld [Return (itemResponse {[ "id" := VString "other" ]})] 0)
       (createCommand "TestTable" "pk"
          (getSortKeyName (Class TestEntity) testEntityMetadata) testItem) []).
Proof.
  destruct (writes_return_their_argument scripted testEntityMetadata TestEntity
              "TestTable" "pk" (itemResponse {[ "id" := VString "other" ]})
              (newWorld [Return (itemResponse {[ "id" := VString "other" ]})] 0)
              []) as (Hcreate & _).
  - vm_compute. reflexivity.
  - vm_compute. reflexivity.
  - apply Hcreate. reflexivity.
Defined.

(** [softDelete] on the class of the test suite, the read answered with
    the item. *)
Lemma softDelete_never_deletes_witness :
  exists tableName key written,
    written !! "deletedAt" = Some (VString (toISOString 0))
    /\ sent (softDelete scripted testEntityMetadata TestEntity
               (KString "test-id") (Some (KString "2024-01-01"))
               (newWorld [Return (itemResponse testItem)] 0)).2
       = ([] ++ [GetCommand tableName key;
                 PutCommand tableName written None None])%list.
Proof.
  destruct (softDelete_never_deletes scripted testEntityMetadata TestEntity
              (KString "test-id") (Some (KString "2024-01-01"))
              (newWorld [Return (itemResponse testItem)] 0))
    as [H|[(tableName & key & H)|H]].
  - vm_compute in H. discriminate H.
  - vm_compute in H. discriminate H.
  - exact H.
Defined.

(** The read answers with the item and the put is rejected. *)
Lemma softDelete_outcomes_witness :
  softDelete scripted testEntityMetadata TestEntity (KString "test-id")
    (Some (KString "2024-01-01"))
    (newWorld [Return (itemResponse testItem);
               Throw (ServiceError "Error" "DynamoDB error")] 0)
  = (Throw (ServiceError "Error" "DynamoDB error"),
     {| client := [];
        sent := [ GetCommand "TestTable"
                    (<[ "sk" := KString "2024-01-01" ]> {[ "pk" := KString "test-id" ]});
                  PutCommand "TestTable"
                    (<[ "deletedAt" := VString "1970-01-01T00:00:00.000Z" ]> testItem)
                    None None ];
        console := [("Error putting item to DynamoDB:",
                     ServiceError "Error" "DynamoDB error")];
        clock := 0 |}).
Proof.
  pose proof (softDelete_outcomes scripted testEntityMetadata TestEntity
                (KString "test-id") (Some (KString "2024-01-01"))
                (newWorld [Return (itemResponse testItem);
                           Throw (ServiceError "Error" "DynamoDB error")] 0)
                "TestTable"
                (<[ "sk" := KString "2024-01-01" ]> {[ "pk" := KString "test-id" ]}))
    as H.
  cbv zeta in H. destruct H as (_ & _ & Hitem).
  - vm_compute. reflexivity.
  - vm_compute. reflexivity.
  - destruct (Hitem (itemResponse testItem)
                [Throw (ServiceError "Error" "DynamoDB error")] testItem
                eq_refl eq_refl) as (Hrejected & _).
    rewrite (Hrejected (ServiceError "Error" "DynamoDB error") [] eq_refl).
    reflexivity.
Defined.

(** A class whose two key decorators name the same field: the key map has
    that field alone, with the sort value.  A class whose sort field is
    named [__proto__]: the key map has the partition field alone. *)
Lemma buildKeyMap_with_sort_value_witness :
  (exists key,
      buildKeyMap
        (declare [ DeclPartitionKey (Some "id") (Prototype TestEntity)
                     (PString "orgId");
                   DeclSortKey (Some "id") (Prototype TestEntity)
                     (PString "userId") ] noMetadata)
        TestEntity (KString "partition-value") (Some (KString "sort-value"))
      = Return key
      /\ key = {[ "id" := KString "sort-value" ]})
  /\ (exists key,
        buildKeyMap
          (declare [ DeclPartitionKey (Some "pk") (Prototype TestEntity)
                       (PString "id");
                     DeclSortKey (Some "__proto__") (Prototype TestEntity)
                       (PString "timestamp") ] noMetadata)
          TestEntity (KString "partition-value") (Some (KString "sort-value"))
        = Return key
        /\ key = {[ "pk" := KString "partition-value" ]}).
Proof.
  split.
  - destruct (buildKeyMap_with_sort_value
                (declare [ DeclPartitionKey (Some "id") (Prototype TestEntity)
                             (PString "orgId");
                           DeclSortKey (Some "id") (Prototype TestEntity)
                             (PString "userId") ] noMetadata)
                TestEntity (KString "partition-value") (KString "sort-value")
                "id" "id") as (key & Hkey & _ & Hsame & _).
    + vm_compute. reflexivity.
    + discriminate.
    + vm_compute. reflexivity.
    + discriminate.
    + exists key. split; [exact Hkey|]. apply Hsame. reflexivity.
  - destruct (buildKeyMap_with_sort_value
                (declare [ DeclPartitionKey (Some "pk") (Prototype TestEntity)
                             (PString "id");
                           DeclSortKey (Some "__proto__") (Prototype TestEntity)
                             (PString "timestamp") ] noMetadata)
                TestEntity (KString "partition-value") (KString "sort-value")
                "pk" "__proto__") as (key & Hkey & _ & _ & Hproto).
    + vm_compute. reflexivity.
    + discriminate.
    + vm_compute. reflexivity.
    + discriminate.
    + exists key. split; [exact Hkey|]. apply Hproto; [reflexivity|discriminate].
Defined.

(** The class of the test suite that declares both keys of [EmailIndex]. *)
Lemma index_key_preferred_witness :
  getPKName entityWithIndexMetadata EntityWithIndex (Some "EmailIndex")
  = Return "type"
  /\ getSKName entityWithIndexMetadata EntityWithIndex (Some "EmailIndex")
     = Return (Some "email").
Proof.
  destruct (index_key_preferred entityWithIndexMetadata EntityWithIndex
              "EmailIndex") as (Hpk & Hsk & _).
  - reflexivity.
  - split.
    + apply Hpk; [vm_compute; reflexivity|discriminate].
    + apply Hsk; [vm_compute; reflexivity|discriminate].
Defined.

(** A query of the class of the test suite on the index named with one
    space. *)
Lemma white_space_index_name_witness :
  query scripted testEntityMetadata TestEntity
    {| pk := KString "USER"; sk := None; skComparator := None;
       indexName := Some " "; scanIndexForward := None; limit := None |}
    (newWorld [] 0)
  = (Throw (Error "indexName cannot be empty"), newWorld [] 0)
  /\ getIndexSortKeyName (Class TestEntity) " " testEntityMetadata
     = Throw (Error "indexName cannot be empty").
Proof.
  destruct (white_space_index_name scripted testEntityMetadata TestEntity
              {| pk := KString "USER"; sk := None; skComparator := None;
                 indexName := Some " "; scanIndexForward := None; limit := None |}
              " " "TestTable" (newWorld [] 0)) as (_ & Hresolver & _ & Hquery).
  - vm_compute. reflexivity.
  - reflexivity.
  - reflexivity.
  - split; [|exact Hresolver].
    destruct Hquery as (_ & _ & H); [discriminate|exact H].
Defined.

(** The query of the test suite with a client that rejects. *)
Lemma query_rejection_rethrown_witness :
  query scripted testEntityMetadata TestEntity
    {| pk := KString "test-id"; sk := None; skComparator := None;
       indexName := None; scanIndexForward := None; limit := None |}
    (newWorld [Throw (ServiceError "Error" "DynamoDB error")] 0)
  = (Throw (ServiceError "Error" "DynamoDB error"),
     afterRejection (newWorld [Throw (ServiceError "Error" "DynamoDB error")] 0)
       (QueryCommand
          (partitionQueryInput "TestTable" "pk"
             {| pk := KString "test-id"; sk := None; skComparator := None;
                indexName := None; scanIndexForward := None; limit := None |}))
       [] "Error querying items from DynamoDB:"
       (ServiceError "Error" "DynamoDB error")).
Proof.
  destruct (query_rejection_rethrown scripted testEntityMetadata TestEntity
              {| pk := KString "test-id"; sk := None; skComparator := None;
                 indexName := None; scanIndexForward := None; limit := None |}
              "TestTable" "pk" (ServiceError "Error" "DynamoDB error")
              (newWorld [Throw (ServiceError "Error" "DynamoDB error")] 0) [])
    as (H & _).
  - vm_compute. reflexivity.
  - vm_compute. reflexivity.
  - apply H; reflexivity.
Defined.

(** The query of the test suite with a sort value, answered with two
    items. *)
Lemma query_with_sort_value_answered_witness :
  (query scripted testEntityMetadata TestEntity
     {| pk := KString "test-id"; sk := Some (KString "2024-01-01");
        skComparator := None; indexName := None; scanIndexForward := None;
        limit := None |}
     (newWorld [Return {| rItem := None; rItems := Some [testItem; testItem];
                          rLastEvaluatedKey := None; rCount := Some 2%Z |}] 0)).1
  = Return {| items := Some [testItem; testItem]; lastEvaluatedKey := None;
              count := 2 |}.
Proof.
  rewrite (query_with_sort_value_answered scripted testEntityMetadata TestEntity
             {| pk := KString "test-id"; sk := Some (KString "2024-01-01");
                skComparator := None; indexName := None; scanIndexForward := None;
                limit := None |}
             "TestTable" "pk" "sk" (KString "2024-01-01")
             {| rItem := None; rItems := Some [testItem; testItem];
                rLastEvaluatedKey := None; rCount := Some 2%Z |}
             (newWorld [Return {| rItem := None; rItems := Some [testItem; testItem];
                                  rLastEvaluatedKey := None; rCount := Some 2%Z |}] 0)
             []).
  - reflexivity.
  - reflexivity.
  - vm_compute. reflexivity.
  - vm_compute. reflexivity.
  - vm_compute. reflexivity.
  - discriminate.
  - reflexivity.
Defined.

(** Declaring [UserEntity] after the class of the test suite changes
    nothing for the latter. *)
Lemma declarations_elsewhere_change_nothing_witness :
  getPKName
    (declare [ DeclPartitionKey None (Prototype UserEntity) (PString "orgId");
               DeclSortKey None (Prototype UserEntity) (PString "id");
               DeclDynamoTable (Some "User") UserEntity ] testEntityMetadata)
    TestEntity None
  = getPKName testEntityMetadata TestEntity None
  /\ getSortKeyName (Instance TestEntity)
       (declare [ DeclPartitionKey None (Prototype UserEntity) (PString "orgId");
                  DeclSortKey None (Prototype UserEntity) (PString "id");
                  DeclDynamoTable (Some "User") UserEntity ] testEntityMetadata)
     = getSortKeyName (Instance TestEntity) testEntityMetadata.
Proof.
  destruct (declarations_elsewhere_change_nothing
              [ DeclPartitionKey None (Prototype UserEntity) (PString "orgId");
                DeclSortKey None (Prototype UserEntity) (PString "id");
                DeclDynamoTable (Some "User") UserEntity ]
              testEntityMetadata TestEntity) with (target := Instance TestEntity)
    as (_ & _ & Hsort & _ & _ & _ & Hpk & _).
  - repeat (constructor; [split; discriminate|]). constructor.
  - reflexivity.
  - split; [apply Hpk|exact Hsort].
Defined.

(** A second [@PartitionKey] with a field name of three spaces on the
    declared class of the test suite, and the call of the test suite with
    the empty index name. *)
Lemma blank_names_rejected_witness :
  PartitionKey (Some "   ") (Prototype TestEntity) (PString "name")
    testEntityMetadata
  = (Throw (Error "Invalid fieldName: cannot be an empty string."),
     testEntityMetadata)
  /\ IndexPartitionKey "" (Some "field") (Prototype TestEntity) (PString "field")
       testEntityMetadata
     = (Throw (Error "Invalid indexName: cannot be an empty string."),
        testEntityMetadata).
Proof.
  destruct (blank_names_rejected testEntityMetadata TestEntity
              (Prototype TestEntity) (PString "name")) as (Hname & _).
  destruct (blank_names_rejected testEntityMetadata TestEntity
              (Prototype TestEntity) (PString "field")) as (_ & Hindex).
  split.
  - apply (Hname (Some "   ")). exists "   ". repeat split. discriminate.
  - apply (Hindex "" (Some "field")). reflexivity.
Defined.

(** [@DynamoTable("Other")] on the declared class of the test suite. *)
Lemma duplicate_error_message_witness :
  DynamoTable (Some "Other") TestEntity testEntityMetadata
  = (Throw (DuplicateDecoratorError
              ("Multiple @DynamoTable decorators found in class "
               +:+ dq +:+ "Function" +:+ dq
               +:+ ". Existing decorator: " +:+ dq +:+ "TestTable" +:+ dq
               +:+ ", conflicting property: " +:+ dq +:+ "Other" +:+ dq)),
     testEntityMetadata).
Proof.
  destruct (duplicate_error_message testEntityMetadata TestEntity (Some "Other")
              (PString "id") "TestTable") as (Htable & _).
  - intros v [= <-]. right. reflexivity.
  - apply Htable. vm_compute. reflexivity.
Defined.

(** [@DynamoTable("")] on a fresh class, then [@DynamoTable("TestTable")]. *)
Lemma empty_name_is_permanent_witness :
  getDynamoTableName (Class TestEntity)
    (declare [DeclDynamoTable (Some "TestTable") TestEntity]
       (DynamoTable (Some "") TestEntity noMetadata).2) = Some ""
  /\ exists message,
       getTableName
         (declare [DeclDynamoTable (Some "TestTable") TestEntity]
            (DynamoTable (Some "") TestEntity noMetadata).2) TestEntity
       = Throw (DecoratorMissingError message).
Proof.
  destruct (empty_name_is_permanent noMetadata TestEntity (PString "id")
              [DeclDynamoTable (Some "TestTable") TestEntity]) as (Htable & _).
  apply Htable. reflexivity.
Defined.

(** C2 on the class of the skipped test: [@PartitionKey("pk")], then
    [@SortKey("")], then [@DynamoTable("TestTable")]. *)
Lemma create_empty_sort_key_witness :
  getSortKeyName (Class EntityEmptySortKey) emptySortKeyMetadata = Some ""
  /\ sent (create scripted emptySortKeyMetadata EntityEmptySortKey
             (Object_ testItem) (newWorld [] 0)).2
     = ([] ++ [PutCommand "TestTable" testItem (Some "attribute_not_exists(#pk)")
                 (Some {[ "#pk" := Field "pk" ]})])%list.
Proof.
  pose proof (create_empty_sort_key scripted
                (declare [ DeclPartitionKey (Some "pk")
                             (Prototype EntityEmptySortKey) (PString "id") ]
                   noMetadata)
                EntityEmptySortKey (PString "timestamp")
                [ DeclDynamoTable (Some "TestTable") EntityEmptySortKey ]
                "TestTable" "pk" testItem (newWorld [] 0)) as H.
  cbv zeta in H. destruct H as (_ & Hs & Hsent).
  - reflexivity.
  - vm_compute. reflexivity.
  - vm_compute. reflexivity.
  - split; [exact Hs|exact Hsent].
Defined.

(** C5 on the class of the skipped test: [@PartitionKey("")], then
    [@DynamoTable("TestTable")]. *)
Lemma buildKeyMap_empty_partition_key_witness :
  getPartitionKeyName (Class EntityEmptyPartitionKey) emptyPartitionKeyMetadata
  = Some ""
  /\ exists message,
       buildKeyMap emptyPartitionKeyMetadata EntityEmptyPartitionKey
         (KString "partition-value") None
       = Throw (DecoratorMissingError message).
Proof.
  pose proof (buildKeyMap_empty_partition_key noMetadata EntityEmptyPartitionKey
                (PString "id")
                [ DeclDynamoTable (Some "TestTable") EntityEmptyPartitionKey ])
    as H.
  cbv zeta in H. destruct H as (_ & Hp & message & Hkey).
  - reflexivity.
  - split; [exact Hp|]. exists message. apply Hkey.
Defined.

(** The class of the test suite, declared on the empty registry. *)
Lemma declared_class_resolves_witness :
  getTableName testEntityMetadata TestEntity = Return "TestTable"
  /\ buildKeyMap testEntityMetadata TestEntity (KString "test-id")
       (Some (KString "2024-01-01"))
     = Return (<[ "sk" := KString "2024-01-01" ]> {[ "pk" := KString "test-id" ]}).
Proof.
  pose proof (declared_class_resolves noMetadata TestEntity (Some "pk") (Some "sk")
                (Some "TestTable") (PString "id") (PString "timestamp")) as H.
  cbv zeta in H.
  destruct H as (_ & _ & _ & Htable & _ & Hkey);
    try reflexivity; try (intros v [= <-]; right; reflexivity).
  split.
  - apply Htable. discriminate.
  - apply Hkey; discriminate.
Defined.

(** [findByEmail] with the class of the test suite declared as well: one
    user found, and a count without items. *)
Lemma findByEmail_outcomes_witness :
  UsersRepository.findByEmail scripted
    (declare [ DeclPartitionKey (Some "pk") (Prototype TestEntity) (PString "id");
               DeclDynamoTable (Some "TestTable") TestEntity ] userEntityMetadata)
    "a@x.com"
    (newWorld [Return {| rItem := None; rItems := Some [testItem];
                         rLastEvaluatedKey := None; rCount := Some 1%Z |}] 0)
  = (Return (Some testItem),
     afterSend
       (newWorld [Return {| rItem := None; rItems := Some [testItem];
                            rLastEvaluatedKey := None; rCount := Some 1%Z |}] 0)
       (QueryCommand (findByEmailInput "a@x.com")) [])
  /\ UsersRepository.findByEmail scripted
       (declare [ DeclPartitionKey (Some "pk") (Prototype TestEntity) (PString "id");
                  DeclDynamoTable (Some "TestTable") TestEntity ] userEntityMetadata)
       "a@x.com"
       (newWorld [Return {| rItem := None; rItems := Some [];
                            rLastEvaluatedKey := None; rCount := Some 1%Z |}] 0)
     = (Return None,
        afterSend
          (newWorld [Return {| rItem := None; rItems := Some [];
                               rLastEvaluatedKey := None; rCount := Some 1%Z |}] 0)
          (QueryCommand (findByEmailInput "a@x.com")) []).
Proof.
  assert (Hds : Forall (elsewhere UserEntity)
                  [ DeclPartitionKey (Some "pk") (Prototype TestEntity) (PString "id");
                    DeclDynamoTable (Some "TestTable") TestEntity ]).
  { repeat (constructor; [split; discriminate|]). constructor. }
  split.
  - pose proof (findByEmail_outcomes scripted _ Hds "a@x.com"
                  {| rItem := None; rItems := Some [testItem];
                     rLastEvaluatedKey := None; rCount := Some 1%Z |}
                  (newWorld [Return {| rItem := None; rItems := Some [testItem];
                                       rLastEvaluatedKey := None;
                                       rCount := Some 1%Z |}] 0)
                  [] eq_refl) as H.
    cbv zeta in H. destruct H as (_ & Hfirst & _).
    apply (Hfirst testItem []); [discriminate|reflexivity].
  - pose proof (findByEmail_outcomes scripted _ Hds "a@x.com"
                  {| rItem := None; rItems := Some [];
                     rLastEvaluatedKey := None; rCount := Some 1%Z |}
                  (newWorld [Return {| rItem := None; rItems := Some [];
                                       rLastEvaluatedKey := None;
                                       rCount := Some 1%Z |}] 0)
                  [] eq_refl) as H.
    cbv zeta in H. destruct H as (_ & _ & Hempty & _).
    apply Hempty; [discriminate|reflexivity].
Defined.

(** [delete] for a user that is not there. *)
Lemma usersRepository_methods_witness :
  UsersRepository.delete scripted (declare [] userEntityMetadata) "42"
    (newWorld [Return emptyResponse] 0)
  = (Throw (ItemNotFoundError "Item not found in your DynamoDB Table!"),
     afterRejection (newWorld [Return emptyResponse] 0)
       (GetCommand "User" (userKey "42")) []
       "Error getting item from DynamoDB:"
       (ItemNotFoundError "Item not found in your DynamoDB Table!")).
Proof.
  pose proof (usersRepository_methods scripted [] ltac:(constructor) "42"
                (newWorld [Return emptyResponse] 0)) as H.
  cbv zeta in H. destruct H as (_ & _ & Habsent).
  destruct (Habsent emptyResponse [] eq_refl eq_refl) as (_ & Hdelete).
  exact Hdelete.
Defined.

(** ** The classes of the test suite, resolved *)

Example testEntity_resolves :
  getTableName testEntityMetadata TestEntity = Return "TestTable"
  /\ getPKName testEntityMetadata TestEntity None = Return "pk"
  /\ getSKName testEntityMetadata TestEntity None = Return (Some "sk")
  /\ getDynamoTableName (Instance TestEntity) testEntityMetadata = Some "TestTable".
Proof. vm_compute. repeat split. Qed.

Example entityWithIndex_resolves :
  getPKName entityWithIndexMetadata EntityWithIndex (Some "EmailIndex") = Return "type"
  /\ getSKName entityWithIndexMetadata EntityWithIndex (Some "EmailIndex")
     = Return (Some "email")
  /\ getPKName entityWithIndexMetadata EntityWithIndex None = Return "pk"
  /\ getSKName entityWithIndexMetadata EntityWithIndex None = Return (Some "sk")
  /\ getIndexPartitionKeyName (Class EntityWithIndex) "" entityWithIndexMetadata
     = Throw (Error "indexName cannot be empty")
  /\ getIndexSortKeyName (Class EntityWithIndex) "   " entityWithIndexMetadata
     = Throw (Error "indexName cannot be empty").
Proof. vm_compute. repeat split. Qed.

Example buildKeyMap_of_the_tests :
  buildKeyMap testEntityMetadata TestEntity (KString "pk-value")
    (Some (KString "sk-value"))
  = Return (<[ "sk" := KString "sk-value" ]> {[ "pk" := KString "pk-value" ]})
  /\ buildKeyMap pkOnlyMetadata EntityPKOnly (KString "partition-value") None
     = Return {[ "pk" := KString "partition-value" ]}.
Proof. vm_compute. repeat split. Qed.

Example buildQueryExpressions_of_the_tests :
  buildQueryExpressions (KString "test-id") "pk" None None None
  = partitionOnly (KString "test-id") "pk"
  /\ keyConditionExpression
       (buildQueryExpressions (KString "test-id") "pk" (Some (KString "2024-01-01"))
          (Some "sk") (Some "="))
     = "#pk = :pkValue AND #sk = :skValue"
  /\ expressionAttributeValues
       (buildQueryExpressions (KNumber 123) "pk" (Some (KNumber 456)) (Some "sk")
          (Some ">"))
     = <[ ":skValue" := KNumber 456 ]> {[ ":pkValue" := KNumber 123 ]}
  /\ map (fun c => keyConditionExpression
                     (buildQueryExpressions (KString "test-id") "pk"
                        (Some (KString "2024-01-01")) (Some "sk")
                        (Some (comparatorText c))))
       [CmpEq; CmpGt; CmpLt; CmpGe; CmpLe; CmpBetween; CmpBeginsWith]
     = [ "#pk = :pkValue AND #sk = :skValue";
         "#pk = :pkValue AND #sk > :skValue";
         "#pk = :pkValue AND #sk < :skValue";
         "#pk = :pkValue AND #sk >= :skValue";
         "#pk = :pkValue AND #sk <= :skValue";
         "#pk = :pkValue AND #sk BETWEEN :skValue";
         "#pk = :pkValue AND begins_with(#sk, :skValue)" ].
Proof. vm_compute. repeat split. Qed.

Example toISOString_examples :
  toISOString 0 = "1970-01-01T00:00:00.000Z"
  /\ toISOString 951782400000 = "2000-02-29T00:00:00.000Z"
  /\ toISOString 1700000000000 = "2023-11-14T22:13:20.000Z"
  /\ toISOString (-1) = "1969-12-31T23:59:59.999Z"
  /\ toISOString 253402300800000 = "+010000-01-01T00:00:00.000Z".
Proof. vm_compute. repeat split. Qed.

Example trim_examples :
  trim "  a b  " = "a b" /\ trim "   " = "" /\ trim "" = "" /\ trim "x" = "x".
Proof. vm_compute. repeat split. Qed.

Example decorators_of_the_tests :
  (* multiple partition keys for different indexes *)
  (let R := declare
              [ DeclIndexPartitionKey "Index1" (Some "field1")
                  (Prototype EntityWithIndex) (PString "field1");
                DeclIndexPartitionKey "Index2" (Some "field2")
                  (Prototype EntityWithIndex) (PString "field2") ] noMetadata in
   getIndexPartitionKeyName (Class EntityWithIndex) "Index1" R = Return (Some "field1")
   /\ getIndexPartitionKeyName (Class EntityWithIndex) "Index2" R
      = Return (Some "field2"))
  (* multiple sort keys on the same index *)
  /\ (let R := declare
                 [ DeclIndexSortKey "EmailIndex" (Some "sk1")
                     (Prototype EntityWithIndex) (PString "field1") ] noMetadata in
      isDuplicateDecoratorError
        match (IndexSortKey "EmailIndex" (Some "sk2") (Prototype EntityWithIndex)
                 (PString "field2") R).1 with
        | Throw e => e
        | Return _ => Error ""
        end = true)
  (* the empty index name *)
  /\ (IndexPartitionKey "" (Some "field") (Prototype EntityWithIndex)
        (PString "field") noMetadata).1
     = Throw (Error "Invalid indexName: cannot be an empty string.")
  (* the class name as table name *)
  /\ getDynamoTableName (Class UserEntity)
       (declare [DeclDynamoTable None UserEntity] noMetadata) = Some "UserEntity"
  (* a white-space table name *)
  /\ (DynamoTable (Some "   ") TestEntity noMetadata).1
     = Throw (Error "Invalid tableName: cannot be an empty string.").
Proof. vm_compute. repeat split. Qed.

Example repository_of_the_tests :
  (* create returns the item *)
  (create scripted testEntityMetadata TestEntity (Object_ testItem)
     (newWorld [Return emptyResponse] 0)).1 = Return testItem
  (* remove sends the key map *)
  /\ sent (remove scripted testEntityMetadata TestEntity (KString "test-id")
             (Some (KString "2024-01-01")) (newWorld [] 0)).2
     = [DeleteCommand "TestTable"
          (<[ "sk" := KString "2024-01-01" ]> {[ "pk" := KString "test-id" ]})]
  (* a class without a table name *)
  /\ isDecoratorMissingError
       match getTableName noMetadata TestEntity with
       | Throw e => e
       | Return _ => Error ""
       end = true
  (* the count of the response *)
  /\ (query scripted testEntityMetadata TestEntity
        {| pk := KString "test-id"; sk := None; skComparator := None;
           indexName := None; scanIndexForward := Some false; limit := Some 10%Z |}
        (newWorld [Return {| rItem := None; rItems := Some [testItem; testItem];
                             rLastEvaluatedKey := None; rCount := Some 2%Z |}] 0)).1
     = Return {| items := Some [testItem; testItem]; lastEvaluatedKey := None;
                 count := 2 |}.
Proof. vm_compute. repeat split. Qed.
